(** * pdfp1: the PDF processing pipeline

    A shallow embedding of [app/validators.py] (the validator) and of
    [app/main.py] (the orchestrator [process_pdf] and the report renderer
    [generate_output_text]), followed by the properties of the pipeline.

    Python values are dynamically typed, so the embedding works on a
    universal [value] type; operations that Python rejects at run time
    ([KeyError], [AttributeError], [TypeError]) return [Raise].  Calls
    that leave the program (the file system, libmagic, PyPDF2, the five
    extractors, the clock, [print]) go through an environment of oracles
    and are recorded in a chronological log of events. *)

From Stdlib Require Import String Ascii List ZArith NArith Lia Bool DecimalString.
From Stdlib Require Import QArith_base.
#[local] Close Scope Q_scope.
Import ListNotations.

#[local] Set Warnings "-register-all".
#[local] Open Scope string_scope.

(* ================================================================== *)
(** ** Python values *)
(* ================================================================== *)

Module Py.

(** One [ascii] stands for one character of a Python [str]. *)

(** The values that flow through the pipeline.  A [dict] keeps its
    insertion order, as Python's does; keys are strings.  [VOther] is any
    object that is neither a string nor a container (a [float], say): the
    program only ever asks such an object for its truth value and for its
    [str()], so these two are what the constructor carries. *)
Inductive value : Type :=
| VNone
| VBool (b : bool)
| VInt (n : Z)
| VStr (s : string)
| VList (xs : list value)
| VDict (kvs : list (string * value))
| VOther (truth : bool) (repr : string).

Definition dict : Type := list (string * value).

(** Exception classes that the modelled code can meet.  Every one of them
    derives from [Exception]; [PdfReadError] stands for
    [PyPDF2.errors.PdfReadError] and its subclasses, [OtherException] for
    any class not named here (an [OSError] from the file system, ...). *)
Inductive exn_class : Type :=
| KeyError | AttributeError | TypeError | PdfReadError | OtherException.

(** An exception instance; [exn_msg] is what [str(e)] returns. *)
Record exn : Type := mk_exn { exn_cls : exn_class; exn_msg : string }.

Inductive result (A : Type) : Type :=
| Ok (a : A)
| Raise (e : exn).
Arguments Ok {A} a.
Arguments Raise {A} e.

Definition rbind {A B} (c : result A) (k : A -> result B) : result B :=
  match c with
  | Ok a => k a
  | Raise e => Raise e
  end.

Declare Scope result_scope.
Delimit Scope result_scope with result.
Notation "x <- c ;; k" := (rbind c (fun x => k))
  (at level 61, c at next level, right associativity) : result_scope.

(** *** Strings *)

Definition newline : string := String "010"%char EmptyString.

(** [c * n] for a one-character string. *)
Fixpoint str_repeat (c : ascii) (n : nat) : string :=
  match n with
  | O => EmptyString
  | S n' => String c (str_repeat c n')
  end.

(** [sep.join(parts)] on strings. *)
Definition str_join (sep : string) (parts : list string) : string :=
  String.concat sep parts.

(** [str(n)] for an [int]. *)
Definition str_of_int (n : Z) : string := NilZero.string_of_int (Z.to_int n).

Definition str_of_nat (n : nat) : string := str_of_int (Z.of_nat n).

Definition ascii_lower (c : ascii) : ascii :=
  let n := nat_of_ascii c in
  if andb (65 <=? n)%nat (n <=? 90)%nat then ascii_of_nat (n + 32) else c.

(** [s.lower()], on the letters A-Z. *)
Fixpoint str_lower (s : string) : string :=
  match s with
  | EmptyString => EmptyString
  | String c s' => String (ascii_lower c) (str_lower s')
  end.

(** [s.endswith(suffix)]. *)
Definition str_endswith (s suffix : string) : bool :=
  let n := String.length s in
  let m := String.length suffix in
  andb (m <=? n)%nat (String.eqb (substring (n - m) m s) suffix).

(** [c.isspace()] on the first 256 code points. *)
Definition is_space (c : ascii) : bool :=
  let n := nat_of_ascii c in
  orb (andb (9 <=? n)%nat (n <=? 13)%nat)
      (orb (andb (28 <=? n)%nat (n <=? 32)%nat)
           (orb (n =? 133)%nat (n =? 160)%nat)).

Fixpoint str_lstrip (s : string) : string :=
  match s with
  | EmptyString => EmptyString
  | String c s' => if is_space c then str_lstrip s' else s
  end.

Fixpoint str_rev_acc (s acc : string) : string :=
  match s with
  | EmptyString => acc
  | String c s' => str_rev_acc s' (String c acc)
  end.

Definition str_rev (s : string) : string := str_rev_acc s EmptyString.

(** [s.strip()]. *)
Definition str_strip (s : string) : string :=
  str_rev (str_lstrip (str_rev (str_lstrip s))).

(** [s[:n]]. *)
Definition str_slice_to (n : nat) (s : string) : string := substring 0 n s.

(** [needle in haystack] on strings. *)
Fixpoint str_contains (needle haystack : string) : bool :=
  orb (prefix needle haystack)
      match haystack with
      | EmptyString => false
      | String _ h' => str_contains needle h'
      end.

(** *** Dictionaries *)

Fixpoint dict_get (d : dict) (k : string) : option value :=
  match d with
  | [] => None
  | (k', v) :: d' => if String.eqb k' k then Some v else dict_get d' k
  end.

(** [k in d]. *)
Definition dict_mem (d : dict) (k : string) : bool :=
  match dict_get d k with
  | Some _ => true
  | None => false
  end.

(** [d.get(k, default)]. *)
Definition dict_get_default (d : dict) (k : string) (default : value) : value :=
  match dict_get d k with
  | Some v => v
  | None => default
  end.

(** [d[k] = v]: an existing key keeps its place, a new one goes last. *)
Fixpoint dict_set (d : dict) (k : string) (v : value) : dict :=
  match d with
  | [] => [(k, v)]
  | (k', v') :: d' =>
      if String.eqb k' k then (k, v) :: d' else (k', v') :: dict_set d' k v
  end.

Definition dict_keys (d : dict) : list string := map fst d.

(** [d[k]]; a missing key raises [KeyError], whose [str()] is the quoted
    key. *)
Definition getitem (d : dict) (k : string) : result value :=
  match dict_get d k with
  | Some v => Ok v
  | None => Raise (mk_exn KeyError ("'" ++ k ++ "'"))
  end.

(** *** Operations on arbitrary values

    The messages of [AttributeError] and [TypeError] are those of CPython
    3.11; no property below depends on their text. *)

(** [bool(v)], the test behind [if v:]. *)
Definition truthy (v : value) : bool :=
  match v with
  | VNone => false
  | VBool b => b
  | VInt n => negb (n =? 0)%Z
  | VStr s => negb (String.eqb s "")
  | VList xs => match xs with [] => false | _ => true end
  | VDict kvs => match kvs with [] => false | _ => true end
  | VOther t _ => t
  end.

Definition type_name (v : value) : string :=
  match v with
  | VNone => "NoneType"
  | VBool _ => "bool"
  | VInt _ => "int"
  | VStr _ => "str"
  | VList _ => "list"
  | VDict _ => "dict"
  | VOther _ _ => "object"
  end.

Definition no_attribute (v : value) (attr : string) : exn :=
  mk_exn AttributeError
    ("'" ++ type_name v ++ "' object has no attribute '" ++ attr ++ "'").

(** [v.get(k, default)]: only a dict has [get]. *)
Definition py_get (v : value) (k : string) (default : value) : result value :=
  match v with
  | VDict d => Ok (dict_get_default d k default)
  | _ => Raise (no_attribute v "get")
  end.

(** [v.items()]: only a dict has [items]. *)
Definition py_items (v : value) : result (list (string * value)) :=
  match v with
  | VDict d => Ok d
  | _ => Raise (no_attribute v "items")
  end.

(** [v[k]] for a string key [k]. *)
Definition py_getitem (v : value) (k : string) : result value :=
  match v with
  | VDict d => getitem d k
  | VList _ =>
      Raise (mk_exn TypeError "list indices must be integers or slices, not str")
  | VStr _ =>
      Raise (mk_exn TypeError "string indices must be integers, not 'str'")
  | _ => Raise (mk_exn TypeError
                  ("'" ++ type_name v ++ "' object is not subscriptable"))
  end.

(** The elements that [for x in v] visits. *)
Definition py_iter (v : value) : result (list value) :=
  match v with
  | VList xs => Ok xs
  | VStr s =>
      Ok (map (fun c => VStr (String c EmptyString)) (list_ascii_of_string s))
  | VDict d => Ok (map (fun kv => VStr (fst kv)) d)
  | _ => Raise (mk_exn TypeError
                  ("'" ++ type_name v ++ "' object is not iterable"))
  end.

(** [len(v)]. *)
Definition py_len (v : value) : result nat :=
  match v with
  | VStr s => Ok (String.length s)
  | VList xs => Ok (List.length xs)
  | VDict d => Ok (List.length d)
  | _ => Raise (mk_exn TypeError
                  ("object of type '" ++ type_name v ++ "' has no len()"))
  end.

(** [sep.join(items)]: every item must be a [str]; [all_str i items]
    checks the items, the first of which has index [i]. *)
Fixpoint all_str (i : nat) (items : list value) : result (list string) :=
  match items with
  | [] => Ok []
  | VStr s :: rest =>
      match all_str (S i) rest with
      | Ok ss => Ok (s :: ss)
      | Raise e => Raise e
      end
  | v :: _ => Raise (mk_exn TypeError
                       ("sequence item " ++ str_of_nat i
                          ++ ": expected str instance, "
                          ++ type_name v ++ " found"))
  end.

Definition py_join (sep : string) (items : list value) : result string :=
  match all_str 0 items with
  | Ok ss => Ok (str_join sep ss)
  | Raise e => Raise e
  end.

(** What the interpreter supplies and the renderer uses on values of any
    type: [str(v)] (the conversion an f-string applies), [a == b], and
    [s.title()].  The development is parametric in them; it relies only on
    their behaviour on strings. *)
Class Runtime : Type := {
  py_str : value -> string;
  py_eq : value -> value -> bool;
  str_title : string -> string;
  py_str_VStr : forall s, py_str (VStr s) = s;
  py_eq_VStr : forall a b, py_eq (VStr a) (VStr b) = String.eqb a b
}.

End Py.

(* ================================================================== *)
(** ** os.path, as the batch driver uses it *)
(* ================================================================== *)

Module OsPath.
Import Py.

(** The functions are those of [posixpath]: the separator is "/" and the
    extension separator is ".". *)

(** [s.rfind(c)] for a character [c]: the index of its last occurrence in
    [s], or -1.  [i] is the index of the first character of [s]. *)
Fixpoint str_rfind_from (c : ascii) (s : string) (i : Z) : Z :=
  match s with
  | EmptyString => (-1)%Z
  | String a s' =>
      let later := str_rfind_from c s' (i + 1) in
      if (0 <=? later)%Z then later
      else if Ascii.eqb a c then i
      else (-1)%Z
  end.

Definition str_rfind (c : ascii) (s : string) : Z := str_rfind_from c s 0.

(** [s[n:]]. *)
Fixpoint str_slice_from (n : nat) (s : string) : string :=
  match n, s with
  | O, _ => s
  | S n', String _ s' => str_slice_from n' s'
  | S _, EmptyString => EmptyString
  end.

(** [os.path.basename(p)]: [i = p.rfind('/') + 1; return p[i:]]. *)
Definition basename (p : string) : string :=
  let i := (str_rfind "/" p + 1)%Z in
  str_slice_from (Z.to_nat i) p.

(** Some character of [s] differs from [c]. *)
Fixpoint has_other_than (c : ascii) (s : string) : bool :=
  match s with
  | EmptyString => false
  | String a s' => if Ascii.eqb a c then has_other_than c s' else true
  end.

(** [os.path.splitext(p)].  The extension starts at the last dot of the
    last component; a component made of leading dots only has none.  The
    loop of the library visits the characters from the start of the last
    component up to the last dot and splits at the dot as soon as one of
    them is not a dot. *)
Definition splitext (p : string) : string * string :=
  let sepIndex := str_rfind "/" p in
  let dotIndex := str_rfind "." p in
  if (sepIndex <? dotIndex)%Z
  then
    let filenameIndex := Z.to_nat (sepIndex + 1) in
    if has_other_than "."
         (substring filenameIndex (Z.to_nat dotIndex - filenameIndex) p)
    then (str_slice_to (Z.to_nat dotIndex) p,
          str_slice_from (Z.to_nat dotIndex) p)
    else (p, EmptyString)
  else (p, EmptyString).

(** [os.path.join(a, b)]. *)
Definition join (a b : string) : string :=
  if prefix "/" b then b
  else if orb (String.eqb a "") (str_endswith a "/") then a ++ b
  else a ++ "/" ++ b.

End OsPath.

(* ================================================================== *)
(** ** The world outside the program *)
(* ================================================================== *)

Module World.
Import Py.

(** The external operations the pipeline calls, each on a file path. *)
Inductive op : Type :=
| OpExists            (* os.path.exists *)
| OpGetsize           (* os.path.getsize *)
| OpMagic             (* magic.from_file(path, mime=True) *)
| OpOpen              (* open(path, 'rb') *)
| OpPdfReader         (* PyPDF2.PdfReader(file) *)
| OpLenPages          (* len(pdf_reader.pages) *)
| OpFirstPage         (* pdf_reader.pages[0] *)
| OpExtractText       (* first_page.extract_text() *)
| OpTextAndStructure  (* utilities.pdf_parser.extract_text_and_structure *)
| OpImages            (* utilities.image_detector.extract_images *)
| OpTables            (* utilities.table_extractor.extract_tables *)
| OpMetadata          (* utilities.metadata_extractor.extract_metadata *)
| OpOcr.              (* utilities.ocr.perform_ocr *)

Inductive event : Type :=
| EvPrint (line : string)
| EvNow
| EvCall (o : op) (path : string).

Definition log : Type := list event.

(** What each external operation answers for a path: a value or a raised
    exception.  The oracles are independent of one another, so a file may
    exist and still fail to report its size.  [extract_text_and_structure]
    answers with a dict, as its interface says and as [process_pdf], which
    calls [get] on the answer, expects; the answers of the other four
    extractors are stored as they come, whatever they are.  [timestamp n] is
    [datetime.now().strftime('%Y-%m-%d %H:%M:%S')] read after [n] events. *)
Record Env : Type := {
  timestamp : nat -> string;
  os_path_exists : string -> result bool;
  os_path_getsize : string -> result N;
  magic_from_file : string -> result string;
  open_rb : string -> result unit;
  pdf_reader : string -> result unit;
  len_pages : string -> result N;
  first_page : string -> result unit;
  extract_text : string -> result string;
  extract_text_and_structure : string -> result dict;
  extract_images : string -> result value;
  extract_tables : string -> result value;
  extract_metadata : string -> result value;
  perform_ocr : string -> result value
}.

(** Computations that may raise and that append to the log.  The log
    survives a raised exception, as the effects of Python code do. *)
Definition M (A : Type) : Type := log -> result A * log.

Definition ret {A} (a : A) : M A := fun l => (Ok a, l).

Definition bind {A B} (c : M A) (k : A -> M B) : M B :=
  fun l =>
    match c l with
    | (Ok a, l') => k a l'
    | (Raise e, l') => (Raise e, l')
    end.

(** [try: body except Exception as e: handler(e)]. *)
Definition try_catch {A} (body : M A) (handler : exn -> M A) : M A :=
  fun l =>
    match body l with
    | (Ok a, l') => (Ok a, l')
    | (Raise e, l') => handler e l'
    end.

Definition lift {A} (r : result A) : M A := fun l => (r, l).

Definition call {A} (o : op) (oracle : string -> result A) (path : string) : M A :=
  fun l => (oracle path, (l ++ [EvCall o path])%list).

Definition print (line : string) : M unit :=
  fun l => (Ok tt, (l ++ [EvPrint line])%list).

Definition now (env : Env) : M string :=
  fun l => (Ok (timestamp env (List.length l)), (l ++ [EvNow])%list).

Declare Scope M_scope.
Delimit Scope M_scope with M.
Notation "x <- c ;; k" := (bind c (fun x => k))
  (at level 61, c at next level, right associativity) : M_scope.
Notation "c ;;; k" := (bind c (fun _ => k))
  (at level 61, right associativity) : M_scope.

End World.

(* ================================================================== *)
(** ** app/validators.py *)
(* ================================================================== *)

Module Validators.
Import Py World.
#[local] Open Scope M_scope.

(** [50 * 1024 * 1024]. *)
Definition max_size : N := 50 * 1024 * 1024.

(** [float(n)] for an integer [n >= 0], written as the integer it equals:
    the nearest number with at most 53 significant bits, a tie going to
    the even significand. *)
Definition round_to_double (n : N) : N :=
  let shift := (N.size n - 53)%N in
  if (shift =? 0)%N then n
  else
    let q := N.shiftr n shift in
    let r := (n mod 2 ^ shift)%N in
    let half := (2 ^ (shift - 1))%N in
    let significand :=
      if (half <? r)%N then (q + 1)%N
      else if andb (r =? half)%N (N.odd q) then (q + 1)%N
      else q in
    N.shiftl significand shift.

(** [f'{file_size / (1024*1024):.1f}'].  The quotient of two integers is
    the double nearest to it; the divisor is 2^20, so that double is
    [round_to_double file_size / 2^20] exactly.  The format prints the
    double rounded to the nearest tenth, a tie going to the even digit.
    A size is an [st_size], below 2^63, far below the sizes from which
    the quotient is too large for a double (2^1044). *)
Definition format_mb (file_size : N) : string :=
  let double := round_to_double file_size in
  let q := (10 * double / 1048576)%N in
  let r := (10 * double mod 1048576)%N in
  let tenths :=
    if (524288 <? r)%N then (q + 1)%N
    else if andb (r =? 524288)%N (N.odd q) then (q + 1)%N
    else q in
  str_of_int (Z.of_N (tenths / 10)) ++ "." ++ str_of_int (Z.of_N (tenths mod 10)).

(** [{'valid': False, 'error': msg}]. *)
Definition invalid (msg : string) : dict :=
  [("valid", VBool false); ("error", VStr msg)].

(** The block "Check file type using magic".  [Some d]: the function
    returns [d]; [None]: control falls through to the next block. *)
Definition check_file_type (env : Env) (file_path : string) : M (option dict) :=
  try_catch
    (file_type <- call OpMagic (magic_from_file env) file_path ;;
     if negb (String.eqb file_type "application/pdf")
     then ret (Some (invalid ("Invalid file type: " ++ file_type ++ ". Expected PDF.")))
     else ret None)
    (fun _ =>
       (* Fallback to extension check *)
       if negb (str_endswith (str_lower file_path) ".pdf")
       then ret (Some (invalid "File does not have .pdf extension"))
       else ret None).

(** The block "Try to open with PyPDF2".  [inl d]: the function returns
    [d]; [inr (num_pages, text)]: control falls through with these two
    variables bound.  Leaving the [with] block closes the file, which has
    no effect that the program observes and is not logged. *)
Definition read_pdf (env : Env) (file_path : string) : M (dict + N * string) :=
  try_catch
    (_ <- call OpOpen (open_rb env) file_path ;;
     _ <- call OpPdfReader (pdf_reader env) file_path ;;
     num_pages <- call OpLenPages (len_pages env) file_path ;;
     if (num_pages =? 0)%N
     then ret (inl (invalid "PDF has no pages"))
     else
       _ <- call OpFirstPage (first_page env) file_path ;;
       text <- call OpExtractText (extract_text env) file_path ;;
       ret (inr (num_pages, text)))
    (fun e =>
       match exn_cls e with
       | PdfReadError => ret (inl (invalid ("Corrupted PDF: " ++ exn_msg e)))
       | _ => ret (inl (invalid ("PDF validation failed: " ++ exn_msg e)))
       end).

Definition validate_pdf (env : Env) (file_path : string) : M dict :=
  try_catch
    (file_exists <- call OpExists (os_path_exists env) file_path ;;
     if negb file_exists
     then ret (invalid "File does not exist")
     else
       file_size <- call OpGetsize (os_path_getsize env) file_path ;;
       if (file_size =? 0)%N
       then ret (invalid "File is empty")
       else if (max_size <? file_size)%N
       then ret (invalid ("File too large: " ++ format_mb file_size
                            ++ "MB (max: 50MB)"))
       else
         early <- check_file_type env file_path ;;
         match early with
         | Some d => ret d
         | None =>
             r <- read_pdf env file_path ;;
             match r with
             | inl d => ret d
             | inr (num_pages, text) =>
                 ret [("valid", VBool true);
                      ("file_size", VInt (Z.of_N file_size));
                      ("num_pages", VInt (Z.of_N num_pages));
                      ("has_text",
                        VBool (0 <? String.length (str_strip text))%nat)]
             end
         end)
    (fun e => ret (invalid ("Validation error: " ++ exn_msg e))).

(** [validate_file_extension]: [allowed_extensions] is [['.pdf']]. *)
Definition validate_file_extension (filename : string) : bool :=
  existsb (fun ext => str_endswith (str_lower filename) ext) [".pdf"].




End Validators.

(* ================================================================== *)
(** ** app/main.py *)
(* ================================================================== *)

Module Main.
Import Py World Validators.

(** *** [process_pdf] *)

Section Orchestrator.
#[local] Open Scope M_scope.

Variable env : Env.

(** The "results" dictionary as initialised at the top of the [try]. *)
Definition initial_results (filename processed_at : string) : dict :=
  [("filename", VStr filename);
   ("processed_at", VStr processed_at);
   ("text_content", VStr "");
   ("structure", VDict []);
   ("images", VList []);
   ("tables", VList []);
   ("metadata", VDict []);
   ("ocr_text", VStr "")].

(** Steps 2 to 6, reached when validation passed. *)
Definition run_extractors (pdf_path : string) (results : dict) : M dict :=
  print "Extracting text and structure..." ;;;
  text_data <- call OpTextAndStructure (extract_text_and_structure env) pdf_path ;;
  let results := dict_set results "text_content"
                   (dict_get_default text_data "text" (VStr "")) in
  let results := dict_set results "structure"
                   (dict_get_default text_data "structure" (VDict [])) in
  print "Extracting images..." ;;;
  images_data <- call OpImages (extract_images env) pdf_path ;;
  let results := dict_set results "images" images_data in
  print "Extracting tables..." ;;;
  tables_data <- call OpTables (extract_tables env) pdf_path ;;
  let results := dict_set results "tables" tables_data in
  print "Extracting metadata..." ;;;
  metadata <- call OpMetadata (extract_metadata env) pdf_path ;;
  let results := dict_set results "metadata" metadata in
  print "Performing OCR..." ;;;
  ocr_text <- call OpOcr (perform_ocr env) pdf_path ;;
  let results := dict_set results "ocr_text" ocr_text in
  ret results.

(** The body of the [try] statement. *)
Definition process_pdf_body (pdf_path filename : string) : M dict :=
  print ("Processing " ++ filename ++ "...") ;;;
  processed_at <- now env ;;
  let results := initial_results filename processed_at in
  validation_result <- validate_pdf env pdf_path ;;
  valid <- lift (getitem validation_result "valid") ;;
  if negb (truthy valid)
  then
    error <- lift (getitem validation_result "error") ;;
    ret (dict_set results "error" error)
  else run_extractors pdf_path results.

(** The dictionary built by the [except Exception as e] clause. *)
Definition failure_results (filename : string) (e : exn) (processed_at : string)
  : dict :=
  [("filename", VStr filename);
   ("error", VStr ("Processing failed: " ++ exn_msg e));
   ("processed_at", VStr processed_at)].

Definition process_pdf (pdf_path filename : string) : M dict :=
  try_catch
    (process_pdf_body pdf_path filename)
    (fun e =>
       processed_at <- now env ;;
       ret (failure_results filename e processed_at)).

End Orchestrator.

(** *** [generate_output_text] *)

Section Renderer.
#[local] Open Scope result_scope.

Context {rt : Runtime}.

(** [output_lines] is a Python list; most appended items are strings, but
    the text and OCR sections append the stored value itself. *)
Definition lines : Type := list value.

(** [output_lines.append(s)] for a string [s]. *)
Definition append_line (out : lines) (s : string) : lines := (out ++ [VStr s])%list.

(** A [for] loop whose body extends [output_lines] or raises. *)
Fixpoint for_each {A} (xs : list A) (body : A -> lines -> result lines)
  (out : lines) : result lines :=
  match xs with
  | [] => Ok out
  | x :: xs' => out' <- body x out ;; for_each xs' body out'
  end.

(** [enumerate(xs, start)]. *)
Fixpoint enumerate {A} (start : nat) (xs : list A) : list (nat * A) :=
  match xs with
  | [] => []
  | x :: xs' => (start, x) :: enumerate (S start) xs'
  end.

Definition rule (c : ascii) (n : nat) : string := str_repeat c n.

Definition unknown : value := VStr "Unknown".

(** Header. *)
Definition header_block (results : dict) (out : lines) : result lines :=
  let out := append_line out (rule "=" 80) in
  filename <- getitem results "filename" ;;
  let out := append_line out ("PDF PROCESSING RESULTS: " ++ py_str filename) in
  processed_at <- getitem results "processed_at" ;;
  let out := append_line out ("Processed at: " ++ py_str processed_at) in
  let out := append_line out (rule "=" 80) in
  Ok (append_line out "").

(** Error handling: the lines of a failed document. *)
Definition error_block (results : dict) (out : lines) : result lines :=
  error <- getitem results "error" ;;
  Ok (append_line out ("ERROR: " ++ py_str error)).

(** Metadata section. *)
Definition metadata_block (results : dict) (out : lines) : result lines :=
  if truthy (dict_get_default results "metadata" VNone)
  then
    let out := append_line out "DOCUMENT METADATA:" in
    let out := append_line out (rule "-" 40) in
    metadata <- getitem results "metadata" ;;
    items <- py_items metadata ;;
    out <- for_each items
             (fun kv out =>
                let '(key, value) := kv in
                if truthy value
                then Ok (append_line out (str_title key ++ ": " ++ py_str value))
                else Ok out)
             out ;;
    Ok (append_line out "")
  else Ok out.

(** Document structure. *)
Definition structure_block (results : dict) (out : lines) : result lines :=
  if truthy (dict_get_default results "structure" VNone)
  then
    let out := append_line out "DOCUMENT STRUCTURE:" in
    let out := append_line out (rule "-" 40) in
    structure <- getitem results "structure" ;;
    total_pages <- py_get structure "total_pages" unknown ;;
    let out := append_line out ("Total Pages: " ++ py_str total_pages) in
    out <- match structure with
           | VDict d =>
               if dict_mem d "headings"
               then
                 let out := append_line out "Headings Found:" in
                 headings <- getitem d "headings" ;;
                 headings <- py_iter headings ;;
                 for_each headings
                   (fun heading out => Ok (append_line out ("  - " ++ py_str heading)))
                   out
               else Ok out
           | _ => Raise (no_attribute structure "get")
           end ;;
    Ok (append_line out "")
  else Ok out.

(** The lines of one image. *)
Definition image_lines (item : nat * value) (out : lines) : result lines :=
  let '(i, img_info) := item in
  let out := append_line out ("Image " ++ str_of_nat i ++ ":") in
  page <- py_get img_info "page" unknown ;;
  let out := append_line out ("  Page: " ++ py_str page) in
  size <- py_get img_info "size" unknown ;;
  let out := append_line out ("  Size: " ++ py_str size) in
  format <- py_get img_info "format" unknown ;;
  let out := append_line out ("  Format: " ++ py_str format) in
  description <- py_get img_info "description" VNone ;;
  if truthy description
  then
    description <- py_getitem img_info "description" ;;
    Ok (append_line out ("  Description: " ++ py_str description))
  else Ok out.

(** Images section. *)
Definition images_block (results : dict) (out : lines) : result lines :=
  if truthy (dict_get_default results "images" VNone)
  then
    let out := append_line out "EXTRACTED IMAGES:" in
    let out := append_line out (rule "-" 40) in
    images <- getitem results "images" ;;
    images <- py_iter images ;;
    out <- for_each (enumerate 1 images) image_lines out ;;
    Ok (append_line out "")
  else Ok out.

(** [content[:200] + "..." if len(content) > 200 else content]. *)
Definition content_preview (content : string) : string :=
  if (200 <? String.length content)%nat
  then str_slice_to 200 content ++ "..."
  else content.

(** The lines of one table. *)
Definition table_lines (item : nat * value) (out : lines) : result lines :=
  let '(i, table_info) := item in
  let out := append_line out ("Table " ++ str_of_nat i ++ ":") in
  page <- py_get table_info "page" unknown ;;
  let out := append_line out ("  Page: " ++ py_str page) in
  shape <- py_get table_info "shape" unknown ;;
  let out := append_line out ("  Dimensions: " ++ py_str shape) in
  accuracy <- py_get table_info "accuracy" unknown ;;
  let out := append_line out ("  Accuracy: " ++ py_str accuracy ++ "%") in
  (* Include table content summary *)
  match table_info with
  | VDict d =>
      if dict_mem d "content"
      then
        let out := append_line out "  Content Summary:" in
        content <- getitem d "content" ;;
        match content with
        | VStr content => Ok (append_line out ("    " ++ content_preview content))
        | _ => Ok out
        end
      else Ok out
  | _ => Raise (no_attribute table_info "get")
  end.

(** Tables section. *)
Definition tables_block (results : dict) (out : lines) : result lines :=
  if truthy (dict_get_default results "tables" VNone)
  then
    let out := append_line out "EXTRACTED TABLES:" in
    let out := append_line out (rule "-" 40) in
    tables <- getitem results "tables" ;;
    tables <- py_iter tables ;;
    out <- for_each (enumerate 1 tables) table_lines out ;;
    Ok (append_line out "")
  else Ok out.

(** Main text content. *)
Definition text_block (results : dict) (out : lines) : result lines :=
  if truthy (dict_get_default results "text_content" VNone)
  then
    let out := append_line out "EXTRACTED TEXT CONTENT:" in
    let out := append_line out (rule "-" 40) in
    text_content <- getitem results "text_content" ;;
    let out := (out ++ [text_content])%list in
    Ok (append_line out "")
  else Ok out.

(** The condition of the OCR section: [and] evaluates its right operand
    only when the left one is truthy. *)
Definition ocr_condition (results : dict) : result bool :=
  if truthy (dict_get_default results "ocr_text" VNone)
  then
    ocr_text <- getitem results "ocr_text" ;;
    Ok (negb (py_eq ocr_text (dict_get_default results "text_content" (VStr ""))))
  else Ok false.

(** OCR text (if different from main text). *)
Definition ocr_block (results : dict) (out : lines) : result lines :=
  shown <- ocr_condition results ;;
  if shown
  then
    let out := append_line out "OCR EXTRACTED TEXT:" in
    let out := append_line out (rule "-" 40) in
    ocr_text <- getitem results "ocr_text" ;;
    let out := (out ++ [ocr_text])%list in
    Ok (append_line out "")
  else Ok out.

(** Summary. *)
Definition summary_block (results : dict) (out : lines) : result lines :=
  let out := append_line out "PROCESSING SUMMARY:" in
  let out := append_line out (rule "-" 40) in
  text_length <- py_len (dict_get_default results "text_content" (VStr "")) ;;
  let out := append_line out ("Text Length: " ++ str_of_nat text_length ++ " characters") in
  images_found <- py_len (dict_get_default results "images" (VList [])) ;;
  let out := append_line out ("Images Found: " ++ str_of_nat images_found) in
  tables_found <- py_len (dict_get_default results "tables" (VList [])) ;;
  let out := append_line out ("Tables Found: " ++ str_of_nat tables_found) in
  ocr_length <- py_len (dict_get_default results "ocr_text" (VStr "")) ;;
  Ok (append_line out ("OCR Length: " ++ str_of_nat ocr_length ++ " characters")).

(** The list [output_lines] when the function reaches a [return]. *)
Definition output_lines (results : dict) : result lines :=
  out <- header_block results [] ;;
  if dict_mem results "error"
  then error_block results out
  else
    out <- metadata_block results out ;;
    out <- structure_block results out ;;
    out <- images_block results out ;;
    out <- tables_block results out ;;
    out <- text_block results out ;;
    out <- ocr_block results out ;;
    summary_block results out.

Definition generate_output_text (results : dict) : result string :=
  out <- output_lines results ;;
  py_join newline out.

End Renderer.

(** *** [process_all_pdfs] *)

(** [STATIC_FOLDER] and [OUTPUT_FOLDER]. *)
Definition STATIC_FOLDER : string := "static".
Definition OUTPUT_FOLDER : string := "output".

(** What the host answers to the batch driver: the paths that [glob.glob]
    finds for a pattern, whether a file can be opened for writing, and
    whether a text can be written to it. *)
Record Host : Type := {
  glob_glob : string -> list string;
  open_w : string -> result unit;
  file_write : string -> string -> result unit
}.

(** What the driver does to the file system: the search, the opening of a
    file for writing (which creates or empties it), and the writing of a
    text to it. *)
Inductive disk_event : Type :=
| DiskGlob (pattern : string)
| DiskOpen (path : string)
| DiskWrite (path : string) (text : string).

(** The state the driver threads: the log of the pipeline and what was
    done to the disk, both in order of time. *)
Definition batch_state : Type := (log * list disk_event)%type.

Section Driver.

Context {rt : Runtime}.
Variable env : Env.
Variable host : Host.

(** The entry appended to [processed_files]. *)
Definition status_entry (filename output_filename : string) (results : dict)
  : value :=
  VDict [("input", VStr filename);
         ("output", VStr output_filename);
         ("status", VStr (if dict_mem results "error" then "error"
                          else "success"))].

(** [with open(output_path, 'w', encoding='utf-8') as f:
     f.write(output_text)]. *)
Definition save_report (output_path output_text : string)
  (disk : list disk_event) : result unit * list disk_event :=
  let disk := (disk ++ [DiskOpen output_path])%list in
  match open_w host output_path with
  | Raise e => (Raise e, disk)
  | Ok _ =>
      let disk := (disk ++ [DiskWrite output_path output_text])%list in
      (file_write host output_path output_text, disk)
  end.

(** The body of the loop, for one path found by the search. *)
Definition process_one (pdf_file : string) (st : batch_state)
  : result value * batch_state :=
  let filename := OsPath.basename pdf_file in
  (* Process the PDF *)
  match process_pdf env pdf_file filename (fst st) with
  | (Raise e, l) => (Raise e, (l, snd st))
  | (Ok results, l) =>
      (* Generate output text *)
      match generate_output_text results with
      | Raise e => (Raise e, (l, snd st))
      | Ok output_text =>
          (* Save to output file *)
          let output_filename :=
            fst (OsPath.splitext filename) ++ "_processed.txt" in
          let output_path := OsPath.join OUTPUT_FOLDER output_filename in
          match save_report output_path output_text (snd st) with
          | (Raise e, disk) => (Raise e, (l, disk))
          | (Ok _, disk) =>
              (Ok (status_entry filename output_filename results), (l, disk))
          end
      end
  end.

(** The loop over [pdf_files], which appends to [processed_files]. *)
Fixpoint process_files (pdf_files : list string) (processed_files : list value)
  (st : batch_state) : result (list value) * batch_state :=
  match pdf_files with
  | [] => (Ok processed_files, st)
  | pdf_file :: rest =>
      match process_one pdf_file st with
      | (Raise e, st') => (Raise e, st')
      | (Ok entry, st') =>
          process_files rest (processed_files ++ [entry])%list st'
      end
  end.

(** The function returns what it hands to [jsonify]. *)
Definition process_all_pdfs (st : batch_state) : result value * batch_state :=
  let pattern := OsPath.join STATIC_FOLDER "*.pdf" in
  let pdf_files := glob_glob host pattern in
  let st := (fst st, (snd st ++ [DiskGlob pattern])%list) in
  match pdf_files with
  | [] => (Ok (VDict [("error", VStr "No PDF files found in static folder")]),
           st)
  | _ =>
      match process_files pdf_files [] st with
      | (Raise e, st') => (Raise e, st')
      | (Ok processed_files, st') =>
          (Ok (VDict [("message",
                        VStr ("Processed "
                                ++ str_of_nat (List.length processed_files)
                                ++ " files"));
                      ("files", VList processed_files)]),
           st')
      end
  end.

End Driver.

End Main.

(* ================================================================== *)
(** ** The validator's checks, as the specification lists them *)
(* ================================================================== *)

Module ValidatorSpec.
Import Py World Validators.

(** The six checks of the validator, in the order in which the
    specification lists them. *)
Inductive check : Type :=
| CheckExists          (* 1. the path exists *)
| CheckNonEmpty        (* 2. file size > 0 *)
| CheckMaxSize         (* 3. file size <= 50 MiB *)
| CheckType            (* 4. content type is PDF, or the extension fallback *)
| CheckOpenPages       (* 5. opens as a PDF with at least one page *)
| CheckFirstPageText.  (* 6. the first page's text can be extracted *)

Definition check_order : list check :=
  [CheckExists; CheckNonEmpty; CheckMaxSize; CheckType; CheckOpenPages;
   CheckFirstPageText].

(** The external operations a check needs, in the order it calls them.
    The size limit reuses the size read by the check before it. *)
Definition ops_of_check (c : check) : list op :=
  match c with
  | CheckExists => [OpExists]
  | CheckNonEmpty => [OpGetsize]
  | CheckMaxSize => []
  | CheckType => [OpMagic]
  | CheckOpenPages => [OpOpen; OpPdfReader; OpLenPages]
  | CheckFirstPageText => [OpFirstPage; OpExtractText]
  end.

(** The message of a fault met while PyPDF2 handles the file. *)
Definition pdf_fault_message (e : exn) : string :=
  match exn_cls e with
  | PdfReadError => "Corrupted PDF: " ++ exn_msg e
  | _ => "PDF validation failed: " ++ exn_msg e
  end.

(** The verdict of one check in a given world: [None] when the check
    passes, [Some msg] when it fails with error [msg].  A check fails when
    its condition is false and when evaluating it raises; only content
    sniffing has a fallback.  A verdict is meaningful when the checks
    before it have passed. *)
Definition verdict (env : Env) (path : string) (c : check) : option string :=
  match c with
  | CheckExists =>
      match os_path_exists env path with
      | Ok true => None
      | Ok false => Some "File does not exist"
      | Raise e => Some ("Validation error: " ++ exn_msg e)
      end
  | CheckNonEmpty =>
      match os_path_getsize env path with
      | Ok n => if (0 <? n)%N then None else Some "File is empty"
      | Raise e => Some ("Validation error: " ++ exn_msg e)
      end
  | CheckMaxSize =>
      match os_path_getsize env path with
      | Ok n =>
          if (n <=? 50 * 1024 * 1024)%N then None
          else Some ("File too large: " ++ format_mb n ++ "MB (max: 50MB)")
      | Raise _ => None
      end
  | CheckType =>
      match magic_from_file env path with
      | Ok file_type =>
          if String.eqb file_type "application/pdf" then None
          else Some ("Invalid file type: " ++ file_type ++ ". Expected PDF.")
      | Raise _ =>
          if str_endswith (str_lower path) ".pdf" then None
          else Some "File does not have .pdf extension"
      end
  | CheckOpenPages =>
      match open_rb env path with
      | Raise e => Some (pdf_fault_message e)
      | Ok _ =>
          match pdf_reader env path with
          | Raise e => Some (pdf_fault_message e)
          | Ok _ =>
              match len_pages env path with
              | Raise e => Some (pdf_fault_message e)
              | Ok n => if (0 <? n)%N then None else Some "PDF has no pages"
              end
          end
      end
  | CheckFirstPageText =>
      match first_page env path with
      | Raise e => Some (pdf_fault_message e)
      | Ok _ =>
          match extract_text env path with
          | Raise e => Some (pdf_fault_message e)
          | Ok _ => None
          end
      end
  end.

(** The first check of [checks] that fails, with the checks that passed
    before it and its error. *)
Fixpoint first_failure_in (env : Env) (path : string) (passed checks : list check)
  : option (list check * check * string) :=
  match checks with
  | [] => None
  | c :: rest =>
      match verdict env path c with
      | Some msg => Some (passed, c, msg)
      | None => first_failure_in env path (passed ++ [c])%list rest
      end
  end.

Definition first_failure (env : Env) (path : string)
  : option (list check * check * string) :=
  first_failure_in env path [] check_order.

Definition events_of (path : string) (ops : list op) : list event :=
  map (fun o => EvCall o path) ops.

(** Every operation of the six checks, in the order of the checks. *)
Definition all_check_ops : list op := flat_map ops_of_check check_order.

(** The dictionary returned for a file that passes every check. *)
Definition valid_outcome (file_size num_pages : N) (text : string) : dict :=
  [("valid", VBool true);
   ("file_size", VInt (Z.of_N file_size));
   ("num_pages", VInt (Z.of_N num_pages));
   ("has_text", VBool (0 <? String.length (str_strip text))%nat)].

Definition fault_of {A} (r : result A) : option exn :=
  match r with
  | Ok _ => None
  | Raise e => Some e
  end.

(** The exception, if any, with which an operation answers for a path. *)
Definition op_fault (env : Env) (path : string) (o : op) : option exn :=
  match o with
  | OpExists => fault_of (os_path_exists env path)
  | OpGetsize => fault_of (os_path_getsize env path)
  | OpMagic => fault_of (magic_from_file env path)
  | OpOpen => fault_of (open_rb env path)
  | OpPdfReader => fault_of (pdf_reader env path)
  | OpLenPages => fault_of (len_pages env path)
  | OpFirstPage => fault_of (first_page env path)
  | OpExtractText => fault_of (extract_text env path)
  | OpTextAndStructure => fault_of (extract_text_and_structure env path)
  | OpImages => fault_of (extract_images env path)
  | OpTables => fault_of (extract_tables env path)
  | OpMetadata => fault_of (extract_metadata env path)
  | OpOcr => fault_of (perform_ocr env path)
  end.

(** [l1] is an initial segment of [l2]. *)
Definition is_prefix {A} (l1 l2 : list A) : Prop :=
  exists rest, l2 = (l1 ++ rest)%list.

(** The calls to the five extractors recorded in a log, in order. *)
Definition is_extractor (o : op) : bool :=
  match o with
  | OpTextAndStructure | OpImages | OpTables | OpMetadata | OpOcr => true
  | _ => false
  end.

Fixpoint extractor_calls (l : log) : list (op * string) :=
  match l with
  | [] => []
  | EvCall o path :: l' =>
      if is_extractor o then (o, path) :: extractor_calls l'
      else extractor_calls l'
  | _ :: l' => extractor_calls l'
  end.

(** The events of steps 2 to 6 of [process_pdf] when no extractor raises. *)
Definition extraction_events (path : string) : list event :=
  [EvPrint "Extracting text and structure..."; EvCall OpTextAndStructure path;
   EvPrint "Extracting images..."; EvCall OpImages path;
   EvPrint "Extracting tables..."; EvCall OpTables path;
   EvPrint "Extracting metadata..."; EvCall OpMetadata path;
   EvPrint "Performing OCR..."; EvCall OpOcr path].

(** The first fault among the five extractors, taken in the order in
    which [process_pdf] calls them. *)
Definition first_extractor_fault (env : Env) (path : string) : option exn :=
  match extract_text_and_structure env path with
  | Raise e => Some e
  | Ok _ =>
      match extract_images env path with
      | Raise e => Some e
      | Ok _ =>
          match extract_tables env path with
          | Raise e => Some e
          | Ok _ =>
              match extract_metadata env path with
              | Raise e => Some e
              | Ok _ =>
                  match perform_ocr env path with
                  | Raise e => Some e
                  | Ok _ => None
                  end
              end
          end
      end
  end.

End ValidatorSpec.

(* ================================================================== *)
(** ** Vocabulary for the properties of the orchestrator and renderer *)
(* ================================================================== *)

Module Props.
Import Py World Validators Main.

(** The three shapes of the dictionary that [process_pdf] returns: the
    validator refused the file; every extractor ran; a fault was caught. *)
Inductive aggregate_shape (filename : string) : dict -> Prop :=
| ShapeInvalid ts msg :
    aggregate_shape filename
      (initial_results filename ts ++ [("error", VStr msg)])%list
| ShapeComplete ts text_content structure images tables metadata ocr :
    aggregate_shape filename
      [("filename", VStr filename);
       ("processed_at", VStr ts);
       ("text_content", text_content);
       ("structure", structure);
       ("images", images);
       ("tables", tables);
       ("metadata", metadata);
       ("ocr_text", ocr)]
| ShapeFailed ts msg :
    aggregate_shape filename
      [("filename", VStr filename);
       ("error", VStr ("Processing failed: " ++ msg));
       ("processed_at", VStr ts)].

(** The lines a block adds, put after the lines already there. *)
Definition extend (out : lines) (r : result lines) : result lines :=
  match r with
  | Ok ext => Ok (out ++ ext)%list
  | Raise e => Raise e
  end.

(** The computation does not fail on a missing key. *)
Definition no_key_error {A} (r : result A) : Prop :=
  match r with
  | Ok _ => True
  | Raise e => exn_cls e <> KeyError
  end.

(** A section is left out when its field is falsy (absent, or an empty
    mapping, collection or string); when the field is truthy and the block
    completes, the section opens with its header and a rule and closes
    with a blank line. *)
Definition section_when_nonempty (block : dict -> lines -> result lines)
  (field header : string) (results : dict) : Prop :=
  (truthy (dict_get_default results field VNone) = false ->
   block results [] = Ok [])
  /\ (truthy (dict_get_default results field VNone) = true ->
      forall section,
        block results [] = Ok section ->
        exists body,
          section
          = (VStr header :: VStr (rule "-" 40) :: body ++ [VStr ""])%list).

(** The four lines of the OCR section. *)
Definition ocr_section (ocr_text : string) : lines :=
  [VStr "OCR EXTRACTED TEXT:"; VStr (rule "-" 40); VStr ocr_text; VStr ""].

(** The keys of the aggregate that [generate_output_text] mentions. *)
Definition rendered_keys : list string :=
  ["filename"; "processed_at"; "error"; "metadata"; "structure"; "images";
   "tables"; "text_content"; "ocr_text"].

End Props.

(* ================================================================== *)
(** ** A concrete interpreter and concrete worlds, for the examples *)
(* ================================================================== *)

Module Examples.
Import Py World Validators Main.

Definition quote1 : string := "'".
Definition quote2 : string := String (ascii_of_nat 34) EmptyString.
Definition backslash : string := String (ascii_of_nat 92) EmptyString.

Definition hex_digit (n : nat) : ascii :=
  if (n <? 10)%nat then ascii_of_nat (48 + n) else ascii_of_nat (87 + n).

(** One character inside [repr(s)]. *)
Definition repr_char (quote : ascii) (c : ascii) : string :=
  let n := nat_of_ascii c in
  if Ascii.eqb c quote then backslash ++ String c EmptyString
  else if (n =? 92)%nat then backslash ++ backslash
  else if (n =? 10)%nat then backslash ++ "n"
  else if (n =? 13)%nat then backslash ++ "r"
  else if (n =? 9)%nat then backslash ++ "t"
  else if orb (n <? 32)%nat
            (orb (andb (127 <=? n) (n <=? 160))%nat (n =? 173)%nat)
       then backslash ++ "x"
              ++ String (hex_digit (n / 16))
                   (String (hex_digit (n mod 16)) EmptyString)
  else String c EmptyString.

Fixpoint repr_chars (quote : ascii) (s : string) : string :=
  match s with
  | EmptyString => EmptyString
  | String c s' => repr_char quote c ++ repr_chars quote s'
  end.

(** [repr(s)] for a string: single quotes, unless the text holds a single
    quote and no double one. *)
Definition repr_str (s : string) : string :=
  if andb (str_contains quote1 s) (negb (str_contains quote2 s))
  then quote2 ++ repr_chars (ascii_of_nat 34) s ++ quote2
  else quote1 ++ repr_chars "'"%char s ++ quote1.

Fixpoint py_repr (v : value) : string :=
  match v with
  | VNone => "None"
  | VBool true => "True"
  | VBool false => "False"
  | VInt n => str_of_int n
  | VStr s => repr_str s
  | VList xs => "[" ++ str_join ", " (map py_repr xs) ++ "]"
  | VDict kvs =>
      "{" ++ str_join ", "
               (map (fun kv => let '(k, x) := kv in
                               repr_str k ++ ": " ++ py_repr x) kvs)
          ++ "}"
  | VOther _ r => r
  end.

(** [str(v)]: a string is itself, anything else prints as its [repr]. *)
Definition example_str (v : value) : string :=
  match v with
  | VStr s => s
  | _ => py_repr v
  end.

(** [a == b].  Booleans compare as the integers 0 and 1, lists element by
    element, dicts key by key whatever their order; two objects of other
    types are compared through their representation. *)
Fixpoint example_eq (a b : value) : bool :=
  match a, b with
  | VNone, VNone => true
  | VBool x, VBool y => Bool.eqb x y
  | VBool x, VInt n | VInt n, VBool x => (n =? (if x then 1 else 0))%Z
  | VInt n, VInt m => (n =? m)%Z
  | VStr s, VStr t => String.eqb s t
  | VList xs, VList ys =>
      (fix all2 (xs ys : list value) : bool :=
         match xs, ys with
         | [], [] => true
         | x :: xs', y :: ys' => andb (example_eq x y) (all2 xs' ys')
         | _, _ => false
         end) xs ys
  | VDict da, VDict db =>
      andb (List.length da =? List.length db)%nat
           ((fix all_in (da : list (string * value)) : bool :=
               match da with
               | [] => true
               | (k, x) :: da' =>
                   andb match dict_get db k with
                        | Some y => example_eq x y
                        | None => false
                        end
                        (all_in da')
               end) da)
  | VOther _ r, VOther _ r' => String.eqb r r'
  | _, _ => false
  end.

Definition is_upper (c : ascii) : bool :=
  let n := nat_of_ascii c in andb (65 <=? n)%nat (n <=? 90)%nat.

Definition is_lower (c : ascii) : bool :=
  let n := nat_of_ascii c in andb (97 <=? n)%nat (n <=? 122)%nat.

Definition ascii_upper (c : ascii) : ascii :=
  if is_lower c then ascii_of_nat (nat_of_ascii c - 32) else c.

(** [s.title()] on ASCII text: a letter that follows a letter is lowered,
    any other letter is raised. *)
Fixpoint title_from (previous_is_letter : bool) (s : string) : string :=
  match s with
  | EmptyString => EmptyString
  | String c s' =>
      let letter := orb (is_upper c) (is_lower c) in
      String (if previous_is_letter then ascii_lower c else ascii_upper c)
             (title_from letter s')
  end.

Definition example_title (s : string) : string := title_from false s.

#[export] Instance example_runtime : Runtime := {|
  py_str := example_str;
  py_eq := example_eq;
  str_title := example_title;
  py_str_VStr := fun s => eq_refl;
  py_eq_VStr := fun a b => eq_refl
|}.

(** A world in which every operation succeeds unless an argument says
    otherwise: a one-page PDF of 2048 bytes whose first page reads
    "Hello". *)
Definition example_env (file_exists : bool) (file_type : result string)
  (opened : result unit) (text_data : dict) (images : result value)
  (tables metadata ocr : value) : Env := {|
  timestamp := fun _ => "2024-05-01 12:00:00";
  os_path_exists := fun _ => Ok file_exists;
  os_path_getsize := fun _ => Ok 2048%N;
  magic_from_file := fun _ => file_type;
  open_rb := fun _ => opened;
  pdf_reader := fun _ => Ok tt;
  len_pages := fun _ => Ok 1%N;
  first_page := fun _ => Ok tt;
  extract_text := fun _ => Ok "Hello";
  extract_text_and_structure := fun _ => Ok text_data;
  extract_images := fun _ => images;
  extract_tables := fun _ => Ok tables;
  extract_metadata := fun _ => Ok metadata;
  perform_ocr := fun _ => Ok ocr
|}.

(** A valid PDF with text only: no images, no tables, empty metadata and
    structure mappings, and OCR text equal to the extracted text. *)
Definition env_plain : Env :=
  example_env true (Ok "application/pdf") (Ok tt)
    [("text", VStr "Hello"); ("structure", VDict [])]
    (Ok (VList [])) (VList []) (VDict []) (VStr "Hello").

(** The path does not exist. *)
Definition env_missing : Env :=
  example_env false (Ok "application/pdf") (Ok tt) []
    (Ok (VList [])) (VList []) (VDict []) (VStr "").

(** The same file as in [env_plain] on a host without libmagic: content
    sniffing raises. *)
Definition env_no_magic : Env :=
  example_env true
    (Raise (mk_exn OtherException "failed to find libmagic")) (Ok tt)
    [("text", VStr "Hello"); ("structure", VDict [])]
    (Ok (VList [])) (VList []) (VDict []) (VStr "Hello").

(** The file exists and is a PDF by its content, but may not be opened. *)
Definition env_unreadable : Env :=
  example_env true (Ok "application/pdf")
    (Raise (mk_exn OtherException "[Errno 13] Permission denied"))
    [] (Ok (VList [])) (VList []) (VDict []) (VStr "").

(** The text extractor succeeds, then the image extractor raises. *)
Definition env_images_fail : Env :=
  example_env true (Ok "application/pdf") (Ok tt)
    [("text", VStr "Hello"); ("structure", VDict [])]
    (Raise (mk_exn OtherException "cannot decode image stream"))
    (VList []) (VDict []) (VStr "").

(** A table whose content has 203 characters. *)
Definition long_content : string := str_repeat "x" 200 ++ "yz!".

Definition long_table : dict :=
  [("page", VInt 2); ("shape", VOther true "(3, 4)");
   ("accuracy", VOther true "98.5"); ("content", VStr long_content)].

Definition short_table : dict :=
  [("page", VInt 1); ("content", VStr "a | b")].

(** A valid PDF with every kind of content. *)
Definition env_rich : Env :=
  example_env true (Ok "application/pdf") (Ok tt)
    [("text", VStr "Hello");
     ("structure", VDict [("total_pages", VInt 1);
                          ("headings", VList [VStr "Intro"])])]
    (Ok (VList [VDict [("page", VInt 1); ("format", VStr "png")]]))
    (VList [VDict long_table; VDict short_table])
    (VDict [("author", VStr "Ada"); ("subject", VStr "")])
    (VStr "He11o").

Definition doc_path : string := "static/doc.pdf".

(** The aggregate of [env_plain] with its keys in another order and one
    key more. *)
Definition shuffled_aggregate : dict :=
  [("note", VStr "kept by the caller");
   ("ocr_text", VStr "Hello");
   ("metadata", VDict []);
   ("tables", VList []);
   ("images", VList []);
   ("structure", VDict []);
   ("text_content", VStr "Hello");
   ("processed_at", VStr "2024-05-01 12:00:00");
   ("filename", VStr "doc.pdf")].

(** The aggregates that [process_pdf] returns in these worlds. *)
Definition results_of (env : Env) : result dict :=
  fst (process_pdf env doc_path "doc.pdf" []).

Definition aggregate (env : Env) : dict :=
  match results_of env with
  | Ok results => results
  | Raise _ => []
  end.

(** Their reports. *)
Definition report (env : Env) : string :=
  match generate_output_text (aggregate env) with
  | Ok text => text
  | Raise _ => ""
  end.

End Examples.

(* ================================================================== *)
(** ** The data model of the report and of the batch *)
(* ================================================================== *)

Module DataModel.
Import Py OsPath World Validators Main ValidatorSpec Props.
#[local] Open Scope list_scope.

(** Some character of [s] satisfies [f]. *)
Fixpoint str_exists (f : ascii -> bool) (s : string) : bool :=
  match s with
  | EmptyString => false
  | String c s' => orb (f c) (str_exists f s')
  end.

(** The character [c] occurs in [s]. *)
Definition str_has (c : ascii) (s : string) : bool :=
  str_exists (Ascii.eqb c) s.

(** A character that [strip] keeps. *)
Definition visible (c : ascii) : bool := negb (is_space c).


(** A document goes through the whole pipeline: every check of the
    validator passes and no extractor raises. *)
Definition pipeline_ok (env : Env) (path : string) : bool :=
  match first_failure env path, first_extractor_fault env path with
  | None, None => true
  | _, _ => false
  end.

(** The five extractors, in the order in which [process_pdf] calls them. *)
Definition extractor_ops : list op :=
  [OpTextAndStructure; OpImages; OpTables; OpMetadata; OpOcr].

(** The types of the data model. *)
Definition is_dict (v : value) : bool :=
  match v with VDict _ => true | _ => false end.

Definition is_str (v : value) : bool :=
  match v with VStr _ => true | _ => false end.

(** [for x in v] accepts [v]. *)
Definition is_iterable (v : value) : bool :=
  match v with VList _ | VStr _ | VDict _ => true | _ => false end.

(** A list of records. *)
Definition all_dicts (v : value) : bool :=
  match v with VList xs => forallb is_dict xs | _ => false end.

(** A structure mapping: its headings, when present, can be iterated. *)
Definition structure_ok (v : value) : bool :=
  match v with
  | VDict d =>
      match dict_get d "headings" with
      | Some headings => is_iterable headings
      | None => true
      end
  | _ => false
  end.

(** The key is absent, or its value passes [check]. *)
Definition field_ok (check : value -> bool) (d : dict) (k : string) : bool :=
  match dict_get d k with
  | Some v => check v
  | None => true
  end.

(** The content fields of an aggregate have the types of the data model. *)
Definition content_ok (results : dict) : bool :=
  field_ok is_dict results "metadata"
  && field_ok structure_ok results "structure"
  && field_ok all_dicts results "images"
  && field_ok all_dicts results "tables"
  && field_ok is_str results "text_content"
  && field_ok is_str results "ocr_text".

(** An aggregate that names its file and its time, and either carries an
    error or has well-typed content. *)
Definition renderable (results : dict) : bool :=
  dict_mem results "filename"
  && dict_mem results "processed_at"
  && (dict_mem results "error" || content_ok results).

(** [v.get(k, default)] for a record; the default for anything else. *)
Definition record_get (v : value) (k : string) (default : value) : value :=
  match v with
  | VDict d => dict_get_default d k default
  | _ => default
  end.

Section Entries.
Context {rt : Runtime}.

(** The line of one metadata entry. *)
Definition metadata_line (kv : string * value) : value :=
  VStr (str_title (fst kv) ++ ": " ++ py_str (snd kv)).

(** The lines of the image numbered [i]. *)
Definition image_entry (item : nat * value) : lines :=
  let '(i, img_info) := item in
  ([VStr ("Image " ++ str_of_nat i ++ ":");
    VStr ("  Page: " ++ py_str (record_get img_info "page" unknown));
    VStr ("  Size: " ++ py_str (record_get img_info "size" unknown));
    VStr ("  Format: " ++ py_str (record_get img_info "format" unknown))]
   ++ (if truthy (record_get img_info "description" VNone)
       then [VStr ("  Description: "
                     ++ py_str (record_get img_info "description" VNone))]
       else []))%list.

(** The lines of the table numbered [i]. *)
Definition table_entry (item : nat * value) : lines :=
  let '(i, table_info) := item in
  ([VStr ("Table " ++ str_of_nat i ++ ":");
    VStr ("  Page: " ++ py_str (record_get table_info "page" unknown));
    VStr ("  Dimensions: " ++ py_str (record_get table_info "shape" unknown));
    VStr ("  Accuracy: " ++ py_str (record_get table_info "accuracy" unknown)
            ++ "%")]
   ++ match table_info with
      | VDict d =>
          match dict_get d "content" with
          | Some (VStr content) =>
              [VStr "  Content Summary:";
               VStr ("    " ++ content_preview content)]
          | Some _ => [VStr "  Content Summary:"]
          | None => []
          end
      | _ => []
      end)%list.

End Entries.

(** The answers of the five extractors for a path have the types of
    their interface; an extractor that raises has nothing to answer for. *)
Definition answers_ok (env : Env) (path : string) : bool :=
  match extract_text_and_structure env path with
  | Ok text_data =>
      field_ok is_str text_data "text"
      && field_ok structure_ok text_data "structure"
  | Raise _ => true
  end
  && match extract_images env path with
     | Ok v => all_dicts v
     | Raise _ => true
     end
  && match extract_tables env path with
     | Ok v => all_dicts v
     | Raise _ => true
     end
  && match extract_metadata env path with
     | Ok v => is_dict v
     | Raise _ => true
     end
  && match perform_ocr env path with
     | Ok v => is_str v
     | Raise _ => true
     end.

(** The name of the report written for an input file name. *)
Definition output_name (filename : string) : string :=
  fst (splitext filename) ++ "_processed.txt".

(** The path of the report written for an input path. *)
Definition output_path (pdf_file : string) : string :=
  "output/" ++ output_name (basename pdf_file).

(** The status entry of one input path, read off the world. *)
Definition entry_of (env : Env) (pdf_file : string) : value :=
  VDict [("input", VStr (basename pdf_file));
         ("output", VStr (output_name (basename pdf_file)));
         ("status", VStr (if pipeline_ok env pdf_file then "success"
                          else "error"))].

(** What [process_all_pdfs] hands to [jsonify] for the paths found. *)
Definition batch_payload (env : Env) (pdf_files : list string) : value :=
  match pdf_files with
  | [] => VDict [("error", VStr "No PDF files found in static folder")]
  | _ =>
      VDict [("message",
               VStr ("Processed " ++ str_of_nat (List.length pdf_files)
                       ++ " files"));
             ("files", VList (map (entry_of env) pdf_files))]
  end.

(** The event leaves alone every file that is not directly inside the
    output folder. *)
Definition inside_output (ev : disk_event) : Prop :=
  match ev with
  | DiskGlob _ => True
  | DiskOpen path | DiskWrite path _ =>
      exists name, path = ("output/" ++ name)%string /\ str_has "/" name = false
  end.

(** The events of saving one report. *)
Definition saved (path_text : string * string) : list disk_event :=
  [DiskOpen (fst path_text); DiskWrite (fst path_text) (snd path_text)].

(** A block completes and adds strings only. *)
Definition block_completes (block : dict -> lines -> result lines)
  (results : dict) : Prop :=
  exists section, block results [] = Ok section
                  /\ forallb is_str section = true.

End DataModel.

(* ================================================================== *)
(** ** Worlds and hosts for the batch driver *)
(* ================================================================== *)

Module Scenarios.
Import Py OsPath World Validators Main Examples.
#[local] Open Scope list_scope.

(** The world [env] in which [os.path.getsize] answers [size]. *)
Definition resize (env : Env) (size : result N) : Env := {|
  timestamp := timestamp env;
  os_path_exists := os_path_exists env;
  os_path_getsize := fun _ => size;
  magic_from_file := magic_from_file env;
  open_rb := open_rb env;
  pdf_reader := pdf_reader env;
  len_pages := len_pages env;
  first_page := first_page env;
  extract_text := extract_text env;
  extract_text_and_structure := extract_text_and_structure env;
  extract_images := extract_images env;
  extract_tables := extract_tables env;
  extract_metadata := extract_metadata env;
  perform_ocr := perform_ocr env
|}.


(** A file of exactly 50 MiB. *)
Definition env_at_limit : Env := resize env_plain (Ok 52428800%N).



(** The image extractor answers with a record and with a number. *)
Definition env_bad_record : Env :=
  example_env true (Ok "application/pdf") (Ok tt)
    [("text", VStr "Hello"); ("structure", VDict [])]
    (Ok (VList [VDict [("page", VInt 1)]; VInt 7]))
    (VList []) (VDict []) (VStr "Hello").

(** The world of [env_rich] in which only [static/a.pdf] exists. *)
Definition env_only_a : Env := {|
  timestamp := timestamp env_rich;
  os_path_exists := fun path => Ok (String.eqb path "static/a.pdf");
  os_path_getsize := os_path_getsize env_rich;
  magic_from_file := magic_from_file env_rich;
  open_rb := open_rb env_rich;
  pdf_reader := pdf_reader env_rich;
  len_pages := len_pages env_rich;
  first_page := first_page env_rich;
  extract_text := extract_text env_rich;
  extract_text_and_structure := extract_text_and_structure env_rich;
  extract_images := extract_images env_rich;
  extract_tables := extract_tables env_rich;
  extract_metadata := extract_metadata env_rich;
  perform_ocr := perform_ocr env_rich
|}.

(** A host whose search for "static/*.pdf" finds [pdf_files], and whose
    files open and take a text as [opened] and [written] say. *)
Definition example_host (pdf_files : list string) (opened written : result unit)
  : Host := {|
  glob_glob := fun pattern =>
                 if String.eqb pattern "static/*.pdf" then pdf_files else [];
  open_w := fun _ => opened;
  file_write := fun _ _ => written
|}.

(** The static folder holds two PDF files. *)
Definition two_files : list string := ["static/a.pdf"; "static/notes.v2.pdf"].

Definition host_two : Host := example_host two_files (Ok tt) (Ok tt).

(** The static folder holds no PDF file. *)
Definition host_none : Host := example_host [] (Ok tt) (Ok tt).

(** The output folder cannot be written. *)
Definition host_read_only : Host :=
  example_host two_files
    (Raise (mk_exn OtherException "[Errno 13] Permission denied")) (Ok tt).

(** The disk is full. *)
Definition host_full : Host :=
  example_host two_files (Ok tt)
    (Raise (mk_exn OtherException "[Errno 28] No space left on device")).

(** What the batch driver returns and does in a world, from an empty log
    and an untouched disk. *)
Definition batch (env : Env) (host : Host) : result value * batch_state :=
  process_all_pdfs env host ([], []).

(** The report of a path in a world. *)
Definition report_of (env : Env) (pdf_file : string) : string :=
  match fst (process_pdf env pdf_file (basename pdf_file) []) with
  | Ok results =>
      match generate_output_text results with
      | Ok text => text
      | Raise _ => ""
      end
  | Raise _ => ""
  end.

End Scenarios.

(* ================================================================== *)
(** ** Properties *)
(* ================================================================== *)

Import Py World Validators Main ValidatorSpec Props Examples.
#[local] Open Scope list_scope.

(** *** The helpers on strings, on a few inputs *)

Example format_mb_rounds_up : format_mb 55000000 = "52.5".
Proof. reflexivity. Qed.

Example format_mb_tie_to_even : format_mb 52690944 = "50.2".
Proof. reflexivity. Qed.

Example round_to_double_small : round_to_double 55000000 = 55000000%N.
Proof. reflexivity. Qed.

Example round_to_double_tie_to_even :
  round_to_double 9007199254740993 = 9007199254740992%N
  /\ round_to_double 9007199254740995 = 9007199254740996%N.
Proof. split; reflexivity. Qed.

(** 9007199255003137 bytes are 8589934592.25 MiB and a little more, but
    the double nearest to the quotient is 8589934592.25, which is printed
    with the even digit. *)
Example format_mb_of_a_double :
  format_mb 9007199255003137 = "8589934592.2".
Proof. vm_compute. reflexivity. Qed.

Example str_strip_both_ends :
  str_strip ("  " ++ newline ++ "a b " ++ newline)%string = "a b".
Proof. reflexivity. Qed.

Example str_strip_blank : str_strip ("   " ++ newline)%string = "".
Proof. reflexivity. Qed.

Example extension_any_case : validate_file_extension "Report.PDF" = true.
Proof. reflexivity. Qed.

Example extension_other : validate_file_extension "report.pdf.txt" = false.
Proof. reflexivity. Qed.

Example content_preview_short : content_preview "a | b" = "a | b".
Proof. reflexivity. Qed.

Example content_preview_long :
  content_preview long_content = (str_repeat "x" 200 ++ "...")%string.
Proof. reflexivity. Qed.

Example title_of_key : str_title "creation_date" = "Creation_Date".
Proof. reflexivity. Qed.

Example str_of_list :
  py_str (VList [VStr "a"; VInt 3; VNone]) = "['a', 3, None]".
Proof. reflexivity. Qed.

(** *** The validator *)

(** Logs are compared with the appends nested to the right. *)
Ltac norm_log :=
  repeat rewrite <- app_assoc; cbn [app].

Lemma is_prefix_refl {A} (l : list A) : is_prefix l l.
Proof. exists []. now rewrite app_nil_r. Qed.

(** One step of a monadic computation, keeping strings and the inner
    blocks folded. *)
Ltac mstep :=
  cbn -[append format_mb str_endswith str_strip str_lower Nat.ltb read_pdf
        check_file_type].

Lemma is_prefix_intro {A} (l1 rest : list A) : is_prefix l1 (l1 ++ rest)%list.
Proof. now exists rest. Qed.

Lemma pdf_fault_handler (e : exn) (l : log) :
  match exn_cls e with
  | PdfReadError => ret (inl (B := N * string) (invalid ("Corrupted PDF: " ++ exn_msg e)))
  | _ => ret (inl (invalid ("PDF validation failed: " ++ exn_msg e)))
  end l = (Ok (inl (invalid (pdf_fault_message e))), l).
Proof. unfold pdf_fault_message, ret. now destruct (exn_cls e). Qed.

Lemma check_file_type_run env p l :
  check_file_type env p l
  = (Ok (option_map invalid (verdict env p CheckType)),
     (l ++ events_of p (ops_of_check CheckType))%list).
Proof.
  unfold check_file_type, try_catch, bind, call, ret. mstep.
  destruct (magic_from_file env p) as [file_type|e]; mstep.
  - now destruct (String.eqb file_type "application/pdf").
  - now destruct (str_endswith (str_lower p) ".pdf").
Qed.

Lemma read_pdf_run env p :
  match verdict env p CheckOpenPages, verdict env p CheckFirstPageText with
  | Some msg, _ =>
      exists done,
        (forall l, read_pdf env p l
                   = (Ok (inl (invalid msg)), (l ++ events_of p done)%list))
        /\ is_prefix done (ops_of_check CheckOpenPages) /\ done <> []
  | None, Some msg =>
      exists done,
        (forall l, read_pdf env p l
                   = (Ok (inl (invalid msg)),
                      (l ++ events_of p (ops_of_check CheckOpenPages ++ done))%list))
        /\ is_prefix done (ops_of_check CheckFirstPageText) /\ done <> []
  | None, None =>
      exists num_pages text,
        len_pages env p = Ok num_pages /\ extract_text env p = Ok text
        /\ forall l, read_pdf env p l
           = (Ok (inr (num_pages, text)),
              (l ++ events_of p (ops_of_check CheckOpenPages
                                   ++ ops_of_check CheckFirstPageText))%list)
  end.
Proof.
  unfold read_pdf, try_catch, bind, call. mstep.
  destruct (open_rb env p) as [?|e]; mstep.
  2:{ exists [OpOpen]. split; [intros l; now rewrite pdf_fault_handler|].
      split; [apply (is_prefix_intro [OpOpen]) | discriminate]. }
  destruct (pdf_reader env p) as [?|e]; mstep.
  2:{ exists [OpOpen; OpPdfReader].
      split; [intros l; rewrite pdf_fault_handler; now norm_log|].
      split; [apply (is_prefix_intro [OpOpen; OpPdfReader]) | discriminate]. }
  destruct (len_pages env p) as [n|e]; mstep.
  2:{ exists [OpOpen; OpPdfReader; OpLenPages].
      split; [intros l; rewrite pdf_fault_handler; now norm_log|].
      split; [apply is_prefix_refl | discriminate]. }
  destruct (N.eqb_spec n 0) as [->|Hn]; mstep.
  { exists [OpOpen; OpPdfReader; OpLenPages].
    split; [intros l; now norm_log|].
    split; [apply is_prefix_refl | discriminate]. }
  replace (0 <? n)%N with true by (symmetry; apply N.ltb_lt; lia).
  destruct (first_page env p) as [?|e]; mstep.
  2:{ exists [OpFirstPage].
      split; [intros l; rewrite pdf_fault_handler; now norm_log|].
      split; [apply (is_prefix_intro [OpFirstPage]) | discriminate]. }
  destruct (extract_text env p) as [text|e]; mstep.
  2:{ exists [OpFirstPage; OpExtractText].
      split; [intros l; rewrite pdf_fault_handler; now norm_log|].
      split; [apply is_prefix_refl | discriminate]. }
  exists n, text. repeat split. intros l. now norm_log.
Qed.

Lemma validate_pdf_run env p :
  match first_failure env p with
  | Some (passed, c, msg) =>
      exists done,
        (forall l, validate_pdf env p l
           = (Ok (invalid msg),
              (l ++ events_of p (flat_map ops_of_check passed ++ done))%list))
        /\ is_prefix done (ops_of_check c)
        /\ (done <> [] \/ ops_of_check c = [])
  | None =>
      exists file_size num_pages text,
        os_path_getsize env p = Ok file_size
        /\ len_pages env p = Ok num_pages
        /\ extract_text env p = Ok text
        /\ forall l, validate_pdf env p l
           = (Ok (valid_outcome file_size num_pages text),
              (l ++ events_of p all_check_ops)%list)
  end.
Proof.
  unfold first_failure, validate_pdf, try_catch, bind.
  cbn [check_order first_failure_in app].
  pose proof (check_file_type_run env p) as Ht.
  pose proof (read_pdf_run env p) as Hr.
  remember (verdict env p CheckType) as vt eqn:Evt.
  remember (verdict env p CheckOpenPages) as vo eqn:Evo.
  remember (verdict env p CheckFirstPageText) as vf eqn:Evf.
  unfold verdict, call.
  destruct (os_path_exists env p) as [[|]|e0] eqn:E0; mstep.
  2,3: exists [OpExists]; repeat split;
         [apply is_prefix_refl | left; discriminate].
  destruct (os_path_getsize env p) as [n|e1] eqn:E1; mstep.
  2:{ exists [OpGetsize]. split; [intros l; now norm_log|].
      split; [apply is_prefix_refl | left; discriminate]. }
  destruct (N.eqb_spec n 0) as [->|Hn]; mstep.
  { exists [OpGetsize]. split; [intros l; now norm_log|].
    split; [apply is_prefix_refl | left; discriminate]. }
  replace (0 <? n)%N with true by (symmetry; apply N.ltb_lt; lia).
  rewrite N.leb_antisym. unfold max_size. mstep.
  destruct (52428800 <? n)%N eqn:Emax; mstep.
  { exists []. split; [intros l; now norm_log|].
    split; [apply is_prefix_refl | now right]. }
  destruct vt as [msg|]; mstep.
  { exists [OpMagic]. split; [intros l; rewrite Ht; now norm_log|].
    split; [apply is_prefix_refl | left; discriminate]. }
  destruct vo as [msg|].
  { destruct Hr as (done & Hrun & Hp & Hd). exists done.
    split; [intros l; rewrite Ht; mstep; rewrite Hrun; mstep; now norm_log|]. split; auto. }
  destruct vf as [msg|].
  { destruct Hr as (done & Hrun & Hp & Hd). exists done.
    split; [intros l; rewrite Ht; mstep; rewrite Hrun; mstep; now norm_log|]. split; auto. }
  destruct Hr as (np & text & Hlen & Htext & Hrun).
  exists n, np, text. repeat split; auto.
  intros l. rewrite Ht. mstep. rewrite Hrun. mstep. now norm_log.
Qed.

Lemma first_failure_sound env p passed c msg :
  first_failure env p = Some (passed, c, msg) ->
  is_prefix (passed ++ [c])%list check_order
  /\ Forall (fun c' => verdict env p c' = None) passed
  /\ verdict env p c = Some msg.
Proof.
  unfold first_failure. cbn [check_order first_failure_in app].
  repeat match goal with
         | |- context [match verdict env p ?k with _ => _ end] =>
             let E := fresh "E" in destruct (verdict env p k) eqn:E
         end;
    intros H; inversion H; subst; clear H;
    (split; [eexists; reflexivity | split; [repeat constructor; assumption | assumption]]).
Qed.

Lemma first_failure_none env p :
  first_failure env p = None ->
  Forall (fun c => verdict env p c = None) check_order.
Proof.
  unfold first_failure. cbn [check_order first_failure_in app].
  repeat match goal with
         | |- context [match verdict env p ?k with _ => _ end] =>
             let E := fresh "E" in destruct (verdict env p k) eqn:E
         end;
    intros H; try discriminate H.
  repeat constructor; assumption.
Qed.

Lemma verdict_message_nonempty env p c msg :
  verdict env p c = Some msg -> msg <> "".
Proof.
  assert (Hf : forall e, pdf_fault_message e <> "").
  { intros e. unfold pdf_fault_message. destruct (exn_cls e); discriminate. }
  destruct c; unfold verdict;
    repeat match goal with
           | |- context [match ?o env p with _ => _ end] => destruct (o env p)
           | |- context [if ?b then _ else _] => destruct b
           end;
    intros H; inversion H; subst; try discriminate; auto.
Qed.

Lemma extractor_calls_app (a b : log) :
  extractor_calls (a ++ b) = (extractor_calls a ++ extractor_calls b)%list.
Proof.
  induction a as [|ev a IH]; [reflexivity|].
  destruct ev as [line| |o path]; cbn; auto.
  destruct (is_extractor o); cbn; now rewrite IH.
Qed.

Lemma extractor_calls_checks p ops :
  Forall (fun o => is_extractor o = false) ops ->
  extractor_calls (events_of p ops) = [].
Proof.
  induction 1 as [|o ops Ho _ IH]; [reflexivity|].
  cbn. now rewrite Ho.
Qed.

Lemma check_ops_not_extractors c :
  Forall (fun o => is_extractor o = false) (ops_of_check c).
Proof. destruct c; repeat constructor. Qed.

Lemma is_prefix_Forall {A} (P : A -> Prop) (l1 l2 : list A) :
  is_prefix l1 l2 -> Forall P l2 -> Forall P l1.
Proof. intros [rest ->] H. now apply Forall_app in H. Qed.

(** Whatever the log, the validator returns the same dictionary and appends
    the same events, none of which is a call to an extractor. *)
Lemma validate_pdf_uniform env p :
  exists d events,
    (forall l, validate_pdf env p l = (Ok d, (l ++ events)%list))
    /\ extractor_calls events = []
    /\ ((exists file_size num_pages text, d = valid_outcome file_size num_pages text)
        \/ (exists msg, d = invalid msg /\ msg <> "")).
Proof.
  pose proof (validate_pdf_run env p) as Hrun.
  destruct (first_failure env p) as [[[passed c] msg]|] eqn:Ef.
  - destruct Hrun as (done & Hrun & Hp & _).
    destruct (first_failure_sound _ _ _ _ _ Ef) as (Hpre & _ & Hv).
    exists (invalid msg), (events_of p (flat_map ops_of_check passed ++ done)).
    split; [exact Hrun|]. split.
    + apply extractor_calls_checks, Forall_app. split.
      * apply Forall_flat_map, Forall_forall. intros c' _.
        apply check_ops_not_extractors.
      * eapply is_prefix_Forall; [exact Hp | apply check_ops_not_extractors].
    + right. exists msg. split; [reflexivity|].
      eapply verdict_message_nonempty; eassumption.
  - destruct Hrun as (n & np & text & _ & _ & _ & Hrun).
    exists (valid_outcome n np text), (events_of p all_check_ops).
    split; [exact Hrun|]. split; [reflexivity|].
    left. now exists n, np, text.
Qed.

(** C4.  [validate_pdf] runs the six checks in their fixed order and stops
    at the first that fails: it returns [valid] false with that check's
    error, having called the operations of the checks before it and of the
    failing check itself (up to the one that failed), and none of a later
    check.  It returns [valid] true exactly when all six checks pass. *)
Theorem validate_pdf_checks_in_order env file_path l :
  match first_failure env file_path with
  | Some (passed, c, msg) =>
      is_prefix (passed ++ [c]) check_order
      /\ Forall (fun c' => verdict env file_path c' = None) passed
      /\ verdict env file_path c = Some msg
      /\ exists done,
           validate_pdf env file_path l
           = (Ok [("valid", VBool false); ("error", VStr msg)],
              l ++ events_of file_path (flat_map ops_of_check passed ++ done))
           /\ is_prefix done (ops_of_check c)
           /\ (done <> [] \/ ops_of_check c = [])
  | None =>
      Forall (fun c => verdict env file_path c = None) check_order
      /\ exists file_size num_pages text,
           os_path_getsize env file_path = Ok file_size
           /\ len_pages env file_path = Ok num_pages
           /\ extract_text env file_path = Ok text
           /\ validate_pdf env file_path l
              = (Ok [("valid", VBool true);
                     ("file_size", VInt (Z.of_N file_size));
                     ("num_pages", VInt (Z.of_N num_pages));
                     ("has_text",
                       VBool (0 <? String.length (str_strip text))%nat)],
                 l ++ events_of file_path (flat_map ops_of_check check_order))
  end.
Proof.
  pose proof (validate_pdf_run env file_path) as Hrun.
  destruct (first_failure env file_path) as [[[passed c] msg]|] eqn:Ef.
  - destruct (first_failure_sound _ _ _ _ _ Ef) as (Hpre & Hpass & Hv).
    repeat (split; [assumption|]).
    destruct Hrun as (done & Hrun & Hp & Hd). exists done. now rewrite Hrun.
  - split; [now apply first_failure_none|].
    destruct Hrun as (n & np & text & Hs & Hl & Ht & Hrun).
    exists n, np, text. now rewrite Hrun.
Qed.

Lemma in_events_of p o ops : In (EvCall o p) (events_of p ops) -> In o ops.
Proof.
  unfold events_of. rewrite in_map_iff. intros (o' & [= ->] & H). exact H.
Qed.

Lemma is_prefix_In {A} (x : A) (l1 l2 : list A) :
  is_prefix l1 l2 -> In x l1 -> In x l2.
Proof. intros [rest ->] H. apply in_or_app. now left. Qed.

Lemma magic_only_in_type_check c : In OpMagic (ops_of_check c) -> c = CheckType.
Proof. destruct c; cbn; intuition discriminate. Qed.

Lemma sniffing_fault_verdict env p e :
  op_fault env p OpMagic = Some e ->
  str_endswith (str_lower p) ".pdf" = false ->
  verdict env p CheckType = Some "File does not have .pdf extension".
Proof.
  unfold op_fault, fault_of, verdict.
  destruct (magic_from_file env p); [discriminate|]. now intros _ ->.
Qed.

Lemma passed_checks_have_no_fault env p c o e :
  verdict env p c = None ->
  In o (ops_of_check c) ->
  op_fault env p o = Some e ->
  o = OpMagic.
Proof.
  destruct c; cbn [ops_of_check In]; unfold verdict, op_fault, fault_of;
    intros Hv Hin Hf;
    repeat match type of Hin with
           | _ \/ _ => destruct Hin as [<-|Hin]
           | False => contradiction
           end;
    try reflexivity;
    repeat match type of Hv with
           | context [match ?o env p with _ => _ end] => destruct (o env p)
           | context [if ?b then _ else _] => destruct b
           end;
    congruence.
Qed.

(** C9, as amended.  [validate_pdf] never raises: on every path it returns
    an outcome, either [valid] true or [valid] false with a non-empty
    error.  An exception raised by any operation of a check other than
    content sniffing yields [valid] false.  An exception raised by content
    sniffing is answered by the extension check instead, which rejects the
    file when its path does not end in ".pdf". *)
Theorem validate_pdf_never_raises env file_path l :
  exists outcome events,
    validate_pdf env file_path l = (Ok outcome, l ++ events)
    /\ (dict_get outcome "valid" = Some (VBool true)
        \/ exists msg,
             outcome = [("valid", VBool false); ("error", VStr msg)]
             /\ msg <> ""%string)
    /\ (forall o e,
          In (EvCall o file_path) events ->
          op_fault env file_path o = Some e ->
          o <> OpMagic ->
          exists msg,
            outcome = [("valid", VBool false); ("error", VStr msg)]
            /\ msg <> ""%string)
    /\ (forall e,
          In (EvCall OpMagic file_path) events ->
          op_fault env file_path OpMagic = Some e ->
          str_endswith (str_lower file_path) ".pdf" = false ->
          outcome = [("valid", VBool false);
                     ("error", VStr "File does not have .pdf extension")]).
Proof.
  pose proof (validate_pdf_run env file_path) as Hrun.
  destruct (first_failure env file_path) as [[[passed c] msg]|] eqn:Ef.
  - destruct (first_failure_sound _ _ _ _ _ Ef) as (_ & Hpass & Hv).
    destruct Hrun as (done & Hrun & Hp & _).
    pose proof (verdict_message_nonempty _ _ _ _ Hv) as Hmsg.
    exists (invalid msg), (events_of file_path (flat_map ops_of_check passed ++ done)).
    split; [apply Hrun|]. split; [right; now exists msg|].
    split; [intros; now exists msg|].
    intros e Hin Hf Hext.
    pose proof (sniffing_fault_verdict _ _ _ Hf Hext) as Ht.
    apply in_events_of, in_app_or in Hin. destruct Hin as [Hin|Hin].
    + apply in_flat_map in Hin. destruct Hin as (c' & Hc' & Hin).
      apply magic_only_in_type_check in Hin. subst c'.
      rewrite Forall_forall in Hpass. rewrite (Hpass _ Hc') in Ht. discriminate.
    + apply (is_prefix_In _ _ _ Hp), magic_only_in_type_check in Hin. subst c.
      unfold invalid. congruence.
  - pose proof (first_failure_none _ _ Ef) as Hpass.
    rewrite Forall_forall in Hpass.
    destruct Hrun as (n & np & text & _ & _ & _ & Hrun).
    exists (valid_outcome n np text), (events_of file_path all_check_ops).
    split; [apply Hrun|]. split; [now left|]. split.
    + intros o e Hin Hf Ho. exfalso. apply Ho.
      apply in_events_of, in_flat_map in Hin. destruct Hin as (c & Hc & Hin).
      exact (passed_checks_have_no_fault _ _ _ _ _ (Hpass _ Hc) Hin Hf).
    + intros e _ Hf Hext.
      pose proof (sniffing_fault_verdict _ _ _ Hf Hext) as Ht.
      rewrite (Hpass CheckType) in Ht; [discriminate | cbn; tauto].
Qed.

(** *** The orchestrator *)

Lemma process_pdf_body_unfold env p fn l :
  process_pdf_body env p fn l
  = (validation_result <- validate_pdf env p ;;
     valid <- lift (getitem validation_result "valid") ;;
     if negb (truthy valid)
     then
       error <- lift (getitem validation_result "error") ;;
       ret (dict_set (initial_results fn (timestamp env (S (List.length l))))
              "error" error)
     else run_extractors env p
            (initial_results fn (timestamp env (S (List.length l)))))%M
      (l ++ [EvPrint ("Processing " ++ fn ++ "...")%string; EvNow]).
Proof.
  unfold process_pdf_body, bind at 1 2, print, now.
  rewrite length_app, Nat.add_comm. cbn [List.length Nat.add].
  now rewrite <- app_assoc.
Qed.

Lemma process_pdf_body_invalid env p fn l msg events :
  (forall l', validate_pdf env p l' = (Ok (invalid msg), l' ++ events)) ->
  process_pdf_body env p fn l
  = (Ok (initial_results fn (timestamp env (S (List.length l)))
           ++ [("error", VStr msg)]),
     l ++ [EvPrint ("Processing " ++ fn ++ "...")%string; EvNow] ++ events).
Proof.
  intros Hv. rewrite process_pdf_body_unfold. unfold bind. rewrite Hv.
  cbn. now rewrite <- app_assoc.
Qed.

Lemma process_pdf_body_valid env p fn l file_size num_pages text events :
  (forall l', validate_pdf env p l'
              = (Ok (valid_outcome file_size num_pages text), l' ++ events)) ->
  process_pdf_body env p fn l
  = run_extractors env p (initial_results fn (timestamp env (S (List.length l))))
      (l ++ [EvPrint ("Processing " ++ fn ++ "...")%string; EvNow] ++ events).
Proof.
  intros Hv. rewrite process_pdf_body_unfold. unfold bind. rewrite Hv.
  cbn -[run_extractors]. now rewrite <- app_assoc.
Qed.

Lemma run_extractors_ok env p fn ts l text_data images tables metadata ocr :
  extract_text_and_structure env p = Ok text_data ->
  extract_images env p = Ok images ->
  extract_tables env p = Ok tables ->
  extract_metadata env p = Ok metadata ->
  perform_ocr env p = Ok ocr ->
  run_extractors env p (initial_results fn ts) l
  = (Ok [("filename", VStr fn);
         ("processed_at", VStr ts);
         ("text_content", dict_get_default text_data "text" (VStr ""));
         ("structure", dict_get_default text_data "structure" (VDict []));
         ("images", images);
         ("tables", tables);
         ("metadata", metadata);
         ("ocr_text", ocr)],
     l ++ extraction_events p).
Proof.
  intros Ht Hi Hb Hm Ho.
  unfold run_extractors, bind, call, print, ret.
  rewrite Ht, Hi, Hb, Hm, Ho. cbn. now repeat rewrite <- app_assoc.
Qed.

Lemma run_extractors_fault env p results l e :
  first_extractor_fault env p = Some e ->
  exists l', run_extractors env p results l = (Raise e, l').
Proof.
  unfold first_extractor_fault, run_extractors, bind, call, print, ret.
  destruct (extract_text_and_structure env p);
    [|intros [= ->]; eexists; reflexivity].
  destruct (extract_images env p); [|intros [= ->]; eexists; reflexivity].
  destruct (extract_tables env p); [|intros [= ->]; eexists; reflexivity].
  destruct (extract_metadata env p); [|intros [= ->]; eexists; reflexivity].
  destruct (perform_ocr env p); [|intros [= ->]; eexists; reflexivity].
  discriminate.
Qed.

Lemma valid_flag_of_outcome d :
  ((exists file_size num_pages text, d = valid_outcome file_size num_pages text)
   \/ (exists msg, d = invalid msg /\ msg <> "")) ->
  forall b, dict_get d "valid" = Some (VBool b) ->
  if b then exists file_size num_pages text, d = valid_outcome file_size num_pages text
  else exists msg, d = invalid msg.
Proof.
  intros [(n & np & text & ->)|(msg & -> & _)] b H; cbn in H;
    injection H as <-; eauto.
Qed.

Lemma run_extractors_outcome env p fn ts l :
  exists l',
    (exists e, run_extractors env p (initial_results fn ts) l = (Raise e, l'))
    \/ (exists text_content structure images tables metadata ocr,
          run_extractors env p (initial_results fn ts) l
          = (Ok [("filename", VStr fn);
                 ("processed_at", VStr ts);
                 ("text_content", text_content);
                 ("structure", structure);
                 ("images", images);
                 ("tables", tables);
                 ("metadata", metadata);
                 ("ocr_text", ocr)], l')).
Proof.
  destruct (extract_text_and_structure env p) as [td|e] eqn:Ht.
  2:{ eexists. left. exists e.
      unfold run_extractors, bind, call, print. rewrite Ht. reflexivity. }
  destruct (extract_images env p) as [im|e] eqn:Hi.
  2:{ eexists. left. exists e.
      unfold run_extractors, bind, call, print. rewrite Ht, Hi. reflexivity. }
  destruct (extract_tables env p) as [tb|e] eqn:Hb.
  2:{ eexists. left. exists e.
      unfold run_extractors, bind, call, print. rewrite Ht, Hi, Hb. reflexivity. }
  destruct (extract_metadata env p) as [md|e] eqn:Hm.
  2:{ eexists. left. exists e.
      unfold run_extractors, bind, call, print. rewrite Ht, Hi, Hb, Hm.
      reflexivity. }
  destruct (perform_ocr env p) as [oc|e] eqn:Ho.
  2:{ eexists. left. exists e.
      unfold run_extractors, bind, call, print. rewrite Ht, Hi, Hb, Hm, Ho.
      reflexivity. }
  eexists. right. do 6 eexists.
  apply (run_extractors_ok _ _ _ _ _ _ _ _ _ _ Ht Hi Hb Hm Ho).
Qed.

Lemma process_pdf_shape env p fn l :
  exists results l',
    process_pdf env p fn l = (Ok results, l') /\ aggregate_shape fn results.
Proof.
  destruct (validate_pdf_uniform env p) as (d & events & Hrun & _ & Hshape).
  unfold process_pdf, try_catch.
  destruct Hshape as [(n & np & text & ->)|(msg & -> & _)].
  - rewrite (process_pdf_body_valid _ _ _ _ _ _ _ _ Hrun).
    destruct (run_extractors_outcome env p fn
                (timestamp env (S (List.length l)))
                (l ++ [EvPrint ("Processing " ++ fn ++ "...")%string; EvNow]
                   ++ events))
      as (l' & [(e & ->)|(tc & st & im & tb & md & oc & ->)]).
    + do 2 eexists. split; [reflexivity|]. apply ShapeFailed.
    + do 2 eexists. split; [reflexivity|]. apply ShapeComplete.
  - rewrite (process_pdf_body_invalid _ _ _ _ _ _ Hrun).
    do 2 eexists. split; [reflexivity|]. apply ShapeInvalid.
Qed.

(** C1.  Whatever fault escapes the body of [process_pdf], the function
    returns a fresh dictionary with exactly the keys [filename], [error] and
    [processed_at], where [error] is "Processing failed: " followed by
    [str(e)]; no content key is in it.  A fault of any of the five
    extractors, on a file that passed validation, is such a fault. *)
Theorem process_pdf_fault env pdf_path filename l :
  (forall e l1,
      process_pdf_body env pdf_path filename l = (Raise e, l1) ->
      let results :=
        [("filename", VStr filename);
         ("error", VStr ("Processing failed: " ++ exn_msg e));
         ("processed_at", VStr (timestamp env (List.length l1)))] in
      process_pdf env pdf_path filename l = (Ok results, l1 ++ [EvNow])
      /\ dict_keys results = ["filename"; "error"; "processed_at"]
      /\ Forall (fun k => dict_get results k = None)
           ["text_content"; "structure"; "images"; "tables"; "metadata";
            "ocr_text"])
  /\ (forall d l1 l2 e,
         validate_pdf env pdf_path l1 = (Ok d, l2) ->
         dict_get d "valid" = Some (VBool true) ->
         first_extractor_fault env pdf_path = Some e ->
         exists l', process_pdf_body env pdf_path filename l = (Raise e, l')).
Proof.
  split.
  - intros e l1 Hbody results. split; [|split].
    + unfold process_pdf, try_catch. rewrite Hbody. reflexivity.
    + reflexivity.
    + repeat constructor.
  - intros d l1 l2 e Hv Hvalid Hfault.
    destruct (validate_pdf_uniform env pdf_path) as (d' & events & Hrun & _ & Hshape).
    rewrite Hrun in Hv. injection Hv as <- _.
    destruct (valid_flag_of_outcome _ Hshape _ Hvalid) as (n & np & text & ->).
    rewrite (process_pdf_body_valid _ _ _ _ _ _ _ _ Hrun).
    now apply run_extractors_fault.
Qed.

(** C2.  When the validator answers with [valid] false, [process_pdf]
    returns the initial dictionary, every content field still at its
    default, with [error] set to the validator's message; the log shows
    nothing after the validation, and no call to an extractor. *)
Theorem process_pdf_invalid_file env pdf_path filename l d l1 l2 :
  validate_pdf env pdf_path l1 = (Ok d, l2) ->
  dict_get d "valid" = Some (VBool false) ->
  exists error events,
    dict_get d "error" = Some error
    /\ l2 = l1 ++ events
    /\ extractor_calls events = []
    /\ process_pdf env pdf_path filename l
       = (Ok [("filename", VStr filename);
              ("processed_at", VStr (timestamp env (S (List.length l))));
              ("text_content", VStr "");
              ("structure", VDict []);
              ("images", VList []);
              ("tables", VList []);
              ("metadata", VDict []);
              ("ocr_text", VStr "");
              ("error", error)],
          l ++ [EvPrint ("Processing " ++ filename ++ "...")%string; EvNow]
            ++ events).
Proof.
  intros Hv Hvalid.
  destruct (validate_pdf_uniform env pdf_path) as (d' & events & Hrun & Hcalls & Hshape).
  rewrite Hrun in Hv. injection Hv as <- <-.
  destruct (valid_flag_of_outcome _ Hshape _ Hvalid) as (msg & ->).
  exists (VStr msg), events. repeat split; auto.
  unfold process_pdf, try_catch.
  now rewrite (process_pdf_body_invalid _ _ _ _ _ _ Hrun).
Qed.

(** C3.  When the validator answers with [valid] true and no extractor
    raises, the five extractors are each called exactly once, in the order
    text and structure, images, tables, metadata, OCR, all on [pdf_path],
    and each answer is stored in its field. *)
Theorem process_pdf_runs_every_extractor
  env pdf_path filename l d l1 l2 text_data images tables metadata ocr :
  validate_pdf env pdf_path l1 = (Ok d, l2) ->
  dict_get d "valid" = Some (VBool true) ->
  extract_text_and_structure env pdf_path = Ok text_data ->
  extract_images env pdf_path = Ok images ->
  extract_tables env pdf_path = Ok tables ->
  extract_metadata env pdf_path = Ok metadata ->
  perform_ocr env pdf_path = Ok ocr ->
  exists events,
    process_pdf env pdf_path filename l
    = (Ok [("filename", VStr filename);
           ("processed_at", VStr (timestamp env (S (List.length l))));
           ("text_content", dict_get_default text_data "text" (VStr ""));
           ("structure", dict_get_default text_data "structure" (VDict []));
           ("images", images);
           ("tables", tables);
           ("metadata", metadata);
           ("ocr_text", ocr)],
       l ++ events)
    /\ extractor_calls events
       = [(OpTextAndStructure, pdf_path); (OpImages, pdf_path);
          (OpTables, pdf_path); (OpMetadata, pdf_path); (OpOcr, pdf_path)].
Proof.
  intros Hv Hvalid Ht Hi Hb Hm Ho.
  destruct (validate_pdf_uniform env pdf_path) as (d' & events & Hrun & Hcalls & Hshape).
  rewrite Hrun in Hv. injection Hv as <- _.
  destruct (valid_flag_of_outcome _ Hshape _ Hvalid) as (n & np & text & ->).
  exists ([EvPrint ("Processing " ++ filename ++ "...")%string; EvNow]
            ++ events ++ extraction_events pdf_path).
  split.
  - unfold process_pdf, try_catch.
    rewrite (process_pdf_body_valid _ _ _ _ _ _ _ _ Hrun).
    rewrite (run_extractors_ok _ _ _ _ _ _ _ _ _ _ Ht Hi Hb Hm Ho).
    now repeat rewrite <- app_assoc.
  - cbn [app extractor_calls]. rewrite extractor_calls_app, Hcalls. reflexivity.
Qed.

(** *** The renderer *)

Section RendererFacts.
Context {rt : Runtime}.
Open Scope result_scope.

Lemma extend_nil r : extend [] r = r.
Proof. now destruct r. Qed.

Lemma extend_extend out ext r :
  extend out (extend ext r) = extend (out ++ ext) r.
Proof. destruct r; cbn; [now rewrite app_assoc | reflexivity]. Qed.

Lemma for_each_extend {A} (body : A -> lines -> result lines) (xs : list A) :
  (forall x out, body x out = extend out (body x [])) ->
  forall out, for_each xs body out = extend out (for_each xs body []).
Proof.
  intros Hbody. induction xs as [|x xs IH]; intros out; cbn.
  - now rewrite app_nil_r.
  - rewrite (Hbody x out). destruct (body x []) as [ext|e]; cbn; [|reflexivity].
    rewrite (IH (out ++ ext)), (IH ext). now rewrite extend_extend.
Qed.

Lemma extend_bind_for_each {A} (body : A -> lines -> result lines) xs
  (out pre : lines) (k : lines -> result lines) :
  (forall x out, body x out = extend out (body x [])) ->
  (forall o, k (out ++ o) = extend out (k o)) ->
  (o <- for_each xs body (out ++ pre) ;; k o)
  = extend out (o <- for_each xs body pre ;; k o).
Proof.
  intros Hbody Hk.
  rewrite (for_each_extend body xs Hbody (out ++ pre)),
    (for_each_extend body xs Hbody pre).
  destruct (for_each xs body []) as [ext|e]; cbn; [|reflexivity].
  now rewrite <- app_assoc, Hk.
Qed.

Ltac blk := unfold append_line; cbv zeta.
Ltac close_block :=
  unfold append_line; cbn [rbind extend]; repeat rewrite <- app_assoc; reflexivity.

Lemma metadata_block_extend results out :
  metadata_block results out = extend out (metadata_block results []).
Proof.
  unfold metadata_block.
  destruct (truthy (dict_get_default results "metadata" VNone));
    [|cbn; now rewrite app_nil_r].
  destruct (getitem results "metadata") as [metadata|e]; [|reflexivity].
  cbn [rbind]. destruct (py_items metadata) as [items|e]; [|reflexivity].
  cbn [rbind]. blk. rewrite <- app_assoc.
  apply extend_bind_for_each.
  - intros [key value] o. destruct (truthy value); cbn; [reflexivity|].
    now rewrite app_nil_r.
  - intros o. cbn. now rewrite <- app_assoc.
Qed.

Lemma headings_extend (headings : list value) out :
  for_each headings
    (fun heading out => Ok (append_line out ("  - " ++ py_str heading)%string)) out
  = extend out
      (for_each headings
         (fun heading out => Ok (append_line out ("  - " ++ py_str heading)%string)) []).
Proof. apply for_each_extend. intros x o. reflexivity. Qed.

Lemma structure_block_extend results out :
  structure_block results out = extend out (structure_block results []).
Proof.
  unfold structure_block.
  destruct (truthy (dict_get_default results "structure" VNone));
    [|cbn; now rewrite app_nil_r].
  destruct (getitem results "structure") as [structure|e]; [|reflexivity].
  cbn [rbind]. destruct structure; try reflexivity.
  cbn [py_get rbind]. blk.
  destruct (dict_mem kvs "headings"); cbn [rbind].
  - destruct (getitem kvs "headings") as [headings|e]; [|reflexivity].
    cbn [rbind]. destruct (py_iter headings) as [hs|e]; [|reflexivity].
    cbn [rbind]. rewrite headings_extend.
    rewrite (headings_extend hs (_ ++ _)).
    destruct (for_each hs _ []) as [ext|e]; [|reflexivity].
    close_block.
  - close_block.
Qed.

Lemma image_lines_extend item out :
  image_lines item out = extend out (image_lines item []).
Proof.
  destruct item as [i img_info]. unfold image_lines.
  destruct img_info; try reflexivity.
  cbn [py_get rbind]. blk.
  destruct (truthy (dict_get_default kvs "description" VNone)).
  - destruct (py_getitem (VDict kvs) "description"); [|reflexivity].
    close_block.
  - close_block.
Qed.

Lemma images_block_extend results out :
  images_block results out = extend out (images_block results []).
Proof.
  unfold images_block.
  destruct (truthy (dict_get_default results "images" VNone));
    [|cbn; now rewrite app_nil_r].
  destruct (getitem results "images") as [images|e]; [|reflexivity].
  cbn [rbind]. destruct (py_iter images) as [imgs|e]; [|reflexivity].
  cbn [rbind]. blk. rewrite <- app_assoc.
  apply extend_bind_for_each.
  - apply image_lines_extend.
  - intros o. cbn. now rewrite <- app_assoc.
Qed.

Lemma table_lines_extend item out :
  table_lines item out = extend out (table_lines item []).
Proof.
  destruct item as [i table_info]. unfold table_lines.
  destruct table_info; try reflexivity.
  cbn [py_get rbind]. blk.
  destruct (dict_mem kvs "content").
  - destruct (getitem kvs "content") as [content|e]; [|reflexivity].
    cbn [rbind]. destruct content; close_block.
  - close_block.
Qed.

Lemma tables_block_extend results out :
  tables_block results out = extend out (tables_block results []).
Proof.
  unfold tables_block.
  destruct (truthy (dict_get_default results "tables" VNone));
    [|cbn; now rewrite app_nil_r].
  destruct (getitem results "tables") as [tables|e]; [|reflexivity].
  cbn [rbind]. destruct (py_iter tables) as [tbls|e]; [|reflexivity].
  cbn [rbind]. blk. rewrite <- app_assoc.
  apply extend_bind_for_each.
  - apply table_lines_extend.
  - intros o. cbn. now rewrite <- app_assoc.
Qed.

Lemma text_block_extend results out :
  text_block results out = extend out (text_block results []).
Proof.
  unfold text_block.
  destruct (truthy (dict_get_default results "text_content" VNone));
    [|cbn; now rewrite app_nil_r].
  destruct (getitem results "text_content"); [|reflexivity].
  close_block.
Qed.

Lemma ocr_block_extend results out :
  ocr_block results out = extend out (ocr_block results []).
Proof.
  unfold ocr_block.
  destruct (ocr_condition results) as [[|]|e]; cbn [rbind];
    [| cbn; now rewrite app_nil_r | reflexivity].
  destruct (getitem results "ocr_text"); [|reflexivity].
  close_block.
Qed.

Lemma summary_block_extend results out :
  summary_block results out = extend out (summary_block results []).
Proof.
  unfold summary_block.
  destruct (py_len (dict_get_default results "text_content" (VStr "")));
    [|reflexivity].
  destruct (py_len (dict_get_default results "images" (VList [])));
    [|reflexivity].
  destruct (py_len (dict_get_default results "tables" (VList [])));
    [|reflexivity].
  destruct (py_len (dict_get_default results "ocr_text" (VStr "")));
    [|reflexivity].
  close_block.
Qed.

(** The report of a document without an error is the concatenation of the
    header and of the seven sections, each computed on its own. *)
Lemma output_lines_sections results :
  dict_mem results "error" = false ->
  output_lines results
  = (header <- header_block results [] ;;
     metadata <- metadata_block results [] ;;
     structure <- structure_block results [] ;;
     images <- images_block results [] ;;
     tables <- tables_block results [] ;;
     text <- text_block results [] ;;
     ocr <- ocr_block results [] ;;
     summary <- summary_block results [] ;;
     Ok (header ++ metadata ++ structure ++ images ++ tables ++ text ++ ocr
           ++ summary)).
Proof.
  intros Herr. unfold output_lines. rewrite Herr.
  destruct (header_block results []) as [h|e]; [|reflexivity]. cbn [rbind].
  rewrite metadata_block_extend.
  destruct (metadata_block results []) as [m|e]; [|reflexivity]. cbn [rbind extend].
  rewrite structure_block_extend.
  destruct (structure_block results []) as [s|e]; [|reflexivity]. cbn [rbind extend].
  rewrite images_block_extend.
  destruct (images_block results []) as [i|e]; [|reflexivity]. cbn [rbind extend].
  rewrite tables_block_extend.
  destruct (tables_block results []) as [t|e]; [|reflexivity]. cbn [rbind extend].
  rewrite text_block_extend.
  destruct (text_block results []) as [x|e]; [|reflexivity]. cbn [rbind extend].
  rewrite ocr_block_extend.
  destruct (ocr_block results []) as [o|e]; [|reflexivity]. cbn [rbind extend].
  rewrite summary_block_extend.
  destruct (summary_block results []) as [u|e]; [|reflexivity]. cbn [rbind extend].
  now repeat rewrite <- app_assoc.
Qed.

Lemma no_key_error_bind {A B} (c : result A) (k : A -> result B) :
  no_key_error c -> (forall a, c = Ok a -> no_key_error (k a)) ->
  no_key_error (rbind c k).
Proof. destruct c; cbn; auto. Qed.

Lemma no_key_error_for_each {A} (body : A -> lines -> result lines) xs :
  (forall x out, no_key_error (body x out)) ->
  forall out, no_key_error (for_each xs body out).
Proof.
  intros Hbody. induction xs as [|x xs IH]; intros out; cbn; [exact I|].
  apply no_key_error_bind; auto.
Qed.

Lemma getitem_guarded (d : dict) k :
  truthy (dict_get_default d k VNone) = true -> exists v, getitem d k = Ok v.
Proof.
  unfold dict_get_default, getitem. destruct (dict_get d k); [eauto|discriminate].
Qed.

Lemma getitem_mem (d : dict) k :
  dict_mem d k = true -> exists v, getitem d k = Ok v.
Proof.
  unfold dict_mem, getitem. destruct (dict_get d k); [eauto|discriminate].
Qed.

Lemma no_key_error_py_get v k default : no_key_error (py_get v k default).
Proof. destruct v; cbn; auto; discriminate. Qed.

Lemma no_key_error_py_items v : no_key_error (py_items v).
Proof. destruct v; cbn; auto; discriminate. Qed.

Lemma no_key_error_py_iter v : no_key_error (py_iter v).
Proof. destruct v; cbn; auto; discriminate. Qed.

Lemma no_key_error_py_len v : no_key_error (py_len v).
Proof. destruct v; cbn; auto; discriminate. Qed.

Lemma no_key_error_py_join sep items : no_key_error (py_join sep items).
Proof.
  unfold py_join.
  assert (H : forall i, no_key_error (all_str i items)).
  { induction items as [|v items IH]; intros i; cbn; [exact I|].
    destruct v; cbn; try discriminate.
    specialize (IH (S i)). destruct (all_str (S i) items); cbn in *; auto. }
  specialize (H 0). destruct (all_str 0 items); cbn in *; auto.
Qed.

Lemma no_key_error_metadata_block results out : no_key_error (metadata_block results out).
Proof.
  unfold metadata_block.
  destruct (truthy (dict_get_default results "metadata" VNone)) eqn:Ht;
    [|exact I].
  destruct (getitem_guarded _ _ Ht) as [metadata ->]. cbn [rbind].
  apply no_key_error_bind; [apply no_key_error_py_items|]. intros items _.
  apply no_key_error_bind; [|intros; exact I].
  apply no_key_error_for_each. intros [key value] o. now destruct (truthy value).
Qed.

Lemma no_key_error_structure_block results out : no_key_error (structure_block results out).
Proof.
  unfold structure_block.
  destruct (truthy (dict_get_default results "structure" VNone)) eqn:Ht;
    [|exact I].
  destruct (getitem_guarded _ _ Ht) as [structure ->]. cbn [rbind].
  apply no_key_error_bind; [apply no_key_error_py_get|]. intros total_pages _.
  apply no_key_error_bind; [|intros; exact I].
  destruct structure; try discriminate.
  destruct (dict_mem kvs "headings") eqn:Hm; [|exact I].
  destruct (getitem_mem _ _ Hm) as [headings ->]. cbn [rbind].
  apply no_key_error_bind; [apply no_key_error_py_iter|]. intros hs _.
  apply no_key_error_for_each. intros; exact I.
Qed.

Lemma no_key_error_image_lines item out : no_key_error (image_lines item out).
Proof.
  destruct item as [i img_info]. unfold image_lines.
  destruct img_info; try discriminate.
  cbn [py_get rbind].
  destruct (truthy (dict_get_default kvs "description" VNone)) eqn:Ht;
    [|exact I].
  cbn [py_getitem]. destruct (getitem_guarded _ _ Ht) as [v ->]. exact I.
Qed.

Lemma no_key_error_images_block results out : no_key_error (images_block results out).
Proof.
  unfold images_block.
  destruct (truthy (dict_get_default results "images" VNone)) eqn:Ht;
    [|exact I].
  destruct (getitem_guarded _ _ Ht) as [images ->]. cbn [rbind].
  apply no_key_error_bind; [apply no_key_error_py_iter|]. intros imgs _.
  apply no_key_error_bind; [|intros; exact I].
  apply no_key_error_for_each, no_key_error_image_lines.
Qed.

Lemma no_key_error_table_lines item out : no_key_error (table_lines item out).
Proof.
  destruct item as [i table_info]. unfold table_lines.
  destruct table_info; try discriminate.
  cbn [py_get rbind].
  destruct (dict_mem kvs "content") eqn:Hm; [|exact I].
  destruct (getitem_mem _ _ Hm) as [content ->]. cbn [rbind].
  now destruct content.
Qed.

Lemma no_key_error_tables_block results out : no_key_error (tables_block results out).
Proof.
  unfold tables_block.
  destruct (truthy (dict_get_default results "tables" VNone)) eqn:Ht;
    [|exact I].
  destruct (getitem_guarded _ _ Ht) as [tables ->]. cbn [rbind].
  apply no_key_error_bind; [apply no_key_error_py_iter|]. intros tbls _.
  apply no_key_error_bind; [|intros; exact I].
  apply no_key_error_for_each, no_key_error_table_lines.
Qed.

Lemma no_key_error_text_block results out : no_key_error (text_block results out).
Proof.
  unfold text_block.
  destruct (truthy (dict_get_default results "text_content" VNone)) eqn:Ht;
    [|exact I].
  destruct (getitem_guarded _ _ Ht) as [v ->]. exact I.
Qed.

Lemma ocr_condition_shown results :
  ocr_condition results = Ok true -> exists v, getitem results "ocr_text" = Ok v.
Proof.
  unfold ocr_condition.
  destruct (truthy (dict_get_default results "ocr_text" VNone)) eqn:Ht;
    [|discriminate].
  intros _. now apply getitem_guarded.
Qed.

Lemma no_key_error_ocr_block results out : no_key_error (ocr_block results out).
Proof.
  unfold ocr_block.
  destruct (ocr_condition results) as [[|]|e] eqn:Hc; cbn [rbind].
  - destruct (ocr_condition_shown _ Hc) as [v ->]. exact I.
  - exact I.
  - revert Hc. unfold ocr_condition.
    destruct (truthy (dict_get_default results "ocr_text" VNone)) eqn:Ht;
      [|discriminate].
    destruct (getitem_guarded _ _ Ht) as [v ->]. discriminate.
Qed.

Lemma no_key_error_summary_block results out : no_key_error (summary_block results out).
Proof.
  unfold summary_block.
  repeat (apply no_key_error_bind; [apply no_key_error_py_len|]; intros ? _).
  exact I.
Qed.

(** A dictionary with a file name and a time stamp never makes the renderer
    fail on a missing key. *)
Lemma no_key_error_generate_output_text results :
  dict_mem results "filename" = true ->
  dict_mem results "processed_at" = true ->
  no_key_error (generate_output_text results).
Proof.
  intros Hf Hp. unfold generate_output_text.
  apply no_key_error_bind; [|intros; apply no_key_error_py_join].
  unfold output_lines, header_block.
  destruct (getitem_mem _ _ Hf) as [filename ->].
  destruct (getitem_mem _ _ Hp) as [processed_at ->]. cbn [rbind].
  destruct (dict_mem results "error") eqn:He.
  - unfold error_block. destruct (getitem_mem _ _ He) as [error ->]. exact I.
  - apply no_key_error_bind; [apply no_key_error_metadata_block|]; intros ? _.
    apply no_key_error_bind; [apply no_key_error_structure_block|]; intros ? _.
    apply no_key_error_bind; [apply no_key_error_images_block|]; intros ? _.
    apply no_key_error_bind; [apply no_key_error_tables_block|]; intros ? _.
    apply no_key_error_bind; [apply no_key_error_text_block|]; intros ? _.
    apply no_key_error_bind; [apply no_key_error_ocr_block|]; intros ? _.
    apply no_key_error_summary_block.
Qed.

Lemma render_error_aggregate results filename ts msg :
  dict_get results "filename" = Some (VStr filename) ->
  dict_get results "processed_at" = Some (VStr ts) ->
  dict_get results "error" = Some (VStr msg) ->
  generate_output_text results
  = Ok (str_join newline
          [rule "=" 80;
           ("PDF PROCESSING RESULTS: " ++ filename)%string;
           ("Processed at: " ++ ts)%string;
           rule "=" 80;
           "";
           ("ERROR: " ++ msg)%string]).
Proof.
  intros Hf Hp He.
  unfold generate_output_text, output_lines, header_block, error_block,
    dict_mem, getitem.
  rewrite Hf, Hp, He. cbn [rbind]. rewrite !py_str_VStr. reflexivity.
Qed.

(** C10.  [process_pdf] always returns a dictionary, and rendering that
    dictionary never fails on a missing key.  When the dictionary carries
    [error], the report is the banner followed by the error line, and it
    depends on the keys [filename], [processed_at] and [error] only. *)
Theorem renderer_handles_process_pdf_output env pdf_path filename l :
  exists results l',
    process_pdf env pdf_path filename l = (Ok results, l')
    /\ (forall e, generate_output_text results = Raise e -> exn_cls e <> KeyError)
    /\ (dict_mem results "error" = true ->
        exists ts msg,
          dict_get results "processed_at" = Some (VStr ts)
          /\ dict_get results "error" = Some (VStr msg)
          /\ generate_output_text results
             = Ok (str_join newline
                     [rule "=" 80;
                      ("PDF PROCESSING RESULTS: " ++ filename)%string;
                      ("Processed at: " ++ ts)%string;
                      rule "=" 80;
                      "";
                      ("ERROR: " ++ msg)%string]))
    /\ (forall other,
          dict_mem results "error" = true ->
          dict_get other "filename" = dict_get results "filename" ->
          dict_get other "processed_at" = dict_get results "processed_at" ->
          dict_get other "error" = dict_get results "error" ->
          generate_output_text other = generate_output_text results).
Proof.
  destruct (process_pdf_shape env pdf_path filename l)
    as (results & l' & Hrun & Hshape).
  exists results, l'. split; [exact Hrun|].
  assert (Hkeys : exists ts, dict_get results "filename" = Some (VStr filename)
                             /\ dict_get results "processed_at" = Some (VStr ts)).
  { destruct Hshape; eexists; split; reflexivity. }
  destruct Hkeys as (ts & Hf & Hp).
  assert (Herr : dict_mem results "error" = true ->
                 exists msg, dict_get results "error" = Some (VStr msg)).
  { destruct Hshape; cbn; intros H; try discriminate H; eauto. }
  split; [|split].
  - intros e He.
    pose proof (no_key_error_generate_output_text results) as Hn.
    unfold dict_mem in Hn. rewrite Hf, Hp, He in Hn. now apply Hn.
  - intros H. destruct (Herr H) as [msg Hm].
    exists ts, msg. repeat split; auto.
    now apply render_error_aggregate.
  - intros other H Hof Hop Hoe. destruct (Herr H) as [msg Hm].
    rewrite (render_error_aggregate results filename ts msg) by assumption.
    apply render_error_aggregate; congruence.
Qed.

Lemma substring_first n : forall s,
  n <= String.length s ->
  exists rest, s = (substring 0 n s ++ rest)%string
               /\ String.length (substring 0 n s) = n.
Proof.
  induction n as [|n IH]; intros s Hn.
  - exists s. destruct s; split; reflexivity.
  - destruct s as [|c s]; cbn in Hn; [lia|].
    destruct (IH s) as (rest & Hs & Hl); [lia|].
    exists rest. cbn. split; [now rewrite <- Hs | now rewrite Hl].
Qed.

(** C7.  For a table whose content is a string, the content line shows the
    first 200 characters followed by "..." when the content is longer than
    200 characters, and the content itself otherwise. *)
Theorem table_content_preview i d content out :
  dict_get d "content" = Some (VStr content) ->
  let head :=
    [("Table " ++ str_of_nat i ++ ":")%string;
     ("  Page: " ++ py_str (dict_get_default d "page" unknown))%string;
     ("  Dimensions: " ++ py_str (dict_get_default d "shape" unknown))%string;
     ("  Accuracy: " ++ py_str (dict_get_default d "accuracy" unknown) ++ "%")%string;
     "  Content Summary:"%string] in
  (200 < String.length content ->
   exists first rest,
     content = (first ++ rest)%string
     /\ String.length first = 200
     /\ table_lines (i, VDict d) out
        = Ok (out ++ map VStr (head ++ [("    " ++ first ++ "...")%string])))
  /\ (String.length content <= 200 ->
      table_lines (i, VDict d) out
      = Ok (out ++ map VStr (head ++ [("    " ++ content)%string]))).
Proof.
  intros Hc head.
  assert (Hrun : table_lines (i, VDict d) out
                 = Ok (out ++ map VStr (head ++ [("    " ++ content_preview content)%string]))).
  { unfold table_lines, dict_mem, getitem. cbn [py_get rbind]. rewrite Hc.
    unfold append_line. cbn [rbind]. subst head. cbn [map app].
    now repeat rewrite <- app_assoc. }
  split.
  - intros Hlen.
    destruct (substring_first 200 content) as (rest & Hs & Hl); [lia|].
    exists (substring 0 200 content), rest. repeat split; auto.
    rewrite Hrun. unfold content_preview, str_slice_to.
    now replace (200 <? String.length content)%nat with true
      by (symmetry; apply Nat.ltb_lt; lia).
  - intros Hlen. rewrite Hrun. unfold content_preview.
    now replace (200 <? String.length content)%nat with false
      by (symmetry; apply Nat.ltb_ge; lia).
Qed.

Lemma ocr_block_strings results o t :
  dict_get_default results "ocr_text" (VStr "") = VStr o ->
  dict_get_default results "text_content" (VStr "") = VStr t ->
  ocr_block results []
  = Ok (if andb (negb (String.eqb o "")) (negb (String.eqb o t))
        then ocr_section o else []).
Proof.
  unfold ocr_block, ocr_condition, dict_get_default, getitem.
  destruct (dict_get results "ocr_text") as [v|]; intros Ho Ht.
  - subst v. cbn [truthy]. rewrite Ht.
    destruct (String.eqb o ""); cbn [negb andb rbind]; [reflexivity|].
    rewrite py_eq_VStr. now destruct (String.eqb o t).
  - injection Ho as <-. reflexivity.
Qed.

(** C6.  For a document without an error whose OCR text is [o] and whose
    text content is [t], the OCR section is rendered, between the sections
    before it and the summary, if and only if [o] is non-empty and differs
    from [t]; otherwise nothing is rendered in its place. *)
Theorem ocr_section_iff results o t :
  dict_mem results "error" = false ->
  dict_get_default results "ocr_text" (VStr "") = VStr o ->
  dict_get_default results "text_content" (VStr "") = VStr t ->
  (ocr_block results [] = Ok (ocr_section o) <-> (o <> "" /\ o <> t))
  /\ (ocr_block results [] = Ok [] <-> (o = "" \/ o = t))
  /\ forall report,
       output_lines results = Ok report ->
       exists before ocr summary,
         report = before ++ ocr ++ summary
         /\ ocr_block results [] = Ok ocr
         /\ summary_block results [] = Ok summary.
Proof.
  intros Herr Ho Ht.
  pose proof (ocr_block_strings results o t Ho Ht) as Hblock.
  split; [|split].
  - rewrite Hblock.
    destruct (String.eqb_spec o ""); destruct (String.eqb_spec o t);
      cbn [negb andb]; split; try discriminate; try tauto.
  - rewrite Hblock.
    destruct (String.eqb_spec o ""); destruct (String.eqb_spec o t);
      cbn [negb andb]; split; try discriminate; try tauto.
  - intros report. rewrite (output_lines_sections results Herr).
    destruct (header_block results []) as [h|]; [|discriminate].
    destruct (metadata_block results []) as [m|]; [|discriminate].
    destruct (structure_block results []) as [s|]; [|discriminate].
    destruct (images_block results []) as [i|]; [|discriminate].
    destruct (tables_block results []) as [b|]; [|discriminate].
    destruct (text_block results []) as [x|]; [|discriminate].
    destruct (ocr_block results []) as [c|]; [|discriminate].
    destruct (summary_block results []) as [u|]; [|discriminate].
    cbn [rbind]. intros [= <-].
    exists (h ++ m ++ s ++ i ++ b ++ x), c, u.
    split; [now repeat rewrite <- app_assoc | split; reflexivity].
Qed.

Lemma for_each_section {A} (body : A -> lines -> result lines) xs pre section :
  (forall x out, body x out = extend out (body x [])) ->
  (o <- for_each xs body pre ;; Ok (append_line o "")) = Ok section ->
  exists ext, section = pre ++ ext ++ [VStr ""].
Proof.
  intros Hbody. rewrite (for_each_extend body xs Hbody pre).
  destruct (for_each xs body []) as [ext|e]; cbn; [|discriminate].
  intros [= <-]. exists ext. unfold append_line. now rewrite <- app_assoc.
Qed.

Lemma metadata_section_when_nonempty results :
  section_when_nonempty metadata_block "metadata" "DOCUMENT METADATA:" results.
Proof.
  unfold section_when_nonempty, metadata_block. split; intros Ht; rewrite Ht;
    [reflexivity|].
  intros section. destruct (getitem results "metadata") as [metadata|];
    [|discriminate].
  cbn [rbind]. destruct (py_items metadata) as [items|]; [|discriminate].
  cbn [rbind]. intros H. apply for_each_section in H.
  - destruct H as [ext ->]. now exists ext.
  - intros [key value] o. destruct (truthy value); cbn; [reflexivity|].
    now rewrite app_nil_r.
Qed.

Lemma structure_section_when_nonempty results :
  section_when_nonempty structure_block "structure" "DOCUMENT STRUCTURE:" results.
Proof.
  unfold section_when_nonempty, structure_block. split; intros Ht; rewrite Ht;
    [reflexivity|].
  intros section. destruct (getitem results "structure") as [structure|];
    [|discriminate].
  cbn [rbind]. destruct structure; try discriminate.
  cbn [py_get rbind]. destruct (dict_mem kvs "headings").
  - destruct (getitem kvs "headings") as [headings|]; [|discriminate].
    cbn [rbind]. destruct (py_iter headings) as [hs|]; [|discriminate].
    cbn [rbind]. rewrite headings_extend.
    destruct (for_each hs _ []) as [ext|]; [|discriminate].
    cbn. intros [= <-]. eexists (_ :: _ :: ext).
    unfold append_line. cbn. now repeat rewrite <- app_assoc.
  - cbn. intros [= <-]. now eexists [_].
Qed.

Lemma images_section_when_nonempty results :
  section_when_nonempty images_block "images" "EXTRACTED IMAGES:" results.
Proof.
  unfold section_when_nonempty, images_block. split; intros Ht; rewrite Ht;
    [reflexivity|].
  intros section. destruct (getitem results "images") as [images|];
    [|discriminate].
  cbn [rbind]. destruct (py_iter images) as [imgs|]; [|discriminate].
  cbn [rbind]. intros H. apply for_each_section in H.
  - destruct H as [ext ->]. now exists ext.
  - apply image_lines_extend.
Qed.

Lemma tables_section_when_nonempty results :
  section_when_nonempty tables_block "tables" "EXTRACTED TABLES:" results.
Proof.
  unfold section_when_nonempty, tables_block. split; intros Ht; rewrite Ht;
    [reflexivity|].
  intros section. destruct (getitem results "tables") as [tables|];
    [|discriminate].
  cbn [rbind]. destruct (py_iter tables) as [tbls|]; [|discriminate].
  cbn [rbind]. intros H. apply for_each_section in H.
  - destruct H as [ext ->]. now exists ext.
  - apply table_lines_extend.
Qed.

Lemma text_section_when_nonempty results :
  section_when_nonempty text_block "text_content" "EXTRACTED TEXT CONTENT:" results.
Proof.
  unfold section_when_nonempty, text_block. split; intros Ht; rewrite Ht;
    [reflexivity|].
  intros section. destruct (getitem results "text_content") as [text|];
    [|discriminate].
  cbn. intros [= <-]. now exists [text].
Qed.

(** C5, as amended.  For a document without an error, the metadata and
    structure sections are conditional like the others: each of the
    metadata, structure, images, tables and text sections is left out,
    header included, when its field is empty, and opens with its header
    when the field is not; the OCR section is left out when the OCR text is
    empty.  The report is the header followed by these sections and the
    summary. *)
Theorem sections_rendered_when_nonempty results :
  dict_mem results "error" = false ->
  section_when_nonempty metadata_block "metadata" "DOCUMENT METADATA:" results
  /\ section_when_nonempty structure_block "structure" "DOCUMENT STRUCTURE:" results
  /\ section_when_nonempty images_block "images" "EXTRACTED IMAGES:" results
  /\ section_when_nonempty tables_block "tables" "EXTRACTED TABLES:" results
  /\ section_when_nonempty text_block "text_content" "EXTRACTED TEXT CONTENT:" results
  /\ (truthy (dict_get_default results "ocr_text" VNone) = false ->
      ocr_block results [] = Ok [])
  /\ forall report,
       output_lines results = Ok report ->
       exists header metadata structure images tables text ocr summary,
         report = header ++ metadata ++ structure ++ images ++ tables ++ text
                    ++ ocr ++ summary
         /\ header_block results [] = Ok header
         /\ metadata_block results [] = Ok metadata
         /\ structure_block results [] = Ok structure
         /\ images_block results [] = Ok images
         /\ tables_block results [] = Ok tables
         /\ text_block results [] = Ok text
         /\ ocr_block results [] = Ok ocr
         /\ summary_block results [] = Ok summary.
Proof.
  intros Herr.
  split; [apply metadata_section_when_nonempty|].
  split; [apply structure_section_when_nonempty|].
  split; [apply images_section_when_nonempty|].
  split; [apply tables_section_when_nonempty|].
  split; [apply text_section_when_nonempty|].
  split.
  - intros Ht. unfold ocr_block, ocr_condition. now rewrite Ht.
  - intros report. rewrite (output_lines_sections results Herr).
    destruct (header_block results []) as [h|]; [|discriminate].
    destruct (metadata_block results []) as [m|]; [|discriminate].
    destruct (structure_block results []) as [s|]; [|discriminate].
    destruct (images_block results []) as [i|]; [|discriminate].
    destruct (tables_block results []) as [b|]; [|discriminate].
    destruct (text_block results []) as [x|]; [|discriminate].
    destruct (ocr_block results []) as [c|]; [|discriminate].
    destruct (summary_block results []) as [u|]; [|discriminate].
    cbn [rbind]. intros [= <-].
    exists h, m, s, i, b, x, c, u. repeat split.
Qed.

(** X20.  Of the aggregate, [generate_output_text] reads the values under
    nine keys ([filename], [processed_at], [error], [metadata],
    [structure], [images], [tables], [text_content], [ocr_text]) and
    nothing else: two aggregates that agree on these keys give the same
    report, or raise the same exception, whatever other keys they hold
    and in whatever order their keys are. *)
Theorem generate_output_text_reads_nine_keys results other :
  (forall k, In k rendered_keys -> dict_get other k = dict_get results k) ->
  generate_output_text other = generate_output_text results.
Proof.
  intros Hkeys.
  assert (Hk : Forall (fun k => dict_get other k = dict_get results k)
                 rendered_keys) by now apply Forall_forall.
  unfold rendered_keys in Hk.
  repeat match type of Hk with
         | Forall _ (_ :: _) =>
             let H := fresh "Hkey" in
             apply Forall_cons_iff in Hk; destruct Hk as [H Hk]
         end.
  unfold generate_output_text, output_lines, header_block, error_block,
    metadata_block, structure_block, images_block, tables_block, text_block,
    ocr_block, ocr_condition, summary_block, getitem, dict_get_default,
    dict_mem.
  now rewrite Hkey, Hkey0, Hkey1, Hkey2, Hkey3, Hkey4, Hkey5, Hkey6, Hkey7.
Qed.

End RendererFacts.

(** *** The theorems at work on concrete documents *)

(** C1 on a document whose image extractor raises after the text extractor
    has returned "Hello": the text is not in the result. *)
Lemma process_pdf_fault_witness :
  fst (process_pdf env_images_fail doc_path "doc.pdf" [])
  = Ok [("filename", VStr "doc.pdf");
        ("error", VStr "Processing failed: cannot decode image stream");
        ("processed_at", VStr "2024-05-01 12:00:00")]
  /\ exists l',
       process_pdf_body env_images_fail doc_path "doc.pdf" []
       = (Raise (mk_exn OtherException "cannot decode image stream"), l').
Proof.
  pose proof (process_pdf_fault env_images_fail doc_path "doc.pdf" [])
    as [Hcaught Hfault].
  split.
  - destruct (Hcaught (mk_exn OtherException "cannot decode image stream")
                (snd (process_pdf_body env_images_fail doc_path "doc.pdf" []))
                eq_refl) as (Hrun & _ & _).
    rewrite Hrun. reflexivity.
  - apply (Hfault (valid_outcome 2048 1 "Hello") []
             (events_of doc_path all_check_ops)); reflexivity.
Defined.

(** C2 on a path that does not exist. *)
Lemma process_pdf_invalid_file_witness :
  exists results events,
    process_pdf env_missing doc_path "doc.pdf" [] = (Ok results, events)
    /\ dict_get results "error" = Some (VStr "File does not exist")
    /\ dict_get results "text_content" = Some (VStr "")
    /\ extractor_calls events = [].
Proof.
  destruct (process_pdf_invalid_file env_missing doc_path "doc.pdf" []
              (invalid "File does not exist") [] [EvCall OpExists doc_path]
              eq_refl eq_refl)
    as (error & events & Herr & _ & Hcalls & Hrun).
  injection Herr as <-.
  do 2 eexists. split; [exact Hrun|]. repeat split. exact Hcalls.
Defined.

(** C3 on a document with every kind of content. *)
Lemma process_pdf_runs_every_extractor_witness :
  exists results events,
    process_pdf env_rich doc_path "doc.pdf" [] = (Ok results, events)
    /\ dict_get results "text_content" = Some (VStr "Hello")
    /\ dict_get results "ocr_text" = Some (VStr "He11o")
    /\ extractor_calls events
       = [(OpTextAndStructure, doc_path); (OpImages, doc_path);
          (OpTables, doc_path); (OpMetadata, doc_path); (OpOcr, doc_path)].
Proof.
  destruct (process_pdf_runs_every_extractor env_rich doc_path "doc.pdf" []
              (valid_outcome 2048 1 "Hello") []
              (events_of doc_path all_check_ops)
              _ _ _ _ _ eq_refl eq_refl eq_refl eq_refl eq_refl eq_refl eq_refl)
    as (events & Hrun & Hcalls).
  do 2 eexists. split; [exact Hrun|]. repeat split. exact Hcalls.
Defined.

(** C5, as amended, on two documents: one with an author in its metadata,
    one with an empty metadata mapping. *)
Lemma sections_rendered_when_nonempty_witness :
  (exists body,
     metadata_block (aggregate env_rich) []
     = Ok (VStr "DOCUMENT METADATA:" :: VStr (rule "-" 40) :: body ++ [VStr ""]))
  /\ metadata_block (aggregate env_plain) [] = Ok []
  /\ structure_block (aggregate env_plain) [] = Ok [].
Proof.
  destruct (sections_rendered_when_nonempty (aggregate env_rich) eq_refl)
    as ((_ & Hshown) & _).
  destruct (sections_rendered_when_nonempty (aggregate env_plain) eq_refl)
    as ((Hmetadata & _) & (Hstructure & _) & _).
  split; [|split].
  - destruct (Hshown eq_refl _ eq_refl) as (body & Hbody).
    exists body. rewrite <- Hbody. reflexivity.
  - exact (Hmetadata eq_refl).
  - exact (Hstructure eq_refl).
Defined.

(** C6 on a document whose OCR text equals its text ("Hello" twice) and on
    one where the two differ. *)
Lemma ocr_section_iff_witness :
  ocr_block (aggregate env_plain) [] = Ok []
  /\ ocr_block (aggregate env_rich) [] = Ok (ocr_section "He11o").
Proof.
  split.
  - apply (proj1 (proj2 (ocr_section_iff (aggregate env_plain) "Hello" "Hello"
                           eq_refl eq_refl eq_refl))).
    right. reflexivity.
  - apply (proj1 (ocr_section_iff (aggregate env_rich) "He11o" "Hello"
                    eq_refl eq_refl eq_refl)).
    split; discriminate.
Defined.

(** C7 on a table of 203 characters and on a short one; in the report of
    the document that holds both, the long content is cut after its 200th
    character. *)
Lemma table_content_preview_witness :
  (exists first rest head,
     long_content = (first ++ rest)%string
     /\ String.length first = 200
     /\ table_lines (1, VDict long_table) []
        = Ok (map VStr (head ++ [("    " ++ first ++ "...")%string])))
  /\ (exists head,
        table_lines (2, VDict short_table) []
        = Ok (map VStr (head ++ ["    a | b"%string])))
  /\ str_contains
       (newline ++ "    " ++ str_repeat "x" 200 ++ "..." ++ newline)%string
       (report env_rich) = true
  /\ str_contains (str_repeat "x" 200 ++ "y")%string (report env_rich) = false.
Proof.
  split; [|split; [|split; vm_compute; reflexivity]].
  - destruct (proj1 (table_content_preview 1 long_table long_content [] eq_refl))
      as (first & rest & Hsplit & Hlen & Hrun).
    + apply Nat.ltb_lt. reflexivity.
    + exists first, rest. eexists.
      repeat split; [exact Hsplit | exact Hlen | exact Hrun].
  - eexists.
    apply (proj2 (table_content_preview 2 short_table "a | b" [] eq_refl)).
    apply Nat.leb_le. reflexivity.
Defined.

(** C5 as first stated fails: a valid document whose metadata and structure
    mappings are empty has no error, and its report holds neither the
    metadata header nor the structure header. *)
Lemma empty_mappings_render_no_header :
  results_of env_plain = Ok (aggregate env_plain)
  /\ dict_mem (aggregate env_plain) "error" = false
  /\ dict_get (aggregate env_plain) "metadata" = Some (VDict [])
  /\ dict_get (aggregate env_plain) "structure" = Some (VDict [])
  /\ generate_output_text (aggregate env_plain) = Ok (report env_plain)
  /\ str_contains "DOCUMENT METADATA:" (report env_plain) = false
  /\ str_contains "DOCUMENT STRUCTURE:" (report env_plain) = false
  /\ str_contains "EXTRACTED TEXT CONTENT:" (report env_plain) = true.
Proof. repeat split; vm_compute; reflexivity. Qed.

(** C9 as first stated fails: on a host where content sniffing raises, a
    file named "static/doc.pdf" still validates; the exception is not turned
    into an outcome with [valid] false. *)
Lemma sniffing_fault_can_end_valid :
  op_fault env_no_magic doc_path OpMagic
  = Some (mk_exn OtherException "failed to find libmagic")
  /\ In (EvCall OpMagic doc_path) (snd (validate_pdf env_no_magic doc_path []))
  /\ fst (validate_pdf env_no_magic doc_path [])
     = Ok [("valid", VBool true); ("file_size", VInt 2048);
           ("num_pages", VInt 1); ("has_text", VBool true)].
Proof.
  repeat split; try (vm_compute; reflexivity).
  vm_compute. tauto.
Qed.

(** C4 on three files: one that does not exist, one that may not be
    opened, and one that passes every check. *)
Lemma validate_pdf_checks_in_order_witness :
  fst (validate_pdf env_missing doc_path [])
  = Ok [("valid", VBool false); ("error", VStr "File does not exist")]
  /\ fst (validate_pdf env_unreadable doc_path [])
     = Ok [("valid", VBool false);
           ("error", VStr "PDF validation failed: [Errno 13] Permission denied")]
  /\ validate_pdf env_plain doc_path []
     = (Ok [("valid", VBool true); ("file_size", VInt 2048);
            ("num_pages", VInt 1); ("has_text", VBool true)],
        events_of doc_path
          [OpExists; OpGetsize; OpMagic; OpOpen; OpPdfReader; OpLenPages;
           OpFirstPage; OpExtractText]).
Proof.
  pose proof (validate_pdf_checks_in_order env_missing doc_path []) as Hmissing.
  pose proof (validate_pdf_checks_in_order env_unreadable doc_path [])
    as Hunreadable.
  pose proof (validate_pdf_checks_in_order env_plain doc_path []) as Hplain.
  change (first_failure env_missing doc_path)
    with (Some ([] : list check, CheckExists, "File does not exist"))
    in Hmissing.
  change (first_failure env_unreadable doc_path)
    with (Some ([CheckExists; CheckNonEmpty; CheckMaxSize; CheckType],
                CheckOpenPages,
                "PDF validation failed: [Errno 13] Permission denied"))
    in Hunreadable.
  change (first_failure env_plain doc_path) with (@None (list check * check * string))
    in Hplain.
  cbv iota in Hmissing, Hunreadable, Hplain.
  destruct Hmissing as (_ & _ & _ & done1 & Hrun1 & _).
  destruct Hunreadable as (_ & _ & _ & done2 & Hrun2 & _).
  destruct Hplain as (_ & n & np & text & Hn & Hnp & Htext & Hrun3).
  injection Hn as <-. injection Hnp as <-. injection Htext as <-.
  rewrite Hrun1, Hrun2, Hrun3. repeat split.
Defined.

(** X20 on the aggregate of [env_plain] and on a dictionary with the same
    nine values under keys in another order, and one key more. *)
Lemma generate_output_text_reads_nine_keys_witness :
  generate_output_text shuffled_aggregate
  = generate_output_text (aggregate env_plain).
Proof.
  apply (generate_output_text_reads_nine_keys (aggregate env_plain)).
  intros k Hk. cbn in Hk.
  repeat match type of Hk with
         | _ \/ _ => destruct Hk as [<-|Hk]
         | False => contradiction
         end;
    reflexivity.
Defined.

(** C9, as amended, on a file that may not be opened, and on a file without
    the extension on a host where content sniffing raises. *)
Lemma validate_pdf_never_raises_witness :
  fst (validate_pdf env_unreadable doc_path [])
  = Ok [("valid", VBool false);
        ("error", VStr "PDF validation failed: [Errno 13] Permission denied")]
  /\ fst (validate_pdf env_no_magic "static/doc.bin" [])
     = Ok [("valid", VBool false);
           ("error", VStr "File does not have .pdf extension")].
Proof.
  split.
  - destruct (validate_pdf_never_raises env_unreadable doc_path [])
      as (outcome & events & Hrun & _ & Hfault & _).
    rewrite Hrun. cbn [fst].
    assert (Hlog : events = snd (validate_pdf env_unreadable doc_path [])).
    { now rewrite Hrun. }
    destruct (Hfault OpOpen
                (mk_exn OtherException "[Errno 13] Permission denied"))
      as (msg & Hout & _).
    + rewrite Hlog. vm_compute. tauto.
    + reflexivity.
    + discriminate.
    + assert (Hfst : Ok outcome = fst (validate_pdf env_unreadable doc_path [])).
      { now rewrite Hrun. }
      rewrite Hfst. reflexivity.
  - destruct (validate_pdf_never_raises env_no_magic "static/doc.bin" [])
      as (outcome & events & Hrun & _ & _ & Hsniff).
    rewrite Hrun. cbn [fst]. f_equal.
    apply (Hsniff (mk_exn OtherException "failed to find libmagic")).
    + replace events with (snd (validate_pdf env_no_magic "static/doc.bin" []))
        by now rewrite Hrun.
      vm_compute. tauto.
    + reflexivity.
    + reflexivity.
Defined.

(** C10 on the aggregate of a document whose image extractor raised. *)
Lemma renderer_handles_process_pdf_output_witness :
  generate_output_text (aggregate env_images_fail)
  = Ok (str_join newline
          [rule "=" 80;
           "PDF PROCESSING RESULTS: doc.pdf"%string;
           "Processed at: 2024-05-01 12:00:00"%string;
           rule "=" 80;
           ""%string;
           "ERROR: Processing failed: cannot decode image stream"%string]).
Proof.
  destruct (renderer_handles_process_pdf_output env_images_fail doc_path
              "doc.pdf" [])
    as (results & l' & Hrun & _ & Herror & _).
  assert (Hresults : results = aggregate env_images_fail).
  { unfold aggregate, results_of. now rewrite Hrun. }
  subst results.
  destruct (Herror eq_refl) as (ts & msg & Hts & Hmsg & Hreport).
  injection Hts as <-. injection Hmsg as <-. exact Hreport.
Defined.

(** *** Two whole reports *)

Example report_of_missing_file :
  generate_output_text (aggregate env_missing)
  = Ok (str_join newline
          [rule "=" 80;
           "PDF PROCESSING RESULTS: doc.pdf"%string;
           "Processed at: 2024-05-01 12:00:00"%string;
           rule "=" 80;
           ""%string;
           "ERROR: File does not exist"%string]).
Proof. reflexivity. Qed.

Example report_of_plain_document :
  generate_output_text (aggregate env_plain)
  = Ok (str_join newline
          [rule "=" 80;
           "PDF PROCESSING RESULTS: doc.pdf"%string;
           "Processed at: 2024-05-01 12:00:00"%string;
           rule "=" 80;
           ""%string;
           "EXTRACTED TEXT CONTENT:"%string;
           rule "-" 40;
           "Hello"%string;
           ""%string;
           "PROCESSING SUMMARY:"%string;
           rule "-" 40;
           "Text Length: 5 characters"%string;
           "Images Found: 0"%string;
           "Tables Found: 0"%string;
           "OCR Length: 5 characters"%string]).
Proof. reflexivity. Qed.

(* ================================================================== *)
(** ** Further properties: the validators, the sections of the report
       and the batch driver *)
(* ================================================================== *)

Import OsPath DataModel Scenarios.

(** *** Strings *)

Lemma str_app_assoc (a b c : string) :
  ((a ++ b) ++ c = a ++ b ++ c)%string.
Proof. induction a as [|x a IH]; cbn; [reflexivity | now rewrite IH]. Qed.

Lemma str_app_nil_r (a : string) : (a ++ "")%string = a.
Proof. induction a as [|x a IH]; cbn; [reflexivity | now rewrite IH]. Qed.

Lemma str_app_length (a b : string) :
  String.length (a ++ b) = String.length a + String.length b.
Proof. induction a as [|x a IH]; cbn; [reflexivity | now rewrite IH]. Qed.

Lemma substring_whole (s : string) : substring 0 (String.length s) s = s.
Proof. induction s as [|c s IH]; cbn; [reflexivity | now rewrite IH]. Qed.

Lemma substring_after (pre s : string) (m : nat) :
  substring (String.length pre) m (pre ++ s) = substring 0 m s.
Proof. induction pre as [|c pre IH]; cbn; [reflexivity | exact IH]. Qed.

Lemma str_endswith_iff (s suffix : string) :
  str_endswith s suffix = true <-> exists pre, s = (pre ++ suffix)%string.
Proof.
  unfold str_endswith. rewrite andb_true_iff, Nat.leb_le, String.eqb_eq. split.
  - intros [Hle Hsub].
    destruct (substring_first (String.length s - String.length suffix) s)
      as (rest & Hs & Hlen); [lia|].
    exists (substring 0 (String.length s - String.length suffix) s).
    rewrite Hs at 1. f_equal.
    assert (Hrest : String.length rest = String.length suffix).
    { apply (f_equal String.length) in Hs. rewrite str_app_length in Hs. lia. }
    rewrite Hs in Hsub at 2. rewrite <- Hlen in Hsub at 1.
    rewrite substring_after, <- Hrest, substring_whole in Hsub. exact Hsub.
  - intros [pre ->]. rewrite str_app_length. split; [lia|].
    replace (String.length pre + String.length suffix - String.length suffix)
      with (String.length pre) by lia.
    now rewrite substring_after, substring_whole.
Qed.

Lemma str_lower_app (a b : string) :
  str_lower (a ++ b) = (str_lower a ++ str_lower b)%string.
Proof. induction a as [|c a IH]; cbn; [reflexivity | now rewrite IH]. Qed.

Lemma ascii_lower_idempotent (c : ascii) :
  ascii_lower (ascii_lower c) = ascii_lower c.
Proof.
  destruct c as [[|] [|] [|] [|] [|] [|] [|] [|]]; reflexivity.
Qed.

Lemma str_lower_idempotent (s : string) : str_lower (str_lower s) = str_lower s.
Proof.
  induction s as [|c s IH]; cbn; [reflexivity|].
  now rewrite ascii_lower_idempotent, IH.
Qed.

(** *** More on the validator *)

Lemma str_exists_rev_acc f s acc :
  str_exists f (str_rev_acc s acc) = orb (str_exists f s) (str_exists f acc).
Proof.
  revert acc. induction s as [|c s IH]; intros acc; cbn; [reflexivity|].
  rewrite IH. cbn. destruct (f c), (str_exists f s), (str_exists f acc); reflexivity.
Qed.

Lemma str_exists_rev f s : str_exists f (str_rev s) = str_exists f s.
Proof. unfold str_rev. rewrite str_exists_rev_acc. cbn. apply orb_false_r. Qed.

Lemma str_exists_lstrip s :
  str_exists visible (str_lstrip s) = str_exists visible s.
Proof.
  induction s as [|c s IH]; cbn; [reflexivity|].
  unfold visible at 2. destruct (is_space c) eqn:E; cbn; [exact IH|].
  unfold visible at 1. now rewrite E.
Qed.

Lemma str_lstrip_nonempty s :
  (0 <? String.length (str_lstrip s))%nat = str_exists visible s.
Proof.
  induction s as [|c s IH]; cbn; [reflexivity|].
  unfold visible at 1. destruct (is_space c) eqn:E; cbn; [exact IH|reflexivity].
Qed.

Lemma str_rev_acc_length s acc :
  String.length (str_rev_acc s acc) = String.length s + String.length acc.
Proof.
  revert acc. induction s as [|c s IH]; intros acc; cbn; [reflexivity|].
  rewrite IH. cbn. lia.
Qed.

Lemma str_strip_nonempty s :
  (0 <? String.length (str_strip s))%nat = str_exists visible s.
Proof.
  unfold str_strip, str_rev at 1. rewrite str_rev_acc_length. cbn [String.length].
  rewrite Nat.add_0_r, str_lstrip_nonempty, str_exists_rev.
  apply str_exists_lstrip.
Qed.

Lemma passing_verdicts env p :
  first_failure env p = None ->
  exists file_size num_pages text,
    os_path_getsize env p = Ok file_size
    /\ len_pages env p = Ok num_pages
    /\ extract_text env p = Ok text
    /\ (0 < file_size <= 52428800)%N
    /\ (1 <= num_pages)%N
    /\ forall l, validate_pdf env p l
                 = (Ok (valid_outcome file_size num_pages text),
                    l ++ events_of p all_check_ops).
Proof.
  intros Ef. pose proof (validate_pdf_run env p) as Hrun. rewrite Ef in Hrun.
  destruct Hrun as (n & np & text & Hn & Hnp & Htext & Hrun).
  pose proof (first_failure_none _ _ Ef) as Hpass.
  rewrite Forall_forall in Hpass.
  exists n, np, text. repeat split; auto.
  - assert (H : verdict env p CheckNonEmpty = None) by (apply Hpass; cbn; tauto).
    unfold verdict in H. rewrite Hn in H.
    destruct (0 <? n)%N eqn:E; [|discriminate]. now apply N.ltb_lt.
  - assert (H : verdict env p CheckMaxSize = None) by (apply Hpass; cbn; tauto).
    unfold verdict in H. rewrite Hn in H.
    destruct (n <=? 50 * 1024 * 1024)%N eqn:E; [|discriminate].
    apply N.leb_le in E. exact E.
  - assert (H : verdict env p CheckOpenPages = None) by (apply Hpass; cbn; tauto).
    unfold verdict in H. rewrite Hnp in H.
    destruct (open_rb env p); [|discriminate].
    destruct (pdf_reader env p); [|discriminate].
    destruct (0 <? np)%N eqn:E; [|discriminate]. apply N.ltb_lt in E. lia.
Qed.

(** X1.  [validate_pdf] always returns an outcome whose [valid] field is a
    boolean, and the outcome has an [error] key exactly when [valid] is
    false.  An outcome with [valid] true reports the size and the page
    count that the file system and the PDF reader gave; that size is at
    least one byte and at most 50 MiB (52,428,800 bytes), and there is at
    least one page. *)
Theorem validate_pdf_outcome_invariant env file_path l :
  exists outcome l',
    validate_pdf env file_path l = (Ok outcome, l')
    /\ (dict_get outcome "valid" = Some (VBool true)
        \/ dict_get outcome "valid" = Some (VBool false))
    /\ (dict_mem outcome "error" = true
        <-> dict_get outcome "valid" = Some (VBool false))
    /\ (dict_get outcome "valid" = Some (VBool true) ->
        exists file_size num_pages,
          os_path_getsize env file_path = Ok file_size
          /\ len_pages env file_path = Ok num_pages
          /\ dict_get outcome "file_size" = Some (VInt (Z.of_N file_size))
          /\ dict_get outcome "num_pages" = Some (VInt (Z.of_N num_pages))
          /\ (0 < file_size <= 52428800)%N
          /\ (1 <= num_pages)%N).
Proof.
  destruct (first_failure env file_path) as [[[passed c] msg]|] eqn:Ef.
  - pose proof (validate_pdf_run env file_path) as Hrun. rewrite Ef in Hrun.
    destruct Hrun as (done & Hrun & _).
    do 2 eexists. split; [apply Hrun|]. cbn.
    split; [now right|]. split; [tauto|]. discriminate.
  - destruct (passing_verdicts _ _ Ef)
      as (n & np & text & Hn & Hnp & Htext & Hsize & Hpages & Hrun).
    do 2 eexists. split; [apply Hrun|]. cbn.
    split; [now left|]. split; [split; discriminate|].
    intros _. exists n, np. repeat split; auto; apply Hsize.
Qed.

(** X2.  In a valid outcome, [has_text] is true exactly when the text
    extracted from the first page holds a character that is not white
    space. *)
Theorem validate_pdf_has_text env file_path l outcome l' :
  validate_pdf env file_path l = (Ok outcome, l') ->
  dict_get outcome "valid" = Some (VBool true) ->
  exists text,
    extract_text env file_path = Ok text
    /\ dict_get outcome "has_text" = Some (VBool (str_exists visible text)).
Proof.
  intros Hrun Hvalid.
  destruct (first_failure env file_path) as [[[passed c] msg]|] eqn:Ef.
  - pose proof (validate_pdf_run env file_path) as Hr. rewrite Ef in Hr.
    destruct Hr as (done & Hr & _). rewrite Hr in Hrun.
    injection Hrun as <- _. discriminate Hvalid.
  - destruct (passing_verdicts _ _ Ef)
      as (n & np & text & _ & _ & Htext & _ & _ & Hr).
    rewrite Hr in Hrun. injection Hrun as <- _.
    exists text. split; [exact Htext|].
    unfold valid_outcome. rewrite str_strip_nonempty. reflexivity.
Qed.






(** X4.  [validate_file_extension] accepts a file name exactly when its
    lower-cased form ends in ".pdf"; the answer does not depend on the case
    of the name, so every spelling of the extension (".PDF", ".Pdf", ...)
    is accepted. *)
Theorem validate_file_extension_iff filename :
  (validate_file_extension filename = true
   <-> exists stem, str_lower filename = (stem ++ ".pdf")%string)
  /\ validate_file_extension (str_lower filename)
     = validate_file_extension filename
  /\ forall stem extension,
       str_lower extension = ".pdf" ->
       validate_file_extension (stem ++ extension) = true.
Proof.
  assert (Hiff : forall f, validate_file_extension f = true
                           <-> exists stem, str_lower f = (stem ++ ".pdf")%string).
  { intros f. unfold validate_file_extension. cbn [existsb].
    rewrite orb_false_r. apply str_endswith_iff. }
  split; [apply Hiff|]. split.
  - unfold validate_file_extension. now rewrite str_lower_idempotent.
  - intros stem extension Hext. apply Hiff.
    exists (str_lower stem). now rewrite str_lower_app, Hext.
Qed.




(** *** More on the orchestrator *)

Lemma no_extractor_fault env p :
  first_extractor_fault env p = None ->
  exists text_data images tables metadata ocr,
    extract_text_and_structure env p = Ok text_data
    /\ extract_images env p = Ok images
    /\ extract_tables env p = Ok tables
    /\ extract_metadata env p = Ok metadata
    /\ perform_ocr env p = Ok ocr.
Proof.
  unfold first_extractor_fault.
  destruct (extract_text_and_structure env p); [|discriminate].
  destruct (extract_images env p); [|discriminate].
  destruct (extract_tables env p); [|discriminate].
  destruct (extract_metadata env p); [|discriminate].
  destruct (perform_ocr env p); [|discriminate].
  intros _. do 5 eexists. repeat split.
Qed.

(** Whether the aggregate carries [error] is decided by the file and the
    extractors alone. *)
Lemma process_pdf_error_flag env p fn l :
  exists results l',
    process_pdf env p fn l = (Ok results, l')
    /\ dict_mem results "error" = negb (pipeline_ok env p)
    /\ dict_get results "filename" = Some (VStr fn).
Proof.
  unfold pipeline_ok, process_pdf, try_catch.
  destruct (first_failure env p) as [[[passed c] msg]|] eqn:Ef.
  - pose proof (validate_pdf_run env p) as Hrun. rewrite Ef in Hrun.
    destruct Hrun as (done & Hrun & _).
    rewrite (process_pdf_body_invalid _ _ _ _ _ _ Hrun).
    do 2 eexists. split; [reflexivity|]. split; reflexivity.
  - destruct (passing_verdicts _ _ Ef)
      as (n & np & text & _ & _ & _ & _ & _ & Hrun).
    rewrite (process_pdf_body_valid _ _ _ _ _ _ _ _ Hrun).
    destruct (first_extractor_fault env p) as [e|] eqn:Ex.
    + destruct (run_extractors_fault env p
                  (initial_results fn (timestamp env (S (List.length l))))
                  (l ++ [EvPrint ("Processing " ++ fn ++ "...")%string; EvNow]
                     ++ events_of p all_check_ops) e Ex) as [l' ->].
      do 2 eexists. split; [reflexivity|]. split; reflexivity.
    + destruct (no_extractor_fault _ _ Ex)
        as (td & im & tb & md & oc & Ht & Hi & Hb & Hm & Ho).
      rewrite (run_extractors_ok _ _ _ _ _ _ _ _ _ _ Ht Hi Hb Hm Ho).
      do 2 eexists. split; [reflexivity|]. split; reflexivity.
Qed.

(** X6.  [process_pdf] always returns a dictionary, and that dictionary
    is free of an [error] key exactly when every check of the validator
    passes and none of the five extractors raises. *)
Theorem process_pdf_success_iff env pdf_path filename l :
  exists results l',
    process_pdf env pdf_path filename l = (Ok results, l')
    /\ (dict_mem results "error" = false
        <-> first_failure env pdf_path = None
            /\ first_extractor_fault env pdf_path = None).
Proof.
  destruct (process_pdf_error_flag env pdf_path filename l)
    as (results & l' & Hrun & Hflag & _).
  exists results, l'. split; [exact Hrun|].
  rewrite Hflag. unfold pipeline_ok.
  destruct (first_failure env pdf_path) as [[[passed c] msg]|];
    destruct (first_extractor_fault env pdf_path);
    cbn; split; try discriminate; intuition discriminate.
Qed.

Lemma check_events_no_extractor p :
  extractor_calls (events_of p all_check_ops) = [].
Proof. reflexivity. Qed.

(** X7.  When the file passes validation and some extractor raises, the
    extractors that [process_pdf] has called are an initial part of the
    fixed order (text and structure, images, tables, metadata, OCR) that
    ends with the extractor that raised: the ones before it returned, the
    ones after it are never called.  The result holds the file name, the
    error "Processing failed: " followed by the message, and the time. *)
Theorem extractor_fault_stops_pipeline env pdf_path filename l e :
  first_failure env pdf_path = None ->
  first_extractor_fault env pdf_path = Some e ->
  exists events called failing processed_at,
    process_pdf env pdf_path filename l
    = (Ok [("filename", VStr filename);
           ("error", VStr ("Processing failed: " ++ exn_msg e));
           ("processed_at", VStr processed_at)],
       l ++ events)
    /\ extractor_calls events
       = map (fun o => (o, pdf_path)) (called ++ [failing])
    /\ is_prefix (called ++ [failing]) extractor_ops
    /\ op_fault env pdf_path failing = Some e
    /\ Forall (fun o => op_fault env pdf_path o = None) called.
Proof.
  intros Ef Ex.
  destruct (passing_verdicts _ _ Ef)
    as (n & np & text & _ & _ & _ & _ & _ & Hrun).
  unfold process_pdf, try_catch.
  rewrite (process_pdf_body_valid _ _ _ _ _ _ _ _ Hrun).
  revert Ex. unfold first_extractor_fault, run_extractors, bind, call, print, ret,
    now, op_fault, fault_of, extractor_ops.
  set (start := l ++ [EvPrint ("Processing " ++ filename ++ "...")%string; EvNow]
                  ++ events_of pdf_path all_check_ops).
  assert (Hstart : exists pre, start = l ++ pre /\ extractor_calls pre = []).
  { eexists. split; [reflexivity|]. reflexivity. }
  destruct Hstart as (pre & Hstart & Hpre). rewrite Hstart. clear start Hstart.
  destruct (extract_text_and_structure env pdf_path) as [td|e1] eqn:Ht.
  2:{ intros [= ->].
      exists (pre ++ [EvPrint "Extracting text and structure...";
                      EvCall OpTextAndStructure pdf_path; EvNow]), [],
        OpTextAndStructure.
      eexists.
      split; [|split; [|split; [|split]]].
      - repeat rewrite <- app_assoc. reflexivity.
      - rewrite extractor_calls_app, Hpre. reflexivity.
      - eexists. reflexivity.
      - reflexivity.
      - constructor. }
  destruct (extract_images env pdf_path) as [im|e1] eqn:Hi.
  2:{ intros [= ->].
      exists (pre ++ [EvPrint "Extracting text and structure...";
                      EvCall OpTextAndStructure pdf_path;
                      EvPrint "Extracting images...";
                      EvCall OpImages pdf_path; EvNow]),
        [OpTextAndStructure], OpImages.
      eexists.
      split; [|split; [|split; [|split]]].
      - repeat rewrite <- app_assoc. reflexivity.
      - rewrite extractor_calls_app, Hpre. reflexivity.
      - eexists. reflexivity.
      - reflexivity.
      - repeat constructor. }
  destruct (extract_tables env pdf_path) as [tb|e1] eqn:Hb.
  2:{ intros [= ->].
      exists (pre ++ [EvPrint "Extracting text and structure...";
                      EvCall OpTextAndStructure pdf_path;
                      EvPrint "Extracting images...";
                      EvCall OpImages pdf_path;
                      EvPrint "Extracting tables...";
                      EvCall OpTables pdf_path; EvNow]),
        [OpTextAndStructure; OpImages], OpTables.
      eexists.
      split; [|split; [|split; [|split]]].
      - repeat rewrite <- app_assoc. reflexivity.
      - rewrite extractor_calls_app, Hpre. reflexivity.
      - eexists. reflexivity.
      - reflexivity.
      - repeat constructor. }
  destruct (extract_metadata env pdf_path) as [md|e1] eqn:Hm.
  2:{ intros [= ->].
      exists (pre ++ [EvPrint "Extracting text and structure...";
                      EvCall OpTextAndStructure pdf_path;
                      EvPrint "Extracting images...";
                      EvCall OpImages pdf_path;
                      EvPrint "Extracting tables...";
                      EvCall OpTables pdf_path;
                      EvPrint "Extracting metadata...";
                      EvCall OpMetadata pdf_path; EvNow]),
        [OpTextAndStructure; OpImages; OpTables], OpMetadata.
      eexists.
      split; [|split; [|split; [|split]]].
      - repeat rewrite <- app_assoc. reflexivity.
      - rewrite extractor_calls_app, Hpre. reflexivity.
      - eexists. reflexivity.
      - reflexivity.
      - repeat constructor. }
  destruct (perform_ocr env pdf_path) as [oc|e1] eqn:Ho; [discriminate|].
  intros [= ->].
  exists (pre ++ [EvPrint "Extracting text and structure...";
                  EvCall OpTextAndStructure pdf_path;
                  EvPrint "Extracting images...";
                  EvCall OpImages pdf_path;
                  EvPrint "Extracting tables...";
                  EvCall OpTables pdf_path;
                  EvPrint "Extracting metadata...";
                  EvCall OpMetadata pdf_path;
                  EvPrint "Performing OCR...";
                  EvCall OpOcr pdf_path; EvNow]),
    [OpTextAndStructure; OpImages; OpTables; OpMetadata], OpOcr.
  eexists.
  split; [|split; [|split; [|split]]].
  - repeat rewrite <- app_assoc. reflexivity.
  - rewrite extractor_calls_app, Hpre. reflexivity.
  - eexists. reflexivity.
  - reflexivity.
  - repeat constructor.
Qed.

(** *** More on the renderer *)

Section RendererExtras.
Context {rt : Runtime}.
Open Scope result_scope.

Lemma metadata_loop (items : list (string * value)) out :
  for_each items
    (fun kv out =>
       let '(key, value) := kv in
       if truthy value
       then Ok (append_line out (str_title key ++ ": " ++ py_str value)%string)
       else Ok out)
    out
  = Ok (out ++ map metadata_line (filter (fun kv => truthy (snd kv)) items)).
Proof.
  revert out. induction items as [|[key value] items IH]; intros out; cbn.
  - now rewrite app_nil_r.
  - destruct (truthy value); cbn [rbind]; rewrite IH; [|reflexivity].
    unfold append_line, metadata_line. cbn [map fst snd].
    now rewrite <- app_assoc.
Qed.

(** X8.  For a non-empty metadata mapping, the metadata section is its
    header, a rule of 40 dashes, one line "<Key In Title Case>: <value>"
    for every entry whose value is truthy, in the order of the mapping,
    and a blank line; entries with a falsy value (an empty string, [None],
    zero) are left out. *)
Theorem metadata_section_lists_truthy_entries results d out :
  dict_get results "metadata" = Some (VDict d) ->
  d <> [] ->
  metadata_block results out
  = Ok (out
          ++ [VStr "DOCUMENT METADATA:"; VStr (rule "-" 40)]
          ++ map metadata_line (filter (fun kv => truthy (snd kv)) d)
          ++ [VStr ""]).
Proof.
  intros Hd Hne. unfold metadata_block, dict_get_default, getitem.
  rewrite Hd. cbn [truthy].
  destruct d as [|kv d]; [contradiction|].
  cbn [rbind py_items]. rewrite metadata_loop. cbn [rbind].
  unfold append_line. now repeat rewrite <- app_assoc.
Qed.

Lemma image_lines_dict i d out :
  image_lines (i, VDict d) out = Ok (out ++ image_entry (i, VDict d)).
Proof.
  unfold image_lines, image_entry, record_get, append_line.
  cbn [py_get rbind py_getitem]. unfold getitem, dict_get_default.
  destruct (dict_get d "description") as [v|]; cbn [truthy rbind];
    [destruct (truthy v); cbn [rbind]|];
    repeat rewrite <- app_assoc; reflexivity.
Qed.

Lemma table_lines_dict i d out :
  table_lines (i, VDict d) out = Ok (out ++ table_entry (i, VDict d)).
Proof.
  unfold table_lines, table_entry, record_get, dict_mem, getitem.
  cbn [py_get rbind].
  destruct (dict_get d "content") as [v|]; cbn [rbind].
  - destruct v; unfold append_line; now repeat rewrite <- app_assoc.
  - unfold append_line. now repeat rewrite <- app_assoc.
Qed.

Lemma records_loop (body : nat * value -> lines -> result lines)
  (entry : nat * value -> lines) :
  (forall i d out, body (i, VDict d) out = Ok (out ++ entry (i, VDict d))) ->
  forall records start out,
    forallb is_dict records = true ->
    for_each (enumerate start records) body out
    = Ok (out ++ flat_map entry (enumerate start records)).
Proof.
  intros Hbody records. induction records as [|v records IH];
    intros start out Hall; cbn.
  - now rewrite app_nil_r.
  - cbn in Hall. apply andb_true_iff in Hall. destruct Hall as [Hv Hall].
    destruct v; try discriminate Hv.
    rewrite Hbody. cbn [rbind]. rewrite IH by exact Hall.
    now rewrite <- app_assoc.
Qed.

Lemma records_loop_fault (body : nat * value -> lines -> result lines)
  (entry : nat * value -> lines) e :
  (forall i d out, body (i, VDict d) out = Ok (out ++ entry (i, VDict d))) ->
  forall records v rest start out,
    forallb is_dict records = true ->
    (forall i out, body (i, v) out = Raise e) ->
    for_each (enumerate start (records ++ v :: rest)) body out = Raise e.
Proof.
  intros Hbody records v rest. induction records as [|r records IH];
    intros start out Hall Hv; cbn.
  - now rewrite Hv.
  - cbn in Hall. apply andb_true_iff in Hall. destruct Hall as [Hr Hall].
    destruct r; try discriminate Hr.
    rewrite Hbody. cbn [rbind]. now apply IH.
Qed.

(** X9.  For a non-empty list of image records, the images section is its
    header, a rule, then for each record, numbered from 1 in the order of
    the list, the lines "Image <i>:", page, size and format (each
    "Unknown" when the record lacks the key) and a description line only
    when the record has a truthy description, and a blank line at the
    end. *)
Theorem images_section_one_entry_per_record results images out :
  dict_get results "images" = Some (VList images) ->
  images <> [] ->
  forallb is_dict images = true ->
  images_block results out
  = Ok (out
          ++ [VStr "EXTRACTED IMAGES:"; VStr (rule "-" 40)]
          ++ flat_map image_entry (enumerate 1 images)
          ++ [VStr ""]).
Proof.
  intros Hi Hne Hall. unfold images_block, dict_get_default, getitem.
  rewrite Hi.
  replace (truthy (VList images)) with true
    by (destruct images; [contradiction | reflexivity]).
  cbn [rbind py_iter].
  rewrite (records_loop image_lines image_entry image_lines_dict) by exact Hall.
  cbn [rbind]. unfold append_line. now repeat rewrite <- app_assoc.
Qed.

(** X10.  For a non-empty list of table records, the tables section is its
    header, a rule, then for each record, numbered from 1 in the order of
    the list, the lines "Table <i>:", page, dimensions and accuracy (each
    "Unknown" when the record lacks the key; the accuracy is followed by a
    percent sign) and, when the record has a [content] key, the line
    "  Content Summary:" followed by the preview of the content, and a
    blank line at the end. *)
Theorem tables_section_one_entry_per_record results tables out :
  dict_get results "tables" = Some (VList tables) ->
  tables <> [] ->
  forallb is_dict tables = true ->
  tables_block results out
  = Ok (out
          ++ [VStr "EXTRACTED TABLES:"; VStr (rule "-" 40)]
          ++ flat_map table_entry (enumerate 1 tables)
          ++ [VStr ""]).
Proof.
  intros Hi Hne Hall. unfold tables_block, dict_get_default, getitem.
  rewrite Hi.
  replace (truthy (VList tables)) with true
    by (destruct tables; [contradiction | reflexivity]).
  cbn [rbind py_iter].
  rewrite (records_loop table_lines table_entry table_lines_dict) by exact Hall.
  cbn [rbind]. unfold append_line. now repeat rewrite <- app_assoc.
Qed.

Lemma headings_loop (headings : list value) out :
  for_each headings
    (fun heading out => Ok (append_line out ("  - " ++ py_str heading)%string))
    out
  = Ok (out ++ map (fun h => VStr ("  - " ++ py_str h)) headings).
Proof.
  revert out. induction headings as [|h hs IH]; intros out; cbn.
  - now rewrite app_nil_r.
  - rewrite IH. unfold append_line. now rewrite <- app_assoc.
Qed.

(** X11.  For a non-empty structure mapping, the structure section is its
    header, a rule, the line "Total Pages: <n>" ("Unknown" when the
    mapping has no [total_pages]) and a blank line.  When the mapping has
    a [headings] key, the line "Headings Found:" and one line "  - <h>"
    per heading, in order, come before the blank line; headings that
    cannot be iterated make the renderer raise a [TypeError]. *)
Theorem structure_section_lines results d out :
  dict_get results "structure" = Some (VDict d) ->
  d <> [] ->
  (dict_get d "headings" = None ->
   structure_block results out
   = Ok (out
           ++ [VStr "DOCUMENT STRUCTURE:"; VStr (rule "-" 40);
               VStr ("Total Pages: "
                       ++ py_str (dict_get_default d "total_pages" unknown));
               VStr ""]))
  /\ (forall headings items,
        dict_get d "headings" = Some headings ->
        py_iter headings = Ok items ->
        structure_block results out
        = Ok (out
                ++ [VStr "DOCUMENT STRUCTURE:"; VStr (rule "-" 40);
                    VStr ("Total Pages: "
                            ++ py_str (dict_get_default d "total_pages" unknown));
                    VStr "Headings Found:"]
                ++ map (fun h => VStr ("  - " ++ py_str h)) items
                ++ [VStr ""]))
  /\ (forall headings,
        dict_get d "headings" = Some headings ->
        is_iterable headings = false ->
        exists e, structure_block results out = Raise e
                  /\ exn_cls e = TypeError).
Proof.
  intros Hs Hne.
  assert (Hblock : structure_block results out
                   = (let out := append_line out "DOCUMENT STRUCTURE:" in
                      let out := append_line out (rule "-" 40) in
                      let out := append_line out
                                   ("Total Pages: "
                                      ++ py_str (dict_get_default d "total_pages"
                                                   unknown)) in
                      out <- (if dict_mem d "headings"
                              then
                                let out := append_line out "Headings Found:" in
                                headings <- getitem d "headings" ;;
                                headings <- py_iter headings ;;
                                for_each headings
                                  (fun heading out =>
                                     Ok (append_line out
                                           ("  - " ++ py_str heading)%string))
                                  out
                              else Ok out) ;;
                      Ok (append_line out ""))).
  { unfold structure_block, dict_get_default at 1, getitem at 1. rewrite Hs.
    replace (truthy (VDict d)) with true
      by (destruct d; [contradiction | reflexivity]).
    reflexivity. }
  rewrite Hblock. unfold dict_mem, getitem, append_line. cbv zeta.
  split; [|split].
  - intros ->. cbn [rbind]. now repeat rewrite <- app_assoc.
  - intros headings items Hh Hi. rewrite Hh. cbn [rbind]. rewrite Hi.
    cbn [rbind]. rewrite headings_loop.
    cbn [rbind]. now repeat rewrite <- app_assoc.
  - intros headings Hh Hiter. rewrite Hh. cbn [rbind].
    destruct headings; try discriminate Hiter; cbn; eauto.
Qed.

(** X12.  The renderer does not guard the elements of [images] and
    [tables]: when an element of either list is not a mapping, the section
    raises the [AttributeError] of the first such element ("... object has
    no attribute 'get'") and produces no line. *)
Theorem record_that_is_no_dict_raises results records v rest out :
  forallb is_dict records = true ->
  is_dict v = false ->
  (dict_get results "images" = Some (VList (records ++ v :: rest)) ->
   images_block results out = Raise (no_attribute v "get"))
  /\ (dict_get results "tables" = Some (VList (records ++ v :: rest)) ->
      tables_block results out = Raise (no_attribute v "get")).
Proof.
  intros Hall Hv. split; intros Hfield.
  - unfold images_block, dict_get_default, getitem. rewrite Hfield.
    replace (truthy (VList (records ++ v :: rest))) with true
      by (now destruct records).
    cbn [rbind py_iter].
    rewrite (records_loop_fault image_lines image_entry (no_attribute v "get")
               image_lines_dict); [reflexivity | exact Hall |].
    intros i o. unfold image_lines. now destruct v.
  - unfold tables_block, dict_get_default, getitem. rewrite Hfield.
    replace (truthy (VList (records ++ v :: rest))) with true
      by (now destruct records).
    cbn [rbind py_iter].
    rewrite (records_loop_fault table_lines table_entry (no_attribute v "get")
               table_lines_dict); [reflexivity | exact Hall |].
    intros i o. unfold table_lines. now destruct v.
Qed.

Lemma all_str_total items :
  forallb is_str items = true ->
  forall i, exists texts, all_str i items = Ok texts.
Proof.
  induction items as [|v items IH]; intros Hall i; cbn; [eauto|].
  cbn in Hall. apply andb_true_iff in Hall. destruct Hall as [Hv Hall].
  destruct v; try discriminate Hv.
  destruct (IH Hall (S i)) as [texts ->]. eauto.
Qed.

Lemma forallb_is_str_map {A} (f : A -> string) (xs : list A) :
  forallb is_str (map (fun x => VStr (f x)) xs) = true.
Proof. induction xs; cbn; auto. Qed.

Lemma forallb_flat_map {A} (f : A -> lines) (xs : list A) :
  (forall x, forallb is_str (f x) = true) ->
  forallb is_str (flat_map f xs) = true.
Proof.
  intros Hf. induction xs as [|x xs IH]; cbn; [reflexivity|].
  now rewrite forallb_app, Hf, IH.
Qed.

Lemma image_entry_strings item : forallb is_str (image_entry item) = true.
Proof.
  destruct item as [i v]. unfold image_entry.
  rewrite forallb_app. cbn.
  now destruct (truthy (record_get v "description" VNone)).
Qed.

Lemma table_entry_strings item : forallb is_str (table_entry item) = true.
Proof.
  destruct item as [i v]. unfold table_entry.
  rewrite forallb_app. cbn.
  destruct v; try reflexivity.
  destruct (dict_get kvs "content") as [c|]; [destruct c|]; reflexivity.
Qed.

Lemma field_cases (check : value -> bool) results k :
  field_ok check results k = true ->
  dict_get results k = None
  \/ exists v, dict_get results k = Some v /\ check v = true.
Proof.
  unfold field_ok. destruct (dict_get results k) as [v|]; [|now left].
  intros H. right. now exists v.
Qed.

Lemma nil_or_not {A} (l : list A) : l = [] \/ l <> [].
Proof. destruct l; [now left | right; discriminate]. Qed.

Lemma metadata_block_completes results :
  field_ok is_dict results "metadata" = true ->
  block_completes metadata_block results.
Proof.
  intros H. destruct (field_cases _ _ _ H) as [Hn|(v & Hv & Hc)].
  - exists []. unfold metadata_block, dict_get_default. rewrite Hn. now split.
  - destruct v as [| | | | |d|]; try discriminate Hc.
    destruct (nil_or_not d) as [->|Hd].
    + exists []. unfold metadata_block, dict_get_default. rewrite Hv. now split.
    + eexists. split.
      * unfold metadata_block, dict_get_default, getitem.
        rewrite Hv. cbn [truthy].
        destruct d as [|kv d]; [contradiction|].
        cbn [rbind py_items]. rewrite metadata_loop. cbn [rbind].
        unfold append_line. cbn [app]. reflexivity.
      * cbn. rewrite forallb_app. unfold metadata_line.
        now rewrite forallb_is_str_map.
Qed.

Lemma py_iter_iterable v :
  is_iterable v = true -> exists items, py_iter v = Ok items.
Proof. destruct v; try discriminate; cbn; eauto. Qed.

Lemma structure_block_completes results :
  field_ok structure_ok results "structure" = true ->
  block_completes structure_block results.
Proof.
  intros H. destruct (field_cases _ _ _ H) as [Hn|(v & Hv & Hc)].
  - exists []. unfold structure_block, dict_get_default. rewrite Hn. now split.
  - destruct v as [| | | | |d|]; try discriminate Hc.
    destruct (nil_or_not d) as [->|Hd].
    + exists []. unfold structure_block, dict_get_default. rewrite Hv. now split.
    + unfold block_completes, structure_block, dict_get_default, getitem.
      rewrite Hv.
      replace (truthy (VDict d)) with true
        by (destruct d; [contradiction | reflexivity]).
      cbn [rbind py_get]. unfold dict_mem, getitem.
      cbn [structure_ok] in Hc.
      destruct (dict_get d "headings") as [h|].
      * cbn [rbind]. destruct (py_iter_iterable h Hc) as [hs ->]. cbn [rbind].
        rewrite headings_loop. cbn [rbind]. eexists. split; [reflexivity|].
        unfold append_line. rewrite !forallb_app. cbn.
        now rewrite forallb_is_str_map.
      * cbn [rbind]. eexists. split; reflexivity.
Qed.

Lemma records_block_completes block field header body entry results :
  (forall results out,
      block results out
      = if truthy (dict_get_default results field VNone)
        then
          let out := append_line out header in
          let out := append_line out (rule "-" 40) in
          records <- getitem results field ;;
          records <- py_iter records ;;
          out <- for_each (enumerate 1 records) body out ;;
          Ok (append_line out "")
        else Ok out) ->
  (forall i d out, body (i, VDict d) out = Ok (out ++ entry (i, VDict d))) ->
  (forall item, forallb is_str (entry item) = true) ->
  field_ok all_dicts results field = true ->
  block_completes block results.
Proof.
  intros Hblock Hbody Hentry H. unfold block_completes. rewrite Hblock.
  destruct (field_cases _ _ _ H) as [Hn|(v & Hv & Hc)].
  - exists []. unfold dict_get_default. rewrite Hn. now split.
  - destruct v as [| | | |records| |]; try discriminate Hc.
    cbn [all_dicts] in Hc. unfold dict_get_default, getitem. rewrite Hv.
    destruct (nil_or_not records) as [->|Hd]; [exists []; now split|].
    replace (truthy (VList records)) with true
      by (destruct records; [contradiction | reflexivity]).
    cbn [rbind py_iter].
    rewrite (records_loop body entry Hbody) by exact Hc.
    cbn [rbind]. eexists. split; [reflexivity|].
    unfold append_line. rewrite !forallb_app. cbn.
    now rewrite forallb_flat_map.
Qed.

Lemma images_block_completes results :
  field_ok all_dicts results "images" = true ->
  block_completes images_block results.
Proof.
  apply (records_block_completes images_block "images" "EXTRACTED IMAGES:"
           image_lines image_entry);
    [reflexivity | apply image_lines_dict | apply image_entry_strings].
Qed.

Lemma tables_block_completes results :
  field_ok all_dicts results "tables" = true ->
  block_completes tables_block results.
Proof.
  apply (records_block_completes tables_block "tables" "EXTRACTED TABLES:"
           table_lines table_entry);
    [reflexivity | apply table_lines_dict | apply table_entry_strings].
Qed.

Lemma text_block_completes results :
  field_ok is_str results "text_content" = true ->
  block_completes text_block results.
Proof.
  intros H. unfold block_completes, text_block, dict_get_default, getitem.
  destruct (field_cases _ _ _ H) as [Hn|(v & Hv & Hc)].
  - rewrite Hn. exists []. now split.
  - rewrite Hv. destruct v; try discriminate Hc.
    destruct (truthy (VStr s)); eexists; split; reflexivity.
Qed.

Lemma ocr_block_completes results :
  field_ok is_str results "ocr_text" = true ->
  block_completes ocr_block results.
Proof.
  intros H.
  unfold block_completes, ocr_block, ocr_condition, dict_get_default, getitem.
  destruct (field_cases _ _ _ H) as [Hn|(v & Hv & Hc)].
  - rewrite Hn. exists []. now split.
  - rewrite Hv. destruct v; try discriminate Hc.
    destruct (truthy (VStr s)); cbn [rbind]; [|exists []; now split].
    destruct (negb _); eexists; split; reflexivity.
Qed.

Lemma summary_block_completes results :
  field_ok all_dicts results "images" = true ->
  field_ok all_dicts results "tables" = true ->
  field_ok is_str results "text_content" = true ->
  field_ok is_str results "ocr_text" = true ->
  block_completes summary_block results.
Proof.
  intros Hi Hb Ht Ho.
  assert (Hlen : forall check k default,
             field_ok check results k = true ->
             (forall v, check v = true -> exists n, py_len v = Ok n) ->
             (exists n, py_len default = Ok n) ->
             exists n, py_len (dict_get_default results k default) = Ok n).
  { intros check k default H Hcheck Hdef. unfold dict_get_default.
    destruct (field_cases _ _ _ H) as [Hn|(v & Hv & Hc)].
    - now rewrite Hn.
    - rewrite Hv. now apply Hcheck. }
  assert (Hstr : forall v, is_str v = true -> exists n, py_len v = Ok n).
  { intros v Hv. destruct v; try discriminate Hv. cbn. eauto. }
  assert (Hlist : forall v, all_dicts v = true -> exists n, py_len v = Ok n).
  { intros v Hv. destruct v; try discriminate Hv. cbn. eauto. }
  unfold block_completes, summary_block.
  destruct (Hlen is_str "text_content" (VStr "") Ht Hstr) as [n1 ->];
    [cbn; eauto|].
  destruct (Hlen all_dicts "images" (VList []) Hi Hlist) as [n2 ->];
    [cbn; eauto|].
  destruct (Hlen all_dicts "tables" (VList []) Hb Hlist) as [n3 ->];
    [cbn; eauto|].
  destruct (Hlen is_str "ocr_text" (VStr "") Ho Hstr) as [n4 ->];
    [cbn; eauto|].
  cbn [rbind]. eexists. split; reflexivity.
Qed.

(** [sep.join(items)] accepts a list of strings. *)
Lemma py_join_total sep items :
  forallb is_str items = true -> exists text, py_join sep items = Ok text.
Proof.
  intros Hall. unfold py_join.
  destruct (all_str_total items Hall 0) as [texts ->]. eauto.
Qed.

(** The lines of a renderable aggregate are built, and all are strings. *)
Lemma renderable_lines results :
  renderable results = true ->
  exists out, output_lines results = Ok out /\ forallb is_str out = true.
Proof.
  unfold renderable. rewrite !andb_true_iff, orb_true_iff.
  intros [[Hf Hp] Hrest].
  destruct (getitem_mem _ _ Hf) as [filename Hfilename].
  destruct (getitem_mem _ _ Hp) as [processed_at Hprocessed].
  destruct (dict_mem results "error") eqn:He.
  - destruct (getitem_mem _ _ He) as [error Herror].
    unfold output_lines, header_block, error_block.
    rewrite Hfilename, Hprocessed, He, Herror. cbn. eauto.
  - destruct Hrest as [Hrest|Hrest]; [discriminate|].
    unfold content_ok in Hrest. rewrite !andb_true_iff in Hrest.
    destruct Hrest as [[[[[Hm Hs] Hi] Hb] Ht] Ho].
    rewrite (output_lines_sections results He).
    unfold header_block. rewrite Hfilename, Hprocessed. cbn [rbind].
    destruct (metadata_block_completes _ Hm) as (m & -> & Hms).
    destruct (structure_block_completes _ Hs) as (s & -> & Hss).
    destruct (images_block_completes _ Hi) as (i & -> & His).
    destruct (tables_block_completes _ Hb) as (b & -> & Hbs).
    destruct (text_block_completes _ Ht) as (x & -> & Hxs).
    destruct (ocr_block_completes _ Ho) as (o & -> & Hos).
    destruct (summary_block_completes _ Hi Hb Ht Ho) as (u & -> & Hus).
    cbn [rbind]. eexists. split; [reflexivity|].
    unfold append_line. rewrite !forallb_app. cbn.
    now rewrite Hms, Hss, His, Hbs, Hxs, Hos, Hus.
Qed.

(** X13.  [generate_output_text] returns a report for every aggregate that
    has [filename] and [processed_at] and that either carries an [error] or
    has content fields of the types of the data model: [metadata] a
    mapping, [structure] a mapping whose headings can be iterated,
    [images] and [tables] lists of mappings, [text_content] and
    [ocr_text] strings.  A content field may also be absent. *)
Theorem generate_output_text_total results :
  renderable results = true ->
  exists text, generate_output_text results = Ok text.
Proof.
  intros Hr.
  destruct (renderable_lines results Hr) as (out & Hout & Hstr).
  destruct (py_join_total newline out Hstr) as [text Htext].
  exists text. unfold generate_output_text. rewrite Hout. exact Htext.
Qed.

(** X14.  The report of an aggregate without an error, whose text fields
    are strings and whose [images] and [tables] are lists, ends with the
    processing summary: its header, a rule, and the four counts, which
    are the length of the text, the number of images, the number of
    tables and the length of the OCR text, each taken as zero for a field
    that is absent. *)
Theorem report_ends_with_summary results text images tables ocr report :
  dict_mem results "error" = false ->
  dict_get_default results "text_content" (VStr "") = VStr text ->
  dict_get_default results "images" (VList []) = VList images ->
  dict_get_default results "tables" (VList []) = VList tables ->
  dict_get_default results "ocr_text" (VStr "") = VStr ocr ->
  output_lines results = Ok report ->
  exists sections,
    report
    = sections
        ++ map VStr
             ["PROCESSING SUMMARY:"%string;
              rule "-" 40;
              ("Text Length: " ++ str_of_nat (String.length text)
                 ++ " characters")%string;
              ("Images Found: " ++ str_of_nat (List.length images))%string;
              ("Tables Found: " ++ str_of_nat (List.length tables))%string;
              ("OCR Length: " ++ str_of_nat (String.length ocr)
                 ++ " characters")%string].
Proof.
  intros He Ht Hi Hb Ho. rewrite (output_lines_sections results He).
  unfold summary_block. rewrite Ht, Hi, Hb, Ho. cbn [py_len rbind].
  destruct (header_block results []) as [h|]; [|discriminate].
  destruct (metadata_block results []) as [m|]; [|discriminate].
  destruct (structure_block results []) as [s|]; [|discriminate].
  destruct (images_block results []) as [i|]; [|discriminate].
  destruct (tables_block results []) as [b|]; [|discriminate].
  destruct (text_block results []) as [x|]; [|discriminate].
  destruct (ocr_block results []) as [o|]; [|discriminate].
  cbn [rbind]. intros [= <-].
  exists (h ++ m ++ s ++ i ++ b ++ x ++ o).
  now repeat rewrite <- app_assoc.
Qed.

End RendererExtras.

(** *** Paths *)

Lemma str_rfind_absent c s :
  str_has c s = false -> forall i, str_rfind_from c s i = (-1)%Z.
Proof.
  unfold str_has. induction s as [|a s IH]; intros H i; cbn; [reflexivity|].
  cbn in H. apply orb_false_iff in H. destruct H as [Ha Hs].
  rewrite (IH Hs). cbn. rewrite Ascii.eqb_sym, Ha. reflexivity.
Qed.

Lemma str_rfind_last c a b :
  str_has c b = false ->
  forall i, (0 <= i)%Z ->
  str_rfind_from c (a ++ String c b) i = (i + Z.of_nat (String.length a))%Z.
Proof.
  intros Hb. induction a as [|x a IH]; intros i Hi; cbn [append str_rfind_from String.length].
  - rewrite (str_rfind_absent c b Hb). cbn. rewrite Ascii.eqb_refl. lia.
  - rewrite IH by lia.
    replace (0 <=? i + 1 + Z.of_nat (String.length a))%Z with true
      by (symmetry; apply Z.leb_le; lia).
    lia.
Qed.

Lemma str_has_app c a b : str_has c (a ++ b) = orb (str_has c a) (str_has c b).
Proof.
  unfold str_has. induction a as [|x a IH]; cbn; [reflexivity|].
  rewrite IH. now rewrite orb_assoc.
Qed.

Lemma str_last_occurrence c s :
  str_has c s = true ->
  exists a b, s = (a ++ String c b)%string /\ str_has c b = false.
Proof.
  unfold str_has. induction s as [|x s IH]; cbn; [discriminate|].
  destruct (str_exists (Ascii.eqb c) s) eqn:Hs.
  - intros _. destruct (IH eq_refl) as (a & b & -> & Hb).
    exists (String x a), b. now split.
  - rewrite orb_false_r. intros Hx. apply Ascii.eqb_eq in Hx. subst x.
    exists EmptyString, s. now split.
Qed.

Lemma str_slice_from_app a b : str_slice_from (String.length a) (a ++ b) = b.
Proof. induction a as [|x a IH]; cbn; [reflexivity | exact IH]. Qed.

Lemma substring_prefix a b : substring 0 (String.length a) (a ++ b) = a.
Proof. induction a as [|x a IH]; cbn; [now destruct b | now rewrite IH]. Qed.

Lemma basename_after_last_separator a b :
  str_has "/" b = false -> basename (a ++ String "/" b) = b.
Proof.
  intros Hb. unfold basename, str_rfind. rewrite str_rfind_last by (auto; lia).
  replace (Z.to_nat (0 + Z.of_nat (String.length a) + 1))
    with (String.length (a ++ "/")) by (rewrite str_app_length; cbn; lia).
  replace (a ++ String "/" b)%string with ((a ++ "/") ++ b)%string
    by (now rewrite str_app_assoc).
  apply str_slice_from_app.
Qed.

Lemma basename_without_separator p : str_has "/" p = false -> basename p = p.
Proof.
  intros Hp. unfold basename, str_rfind. now rewrite str_rfind_absent.
Qed.

Lemma basename_has_no_separator p : str_has "/" (basename p) = false.
Proof.
  destruct (str_has "/" p) eqn:Hp.
  - destruct (str_last_occurrence _ _ Hp) as (a & b & -> & Hb).
    now rewrite basename_after_last_separator.
  - now rewrite basename_without_separator.
Qed.

Lemma str_rfind_bound c s :
  forall i, (0 <= i)%Z ->
  (str_rfind_from c s i < i + Z.of_nat (String.length s))%Z
  \/ s = EmptyString.
Proof.
  induction s as [|a s IH]; intros i Hi; [now right|]. left.
  cbn [str_rfind_from String.length].
  destruct (IH (i + 1)%Z ltac:(lia)) as [H| ->].
  - destruct (0 <=? str_rfind_from c s (i + 1))%Z; [lia|].
    destruct (Ascii.eqb a c); lia.
  - cbn. destruct (Ascii.eqb a c); lia.
Qed.

Lemma splitext_root_is_prefix p :
  exists rest, p = (fst (splitext p) ++ rest)%string.
Proof.
  unfold splitext.
  destruct (str_rfind "/" p <? str_rfind "." p)%Z eqn:E;
    [|exists EmptyString; cbn; now rewrite str_app_nil_r].
  destruct (has_other_than _ _);
    [|exists EmptyString; cbn; now rewrite str_app_nil_r].
  cbn [fst]. unfold str_slice_to.
  destruct (substring_first (Z.to_nat (str_rfind "." p)) p) as (rest & Hrest & _).
  - unfold str_rfind.
    destruct (str_rfind_bound "." p 0 ltac:(lia)) as [H| ->]; [lia|].
    cbn. lia.
  - now exists rest.
Qed.

Lemma output_name_has_no_separator filename :
  str_has "/" filename = false -> str_has "/" (output_name filename) = false.
Proof.
  intros H. unfold output_name.
  destruct (splitext_root_is_prefix filename) as [rest Hrest].
  rewrite Hrest, str_has_app in H. apply orb_false_iff in H.
  rewrite str_has_app. now rewrite (proj1 H).
Qed.

Lemma join_output name :
  str_has "/" name = false ->
  join OUTPUT_FOLDER name = ("output/" ++ name)%string.
Proof.
  intros H. unfold join.
  replace (prefix "/" name) with false; [reflexivity|].
  destruct name as [|c name]; [reflexivity|].
  unfold str_has in H. cbn [str_exists] in H.
  apply orb_false_iff in H. destruct H as [Hc _].
  cbn [prefix].
  destruct (ascii_dec "/" c) as [<-|Hne]; [|reflexivity].
  now rewrite Ascii.eqb_refl in Hc.
Qed.

Lemma splitext_pdf stem :
  str_has "/" stem = false ->
  has_other_than "." stem = true ->
  splitext (stem ++ ".pdf") = (stem, ".pdf").
Proof.
  intros Hsep Hdot. unfold splitext, str_rfind.
  rewrite (str_rfind_absent "/" (stem ++ ".pdf")).
  2:{ rewrite str_has_app, Hsep. reflexivity. }
  change (stem ++ ".pdf")%string with (stem ++ String "." "pdf")%string.
  rewrite str_rfind_last by (auto; lia).
  replace (-1 <? 0 + Z.of_nat (String.length stem))%Z with true
    by (symmetry; apply Z.ltb_lt; lia).
  replace (Z.to_nat (0 + Z.of_nat (String.length stem)))
    with (String.length stem) by lia.
  change (Z.to_nat (-1 + 1)) with 0%nat. rewrite Nat.sub_0_r.
  unfold str_slice_to. rewrite substring_prefix, Hdot.
  now rewrite str_slice_from_app.
Qed.

(** *** The batch driver *)

Section DriverExtras.
Context {rt : Runtime}.
Variable env : Env.
Variable host : Host.

Lemma process_one_unfold pdf_file st :
  exists results l',
    process_pdf env pdf_file (basename pdf_file) (fst st) = (Ok results, l')
    /\ dict_mem results "error" = negb (pipeline_ok env pdf_file)
    /\ process_one env host pdf_file st
       = match generate_output_text results with
         | Raise e => (Raise e, (l', snd st))
         | Ok text =>
             match open_w host (output_path pdf_file) with
             | Raise e =>
                 (Raise e, (l', snd st ++ [DiskOpen (output_path pdf_file)]))
             | Ok _ =>
                 (match file_write host (output_path pdf_file) text with
                  | Ok _ => Ok (entry_of env pdf_file)
                  | Raise e => Raise e
                  end,
                  (l', snd st ++ saved (output_path pdf_file, text)))
             end
         end.
Proof.
  destruct (process_pdf_error_flag env pdf_file (basename pdf_file) (fst st))
    as (results & l' & Hrun & Hflag & _).
  exists results, l'. split; [exact Hrun|]. split; [exact Hflag|].
  unfold process_one. rewrite Hrun.
  destruct (generate_output_text results) as [text|e]; [|reflexivity].
  fold (output_name (basename pdf_file)).
  rewrite join_output
    by apply output_name_has_no_separator, basename_has_no_separator.
  fold (output_path pdf_file). unfold save_report.
  destruct (open_w host (output_path pdf_file)) as [[]|e]; [|reflexivity].
  rewrite <- app_assoc. cbn [app].
  destruct (file_write host (output_path pdf_file) text) as [[]|e];
    [|reflexivity].
  unfold status_entry, entry_of. rewrite Hflag.
  now destruct (pipeline_ok env pdf_file).
Qed.

Lemma output_path_inside pdf_file :
  exists name,
    output_path pdf_file = ("output/" ++ name)%string
    /\ str_has "/" name = false.
Proof.
  eexists. split; [reflexivity|].
  apply output_name_has_no_separator, basename_has_no_separator.
Qed.

(** X15.  For an input path [<folder>/<stem>.pdf], where the stem has no
    slash and is not made of dots only, the batch driver reports the
    input as [<stem>.pdf] and the output as [<stem>_processed.txt], and
    what it does to the disk is to open [output/<stem>_processed.txt] for
    writing and to write one text to it.  Only the last extension is cut,
    so dots inside the stem stay. *)
Theorem report_naming_rule folder stem st entry st' :
  str_has "/" stem = false ->
  has_other_than "." stem = true ->
  process_one env host (folder ++ "/" ++ stem ++ ".pdf") st = (Ok entry, st') ->
  exists status text,
    entry = VDict [("input", VStr (stem ++ ".pdf"));
                   ("output", VStr (stem ++ "_processed.txt"));
                   ("status", VStr status)]
    /\ snd st'
       = snd st
           ++ [DiskOpen ("output/" ++ stem ++ "_processed.txt");
               DiskWrite ("output/" ++ stem ++ "_processed.txt") text].
Proof.
  intros Hsep Hdot Hrun.
  set (pdf_file := (folder ++ "/" ++ stem ++ ".pdf")%string) in *.
  assert (Hbase : basename pdf_file = (stem ++ ".pdf")%string).
  { apply (basename_after_last_separator folder (stem ++ ".pdf")).
    now rewrite str_has_app, Hsep. }
  assert (Hname : output_name (basename pdf_file)
                  = (stem ++ "_processed.txt")%string).
  { unfold output_name. now rewrite Hbase, splitext_pdf. }
  destruct (process_one_unfold pdf_file st) as (results & l' & _ & _ & Hone).
  rewrite Hone in Hrun. clear Hone.
  unfold output_path, entry_of, saved in Hrun. rewrite Hname, Hbase in Hrun.
  destruct (generate_output_text results) as [text|]; [|discriminate].
  destruct (open_w host _); [|discriminate].
  destruct (file_write host _ text); [|discriminate].
  injection Hrun as <- <-. cbn [fst snd]. eauto.
Qed.

Lemma process_one_disk pdf_file st :
  exists new,
    snd (snd (process_one env host pdf_file st)) = snd st ++ new
    /\ Forall inside_output new.
Proof.
  destruct (process_one_unfold pdf_file st) as (results & l' & _ & _ & ->).
  destruct (output_path_inside pdf_file) as (name & Hname & Hsep).
  destruct (generate_output_text results) as [text|e].
  - destruct (open_w host (output_path pdf_file)).
    + exists (saved (output_path pdf_file, text)). split; [reflexivity|].
      unfold saved. cbn [fst snd].
      apply Forall_cons; [exists name; now split|].
      apply Forall_cons; [exists name; now split|]. apply Forall_nil.
    + exists [DiskOpen (output_path pdf_file)]. split; [reflexivity|].
      apply Forall_cons; [exists name; now split|]. apply Forall_nil.
  - exists []. cbn. now rewrite app_nil_r.
Qed.

Lemma process_files_disk pdf_files : forall processed st,
  exists new,
    snd (snd (process_files env host pdf_files processed st)) = snd st ++ new
    /\ Forall inside_output new.
Proof.
  induction pdf_files as [|f rest IH]; intros processed st; cbn.
  - exists []. now rewrite app_nil_r.
  - destruct (process_one_disk f st) as (new1 & H1 & Hin1).
    destruct (process_one env host f st) as [[entry|e] st1] eqn:E.
    + destruct (IH (processed ++ [entry]) st1) as (new2 & H2 & Hin2).
      exists (new1 ++ new2). split.
      * rewrite H2. cbn in H1. rewrite H1. now rewrite app_assoc.
      * apply Forall_app. now split.
    + exists new1. split; [exact H1 | exact Hin1].
Qed.

(** X16.  Whatever the search finds and whatever happens afterwards,
    [process_all_pdfs] opens and writes only files that lie directly
    inside the output folder: every path it opens or writes is "output/"
    followed by a name that has no slash. *)
Theorem batch_writes_only_inside_output st :
  exists new,
    snd (snd (process_all_pdfs env host st)) = snd st ++ new
    /\ Forall inside_output new.
Proof.
  unfold process_all_pdfs.
  set (pattern := join STATIC_FOLDER "*.pdf").
  set (st0 := (fst st, snd st ++ [DiskGlob pattern])).
  destruct (glob_glob host pattern) as [|f rest] eqn:Hglob.
  - exists [DiskGlob pattern]. split; [reflexivity|]. repeat constructor.
  - destruct (process_files_disk (f :: rest) [] st0) as (new & Hnew & Hin).
    exists (DiskGlob pattern :: new). split.
    + destruct (process_files env host (f :: rest) [] st0) as [[processed|e] st1];
        cbn [snd] in *; rewrite Hnew; unfold st0; cbn [snd];
        now rewrite <- app_assoc.
    + constructor; [exact I | exact Hin].
Qed.

Lemma process_one_entry pdf_file st entry st' :
  process_one env host pdf_file st = (Ok entry, st') ->
  entry = entry_of env pdf_file.
Proof.
  destruct (process_one_unfold pdf_file st) as (results & l' & _ & _ & ->).
  destruct (generate_output_text results) as [text|]; [|discriminate].
  destruct (open_w host _); [|discriminate].
  destruct (file_write host _ text); [|discriminate].
  now intros [= <- _].
Qed.

Lemma process_files_entries pdf_files : forall processed st entries st',
  process_files env host pdf_files processed st = (Ok entries, st') ->
  entries = processed ++ map (entry_of env) pdf_files.
Proof.
  induction pdf_files as [|f rest IH]; intros processed st entries st'; cbn.
  - intros [= <- _]. now rewrite app_nil_r.
  - destruct (process_one env host f st) as [[entry|e] st1] eqn:E;
      [|discriminate].
    intros Hrest. apply IH in Hrest. subst entries.
    rewrite (process_one_entry _ _ _ _ E). now rewrite <- app_assoc.
Qed.

(** X17.  When [process_all_pdfs] returns, its payload depends on the
    paths found for "static/*.pdf" and on the world only.  With no path
    found it is the single field [error], "No PDF files found in static
    folder".  Otherwise it is the message "Processed <n> files", with [n]
    the number of paths found, and one entry per path in the order of the
    search, whose status is "success" exactly when the document passes
    validation and no extractor raises on it; a document that fails is
    counted and listed like any other. *)
Theorem batch_summary st payload st' :
  process_all_pdfs env host st = (Ok payload, st') ->
  payload = batch_payload env (glob_glob host "static/*.pdf").
Proof.
  unfold process_all_pdfs.
  change (join STATIC_FOLDER "*.pdf") with "static/*.pdf"%string.
  destruct (glob_glob host "static/*.pdf") as [|f rest] eqn:Hglob.
  - now intros [= <- _].
  - destruct (process_files env host (f :: rest) [] _) as [[entries|e] st1] eqn:E;
      [|discriminate].
    intros [= <- _]. apply process_files_entries in E. subst entries.
    unfold batch_payload. cbn [app]. now rewrite length_map.
Qed.

Lemma field_ok_default check (d : dict) k default :
  field_ok check d k = true ->
  check default = true ->
  check (dict_get_default d k default) = true.
Proof.
  unfold field_ok, dict_get_default. now destruct (dict_get d k).
Qed.

Lemma process_pdf_renderable p fn l results l' :
  process_pdf env p fn l = (Ok results, l') ->
  answers_ok env p = true ->
  renderable results = true.
Proof.
  intros Hrun Hok. unfold process_pdf, try_catch in Hrun.
  destruct (first_failure env p) as [[[passed c] msg]|] eqn:Ef.
  - pose proof (validate_pdf_run env p) as Hv. rewrite Ef in Hv.
    destruct Hv as (done & Hv & _).
    rewrite (process_pdf_body_invalid _ _ _ _ _ _ Hv) in Hrun.
    injection Hrun as <- _. reflexivity.
  - destruct (passing_verdicts _ _ Ef)
      as (n & np & text & _ & _ & _ & _ & _ & Hv).
    rewrite (process_pdf_body_valid _ _ _ _ _ _ _ _ Hv) in Hrun.
    destruct (first_extractor_fault env p) as [e|] eqn:Ex.
    + destruct (run_extractors_fault env p
                  (initial_results fn (timestamp env (S (List.length l))))
                  (l ++ [EvPrint ("Processing " ++ fn ++ "...")%string; EvNow]
                     ++ events_of p all_check_ops) e Ex) as [l1 Hr].
      rewrite Hr in Hrun. injection Hrun as <- _. reflexivity.
    + destruct (no_extractor_fault _ _ Ex)
        as (td & im & tb & md & oc & Ht & Hi & Hb & Hm & Ho).
      rewrite (run_extractors_ok _ _ _ _ _ _ _ _ _ _ Ht Hi Hb Hm Ho) in Hrun.
      injection Hrun as <- _.
      unfold answers_ok in Hok. rewrite Ht, Hi, Hb, Hm, Ho in Hok.
      rewrite !andb_true_iff in Hok.
      destruct Hok as [[[[[Htext Hstruct] Him] Htb] Hmd] Hoc].
      unfold renderable, content_ok, field_ok. cbn.
      rewrite Him, Htb, Hmd, Hoc.
      rewrite (field_ok_default is_str td "text" (VStr "") Htext eq_refl).
      now rewrite (field_ok_default structure_ok td "structure" (VDict [])
                     Hstruct eq_refl).
Qed.

Lemma process_files_total pdf_files :
  (forall f, In f pdf_files -> answers_ok env f = true) ->
  (forall path, open_w host path = Ok tt) ->
  (forall path text, file_write host path text = Ok tt) ->
  forall processed st,
  exists texts l',
    List.length texts = List.length pdf_files
    /\ process_files env host pdf_files processed st
       = (Ok (processed ++ map (entry_of env) pdf_files),
          (l', snd st
                 ++ flat_map saved (combine (map output_path pdf_files) texts))).
Proof.
  intros Hok Hopen Hwrite.
  induction pdf_files as [|f rest IH]; intros processed st.
  - exists [], (fst st). split; [reflexivity|]. cbn.
    rewrite !app_nil_r. now destruct st.
  - destruct (process_one_unfold f st) as (results & l1 & Hrun & _ & Hone).
    destruct (renderable_lines results) as (out & Hout & Hstr).
    { eapply process_pdf_renderable; [exact Hrun|]. apply Hok. now left. }
    destruct (py_join_total newline out Hstr) as [text Hjoin].
    assert (Htext : generate_output_text results = Ok text)
      by (unfold generate_output_text; now rewrite Hout).
    rewrite Htext, Hopen, Hwrite in Hone.
    destruct (IH (fun f' H => Hok f' (or_intror H)) (processed ++ [entry_of env f])
                (l1, snd st ++ saved (output_path f, text)))
      as (texts & l' & Hlen & Hrest).
    exists (text :: texts), l'. split; [cbn; now rewrite Hlen|].
    cbn [process_files]. rewrite Hone, Hrest. cbn [snd map combine flat_map].
    now repeat rewrite <- app_assoc.
Qed.

(** X18.  When the extractors answer with the types of their interfaces
    for every path found, and every report can be opened and written,
    [process_all_pdfs] returns its payload, and what it does to the disk
    is the search followed, for each path in order, by the opening of its
    report and the writing of one text to it. *)
Theorem batch_completes_on_well_typed_answers st :
  let pdf_files := glob_glob host "static/*.pdf" in
  (forall f, In f pdf_files -> answers_ok env f = true) ->
  (forall path, open_w host path = Ok tt) ->
  (forall path text, file_write host path text = Ok tt) ->
  exists texts l',
    List.length texts = List.length pdf_files
    /\ process_all_pdfs env host st
       = (Ok (batch_payload env pdf_files),
          (l', snd st
                 ++ DiskGlob "static/*.pdf"
                 :: flat_map saved (combine (map output_path pdf_files) texts))).
Proof.
  intros pdf_files Hok Hopen Hwrite. unfold process_all_pdfs.
  change (join STATIC_FOLDER "*.pdf") with "static/*.pdf"%string.
  fold pdf_files.
  destruct (process_files_total pdf_files Hok Hopen Hwrite []
              (fst st, snd st ++ [DiskGlob "static/*.pdf"]))
    as (texts & l' & Hlen & Hrun).
  destruct pdf_files as [|f rest] eqn:E.
  - exists [], (fst st). split; [reflexivity|]. reflexivity.
  - exists texts, l'. split; [exact Hlen|].
    rewrite Hrun. cbn [app snd batch_payload].
    rewrite length_map. now rewrite <- app_assoc.
Qed.

(** X19.  [process_all_pdfs] catches nothing.  When the report of the first
    path found cannot be rendered, or its file cannot be opened, or the
    text cannot be written, the exception leaves [process_all_pdfs]: no
    payload is returned, and the paths after it are neither processed nor
    written.  The disk then shows the search and, for the first path, the
    steps up to the one that failed. *)
Theorem batch_stops_at_first_fault st f rest results l1 e :
  glob_glob host "static/*.pdf" = f :: rest ->
  process_pdf env f (basename f) (fst st) = (Ok results, l1) ->
  (generate_output_text results = Raise e ->
   process_all_pdfs env host st
   = (Raise e, (l1, snd st ++ [DiskGlob "static/*.pdf"])))
  /\ (forall text,
        generate_output_text results = Ok text ->
        open_w host (output_path f) = Raise e ->
        process_all_pdfs env host st
        = (Raise e,
           (l1, snd st ++ [DiskGlob "static/*.pdf"; DiskOpen (output_path f)])))
  /\ (forall text,
        generate_output_text results = Ok text ->
        open_w host (output_path f) = Ok tt ->
        file_write host (output_path f) text = Raise e ->
        process_all_pdfs env host st
        = (Raise e,
           (l1, snd st ++ [DiskGlob "static/*.pdf"; DiskOpen (output_path f);
                           DiskWrite (output_path f) text]))).
Proof.
  intros Hglob Hrun. unfold process_all_pdfs.
  change (join STATIC_FOLDER "*.pdf") with "static/*.pdf"%string.
  rewrite Hglob. cbn [process_files].
  destruct (process_one_unfold f (fst st, snd st ++ [DiskGlob "static/*.pdf"]))
    as (results' & l' & Hrun' & _ & Hone).
  cbn [fst snd] in Hrun', Hone. rewrite Hrun in Hrun'.
  injection Hrun' as <- <-. rewrite Hone. clear Hone.
  split; [|split].
  - now intros ->.
  - intros text -> ->. now rewrite <- app_assoc.
  - intros text -> -> ->. unfold saved. now rewrite <- app_assoc.
Qed.

End DriverExtras.

(** *** The extra properties at concrete worlds *)

(** X1 on a file of exactly 50 MiB: it passes, and its outcome has no
    error key. *)
Lemma validate_pdf_outcome_invariant_witness :
  exists outcome l',
    validate_pdf env_at_limit doc_path [] = (Ok outcome, l')
    /\ dict_get outcome "valid" = Some (VBool true)
    /\ dict_mem outcome "error" = false.
Proof.
  destruct (validate_pdf_outcome_invariant env_at_limit doc_path [])
    as (outcome & l' & Hrun & _ & Herror & _).
  exists outcome, l'. split; [exact Hrun|].
  assert (Hvalid : dict_get outcome "valid" = Some (VBool true)).
  { vm_compute in Hrun. now injection Hrun as <- _. }
  split; [exact Hvalid|].
  destruct (dict_mem outcome "error"); [|reflexivity].
  rewrite (proj1 Herror eq_refl) in Hvalid. discriminate Hvalid.
Defined.

(** X2 on the one-page document that reads "Hello". *)
Lemma validate_pdf_has_text_witness :
  exists text,
    extract_text env_plain doc_path = Ok text
    /\ dict_get (valid_outcome 2048 1 "Hello") "has_text"
       = Some (VBool (str_exists visible text)).
Proof.
  apply (validate_pdf_has_text env_plain doc_path []
           (valid_outcome 2048 1 "Hello")
           (snd (validate_pdf env_plain doc_path [])));
    reflexivity.
Defined.


(** X4 on an upper-case extension. *)
Lemma validate_file_extension_iff_witness :
  validate_file_extension "Report.PDF" = true
  /\ validate_file_extension "report.pdf" = validate_file_extension "Report.PDF".
Proof.
  split.
  - apply (proj2 (proj2 (validate_file_extension_iff "")) "Report" ".PDF").
    reflexivity.
  - exact (proj1 (proj2 (validate_file_extension_iff "Report.PDF"))).
Defined.


(** X6 on a document with every kind of content. *)
Lemma process_pdf_success_iff_witness :
  exists results l',
    process_pdf env_rich doc_path "doc.pdf" [] = (Ok results, l')
    /\ dict_mem results "error" = false.
Proof.
  destruct (process_pdf_success_iff env_rich doc_path "doc.pdf" [])
    as (results & l' & Hrun & Hiff).
  exists results, l'. split; [exact Hrun|].
  apply Hiff. split; reflexivity.
Defined.

(** X7 on a document whose image extractor raises: the text extractor and
    the image extractor are called, no other. *)
Lemma extractor_fault_stops_pipeline_witness :
  exists events called failing processed_at,
    process_pdf env_images_fail doc_path "doc.pdf" []
    = (Ok [("filename", VStr "doc.pdf");
           ("error", VStr "Processing failed: cannot decode image stream");
           ("processed_at", VStr processed_at)],
       [] ++ events)
    /\ extractor_calls events
       = map (fun o => (o, doc_path)) (called ++ [failing])
    /\ is_prefix (called ++ [failing]) extractor_ops
    /\ op_fault env_images_fail doc_path failing
       = Some (mk_exn OtherException "cannot decode image stream")
    /\ Forall (fun o => op_fault env_images_fail doc_path o = None) called.
Proof.
  apply (extractor_fault_stops_pipeline env_images_fail doc_path "doc.pdf" []
           (mk_exn OtherException "cannot decode image stream"));
    reflexivity.
Defined.

(** X8 on a metadata mapping with an author and an empty subject: the
    subject is left out. *)
Lemma metadata_section_lists_truthy_entries_witness :
  metadata_block (aggregate env_rich) []
  = Ok (map VStr ["DOCUMENT METADATA:"%string; rule "-" 40;
                  "Author: Ada"%string; ""%string]).
Proof.
  rewrite (metadata_section_lists_truthy_entries (aggregate env_rich)
             [("author", VStr "Ada"); ("subject", VStr "")] [] eq_refl).
  - reflexivity.
  - discriminate.
Defined.

(** X9 on one image record without a size. *)
Lemma images_section_one_entry_per_record_witness :
  images_block (aggregate env_rich) []
  = Ok (map VStr ["EXTRACTED IMAGES:"%string; rule "-" 40;
                  "Image 1:"%string; "  Page: 1"%string;
                  "  Size: Unknown"%string; "  Format: png"%string;
                  ""%string]).
Proof.
  rewrite (images_section_one_entry_per_record (aggregate env_rich)
             [VDict [("page", VInt 1); ("format", VStr "png")]] [] eq_refl).
  - reflexivity.
  - discriminate.
  - reflexivity.
Defined.

(** X10 on two table records. *)
Lemma tables_section_one_entry_per_record_witness :
  tables_block (aggregate env_rich) []
  = Ok (map VStr ["EXTRACTED TABLES:"%string; rule "-" 40;
                  "Table 1:"%string; "  Page: 2"%string;
                  "  Dimensions: (3, 4)"%string; "  Accuracy: 98.5%"%string;
                  "  Content Summary:"%string;
                  ("    " ++ str_repeat "x" 200 ++ "...")%string;
                  "Table 2:"%string; "  Page: 1"%string;
                  "  Dimensions: Unknown"%string;
                  "  Accuracy: Unknown%"%string;
                  "  Content Summary:"%string; "    a | b"%string;
                  ""%string]).
Proof.
  rewrite (tables_section_one_entry_per_record (aggregate env_rich)
             [VDict long_table; VDict short_table] [] eq_refl).
  - reflexivity.
  - discriminate.
  - reflexivity.
Defined.

(** X11 on a structure with a page count and one heading. *)
Lemma structure_section_lines_witness :
  structure_block (aggregate env_rich) []
  = Ok (map VStr ["DOCUMENT STRUCTURE:"%string; rule "-" 40;
                  "Total Pages: 1"%string; "Headings Found:"%string;
                  "  - Intro"%string; ""%string]).
Proof.
  destruct (structure_section_lines (aggregate env_rich)
              [("total_pages", VInt 1); ("headings", VList [VStr "Intro"])] []
              eq_refl) as (_ & Hheadings & _).
  - discriminate.
  - rewrite (Hheadings (VList [VStr "Intro"]) [VStr "Intro"]); reflexivity.
Defined.

(** X12 on an image list whose second element is a number. *)
Lemma record_that_is_no_dict_raises_witness :
  images_block (aggregate env_bad_record) []
  = Raise (mk_exn AttributeError "'int' object has no attribute 'get'").
Proof.
  rewrite (proj1 (record_that_is_no_dict_raises (aggregate env_bad_record)
                    [VDict [("page", VInt 1)]] (VInt 7) [] []
                    eq_refl eq_refl));
    reflexivity.
Defined.

(** X13 on the aggregate of a document with every kind of content. *)
Lemma generate_output_text_total_witness :
  exists text, generate_output_text (aggregate env_rich) = Ok text.
Proof.
  apply generate_output_text_total. reflexivity.
Defined.

(** X14 on the same aggregate. *)
Lemma report_ends_with_summary_witness :
  exists sections,
    match output_lines (aggregate env_rich) with
    | Ok report => report
    | Raise _ => []
    end
    = sections
        ++ map VStr
             ["PROCESSING SUMMARY:"%string; rule "-" 40;
              "Text Length: 5 characters"%string;
              "Images Found: 1"%string;
              "Tables Found: 2"%string;
              "OCR Length: 5 characters"%string].
Proof.
  apply (report_ends_with_summary (aggregate env_rich) "Hello"
           [VDict [("page", VInt 1); ("format", VStr "png")]]
           [VDict long_table; VDict short_table] "He11o");
    reflexivity.
Defined.

(** X15 on a file name with two dots: only the last extension is cut. *)
Lemma report_naming_rule_witness :
  exists status text,
    fst (process_one env_rich host_two "static/notes.v2.pdf" ([], []))
    = Ok (VDict [("input", VStr "notes.v2.pdf");
                 ("output", VStr "notes.v2_processed.txt");
                 ("status", VStr status)])
    /\ snd (snd (process_one env_rich host_two "static/notes.v2.pdf" ([], [])))
       = [DiskOpen "output/notes.v2_processed.txt";
          DiskWrite "output/notes.v2_processed.txt" text].
Proof.
  destruct (report_naming_rule env_rich host_two "static" "notes.v2" ([], [])
              (VDict [("input", VStr "notes.v2.pdf");
                      ("output", VStr "notes.v2_processed.txt");
                      ("status", VStr "success")])
              (snd (process_one env_rich host_two "static/notes.v2.pdf"
                      ([], [])))
              eq_refl eq_refl)
    as (status & text & Hentry & Hdisk).
  - vm_compute. reflexivity.
  - exists "success"%string, text. split; [|exact Hdisk].
    vm_compute. reflexivity.
Defined.

(** X16 on a folder of two files. *)
Lemma batch_writes_only_inside_output_witness :
  exists new,
    snd (snd (batch env_rich host_two)) = new /\ Forall inside_output new.
Proof.
  exact (batch_writes_only_inside_output env_rich host_two ([], [])).
Defined.

(** X17 on a folder of two files of which one does not pass validation. *)
Lemma batch_summary_witness :
  VDict [("message", VStr "Processed 2 files");
         ("files",
           VList [VDict [("input", VStr "a.pdf");
                         ("output", VStr "a_processed.txt");
                         ("status", VStr "success")];
                  VDict [("input", VStr "notes.v2.pdf");
                         ("output", VStr "notes.v2_processed.txt");
                         ("status", VStr "error")]])]
  = batch_payload env_only_a (glob_glob host_two "static/*.pdf").
Proof.
  apply (batch_summary env_only_a host_two ([], []) _
           (snd (batch env_only_a host_two))).
  vm_compute. reflexivity.
Defined.

(** X18 on a folder of two files whose extractors answer as their
    interfaces say, and on an empty folder. *)
Lemma batch_completes_on_well_typed_answers_witness :
  (exists texts l',
     List.length texts = 2
     /\ batch env_rich host_two
        = (Ok (batch_payload env_rich two_files),
           (l', DiskGlob "static/*.pdf"
                  :: flat_map saved
                       (combine ["output/a_processed.txt"%string;
                                 "output/notes.v2_processed.txt"%string]
                          texts))))
  /\ fst (batch env_rich host_none)
     = Ok (VDict [("error", VStr "No PDF files found in static folder")]).
Proof.
  split.
  - apply (batch_completes_on_well_typed_answers env_rich host_two ([], []));
      intros; reflexivity.
  - destruct (batch_completes_on_well_typed_answers env_rich host_none ([], []))
      as (texts & l' & _ & Hrun); [intros f [] | reflexivity | reflexivity |].
    unfold batch. now rewrite Hrun.
Defined.

(** X19 on a renderer fault, on an output folder that cannot be written
    and on a full disk: the second file is never reached. *)
Lemma batch_stops_at_first_fault_witness :
  (fst (batch env_bad_record host_two)
   = Raise (mk_exn AttributeError "'int' object has no attribute 'get'")
   /\ snd (snd (batch env_bad_record host_two)) = [DiskGlob "static/*.pdf"])
  /\ (fst (batch env_rich host_read_only)
      = Raise (mk_exn OtherException "[Errno 13] Permission denied")
      /\ snd (snd (batch env_rich host_read_only))
         = [DiskGlob "static/*.pdf"; DiskOpen "output/a_processed.txt"])
  /\ (fst (batch env_rich host_full)
      = Raise (mk_exn OtherException "[Errno 28] No space left on device")
      /\ snd (snd (batch env_rich host_full))
         = [DiskGlob "static/*.pdf"; DiskOpen "output/a_processed.txt";
            DiskWrite "output/a_processed.txt"
              (report_of env_rich "static/a.pdf")]).
Proof.
  split; [|split].
  - destruct (batch_stops_at_first_fault env_bad_record host_two ([], [])
                "static/a.pdf" ["static/notes.v2.pdf"%string]
                (match fst (process_pdf env_bad_record "static/a.pdf" "a.pdf" [])
                 with Ok results => results | Raise _ => [] end)
                (snd (process_pdf env_bad_record "static/a.pdf" "a.pdf" []))
                (mk_exn AttributeError "'int' object has no attribute 'get'")
                eq_refl)
      as (Hrender & _).
    + vm_compute. reflexivity.
    + unfold batch. rewrite Hrender; [split; reflexivity|].
      vm_compute. reflexivity.
  - destruct (batch_stops_at_first_fault env_rich host_read_only ([], [])
                "static/a.pdf" ["static/notes.v2.pdf"%string]
                (match fst (process_pdf env_rich "static/a.pdf" "a.pdf" [])
                 with Ok results => results | Raise _ => [] end)
                (snd (process_pdf env_rich "static/a.pdf" "a.pdf" []))
                (mk_exn OtherException "[Errno 13] Permission denied")
                eq_refl)
      as (_ & Hopen & _).
    + vm_compute. reflexivity.
    + unfold batch.
      rewrite (Hopen (report_of env_rich "static/a.pdf"));
        [split; reflexivity | vm_compute; reflexivity | reflexivity].
  - destruct (batch_stops_at_first_fault env_rich host_full ([], [])
                "static/a.pdf" ["static/notes.v2.pdf"%string]
                (match fst (process_pdf env_rich "static/a.pdf" "a.pdf" [])
                 with Ok results => results | Raise _ => [] end)
                (snd (process_pdf env_rich "static/a.pdf" "a.pdf" []))
                (mk_exn OtherException "[Errno 28] No space left on device")
                eq_refl)
      as (_ & _ & Hwrite).
    + vm_compute. reflexivity.
    + unfold batch.
      rewrite (Hwrite (report_of env_rich "static/a.pdf"));
        [split; reflexivity | vm_compute; reflexivity | reflexivity
        | reflexivity].
Defined.
